(** * GraphShift multi-repository analysis scheduler

    A shallow embedding of [src/services/analysis_service.py] and
    [src/services/base_analyzer.py], and the properties of the scheduler,
    discovery, aggregation and cleanup glue that the specification states.

    Layout: Python values and exceptions; the effect monad (an event trace
    plus a raised exception); the external collaborators as one [World]
    record; [BaseAnalyzer]; [AnalysisService]; the permit-pool transition
    system for the concurrent part; then the theorems. *)

From Stdlib Require Import ZArith Lia String Ascii List Bool.
From stdpp Require Import base list strings relations pretty gmap.

Open Scope string_scope.
Open Scope list_scope.

(** ** Python values

    Configuration dictionaries and the JSON artifact of the analysis engine
    are Python values.  Dictionaries are association lists with distinct
    keys, first binding wins.  Numbers are integers: the code never looks
    inside a number beyond its truth value. *)

#[local] Set Warnings "-register-all".

Inductive pyval :=
| PNone
| PBool (b : bool)
| PInt (n : Z)
| PStr (s : string)
| PList (l : list pyval)
| PDict (kvs : list (string * pyval)).

(** Python truth value: [None], [False], [0], [""], [[]] and [{}] are false. *)
Definition truthy (v : pyval) : bool :=
  match v with
  | PNone => false
  | PBool b => b
  | PInt n => negb (n =? 0)%Z
  | PStr s => match s with EmptyString => false | _ => true end
  | PList l => match l with [] => false | _ => true end
  | PDict kvs => match kvs with [] => false | _ => true end
  end.

Definition str_truthy (s : string) : bool :=
  match s with EmptyString => false | _ => true end.

(** A string is the UTF-8 encoding of a Python [str]: its length in Python
    is the number of code points, that is of bytes that are not continuation
    bytes (10xxxxxx). *)
Definition starts_code_point (c : ascii) : bool :=
  match c with Ascii _ _ _ _ _ _ b6 b7 => negb (b7 && negb b6) end.

Fixpoint code_points (s : string) : nat :=
  match s with
  | EmptyString => 0
  | String c rest => (if starts_code_point c then 1 else 0) + code_points rest
  end.

(** [len(v)]: defined on strings, lists and dictionaries only. *)
Definition py_len (v : pyval) : option nat :=
  match v with
  | PStr s => Some (code_points s)
  | PList l => Some (length l)
  | PDict kvs => Some (length kvs)
  | _ => None
  end.

Fixpoint assoc_get {A} (k : string) (kvs : list (string * A)) : option A :=
  match kvs with
  | [] => None
  | (k', v) :: rest => if String.eqb k k' then Some v else assoc_get k rest
  end.

(** ** Exceptions and results

    The exceptions are instances of Python's [Exception]; interpreter
    signals outside that hierarchy (a keyboard interrupt, the cancellation
    of a task) are not modelled. *)

Inductive exn_class :=
| ExcException      (* raise Exception(...) *)
| ExcValueError
| ExcTypeError
| ExcAttributeError
| ExcKeyError
| ExcOSError
| ExcRuntimeError.

Record exn := Exn { exn_cls : exn_class; exn_msg : string }.

(** A call returns a value, raises, or never returns ([Hang]: every task of
    a batch waits for a permit that no one will release). *)
Inductive result (A : Type) :=
| Ok (a : A)
| Raise (e : exn)
| Hang.
Arguments Ok {A} a.
Arguments Raise {A} e.
Arguments Hang {A}.

Definition result_bind {A B} (f : A -> result B) (r : result A) : result B :=
  match r with
  | Ok a => f a
  | Raise e => Raise e
  | Hang => Hang
  end.

#[global] Instance result_mret : MRet result := @Ok.
#[global] Instance result_mbind : MBind result := @result_bind.

Definition exn_class_eqb (c d : exn_class) : bool :=
  match c, d with
  | ExcException, ExcException | ExcValueError, ExcValueError
  | ExcTypeError, ExcTypeError | ExcAttributeError, ExcAttributeError
  | ExcKeyError, ExcKeyError | ExcOSError, ExcOSError
  | ExcRuntimeError, ExcRuntimeError => true
  | _, _ => false
  end.

(** [except (c1, c2, ...)]: every class here derives from [Exception]
    directly, so a handler for [Exception] takes them all. *)
Definition caught_by (handler : list exn_class) (e : exn) : bool :=
  existsb (fun c => exn_class_eqb c ExcException || exn_class_eqb c (exn_cls e)) handler.

(** [type(v).__name__] *)
Definition py_type_name (v : pyval) : string :=
  match v with
  | PNone => "NoneType"
  | PBool _ => "bool"
  | PInt _ => "int"
  | PStr _ => "str"
  | PList _ => "list"
  | PDict _ => "dict"
  end.

(** The [AttributeError] of [v.get] on a value without that method. *)
Definition no_get (v : pyval) : exn :=
  Exn ExcAttributeError ("'" +:+ py_type_name v +:+ "' object has no attribute 'get'").

(** [d.get(k, default)]; on a value that is not a dictionary the attribute
    lookup fails. *)
Definition dict_get (v : pyval) (k : string) (default : pyval) : result pyval :=
  match v with
  | PDict kvs => Ok (match assoc_get k kvs with Some x => x | None => default end)
  | _ => Raise (no_get v)
  end.

(** ** Events and the effect monad

    A computation yields the events it emitted, in order, and either a value
    or the exception it raised.  Events emitted before a raise are kept. *)

Record CloneResult := {
  repo_name : string;
  local_path : string;
  success : bool
}.

(** An entry of [repo_items]: a [Path] of a local child directory, or a
    clone-result dictionary.  The code tells them apart by [is_local]. *)
Inductive RepoItem :=
| LocalItem (p : string)
| ClonedItem (c : CloneResult).

Inductive event :=
| EvProgress (msg : string)               (* progress_callback(msg) *)
| EvLogError (msg : string)               (* logger.error(msg) *)
| EvJar (cmd : list string)               (* the engine ran as a child process *)
| EvCloneOne (url : string)
| EvCloneMany (repos : list pyval)
| EvCleanup (items : list RepoItem)       (* cleanup_cloned_repositories(items) *)
| EvAggregate (total repos : nat).        (* lines 177-186 were evaluated *)

Definition M (A : Type) : Type := (list event * result A)%type.

Definition ret {A} (a : A) : M A := ([], Ok a).
Definition raise {A} (e : exn) : M A := ([], Raise e).
Definition emit (ev : event) : M unit := ([ev], Ok tt).
Definition lift {A} (r : result A) : M A := ([], r).

Definition bind {A B} (m : M A) (f : A -> M B) : M B :=
  match m with
  | (t, Ok a) => let '(t', r) := f a in (t ++ t', r)
  | (t, Raise e) => (t, Raise e)
  | (t, Hang) => (t, Hang)
  end.

(** [try: body except (classes) as e: handler e] *)
Definition try_except {A} (body : M A) (classes : list exn_class)
    (handler : exn -> M A) : M A :=
  match body with
  | (t, Ok a) => (t, Ok a)
  | (t, Raise e) =>
      if caught_by classes e
      then let '(t', r) := handler e in (t ++ t', r)
      else (t, Raise e)
  | (t, Hang) => (t, Hang)
  end.

#[global] Instance M_ret : MRet M := @ret.
#[global] Instance M_bind : MBind M := fun A B f m => bind m f.

Definition trace_of {A} (m : M A) : list event := fst m.
Definition value_of {A} (m : M A) : result A := snd m.

Definition log_error (msg : string) : M unit := emit (EvLogError msg).

(** [if progress_callback: progress_callback(msg)].  The callback is the
    caller's: [True] stands for one that records the message and returns,
    as [_print_progress] of the command line does; a callback that raises
    is outside this model. *)
Definition notify (progress_callback : bool) (msg : string) : M unit :=
  if progress_callback then emit (EvProgress msg) else ret tt.

(** ** External collaborators

    Everything the two services reach outside themselves: pathlib and the
    file system, the analysis engine run as a child process, the SCM listing
    service and the clone service.  Each may fail with an exception where the
    library call can.  Answers are a function of the call. *)

Record World := {
  (* pathlib *)
  path_exists : string -> bool;
  path_is_dir : string -> bool;
  path_resolve : string -> result string;
  path_name : string -> string;
  path_iterdir : string -> result (list string);
  path_rglob_java : string -> result (list string);
  (* create_subprocess_exec and communicate: return code and stderr *)
  jar_run : list string -> result (Z * string);
  (* the file at a path once the command has exited: absent, or what
     json.load makes of it *)
  artifact_after : list string -> string -> option (result pyval);
  artifact_unlink : list string -> string -> result unit;
  (* scm_service *)
  create_scm_service : pyval -> result unit;
  list_org_repos : string -> string -> Z -> result (list pyval * option string);
  filter_java_repos : list pyval -> result (list pyval);
  (* clone_service *)
  create_clone_service : pyval -> result unit;
  clone_single_repository : string -> result (option string);
  clone_organization_repositories :
    list pyval -> string -> pyval -> result (list CloneResult);
  cleanup_cloned_repositories : list RepoItem -> result unit
}.

(** ** base_analyzer.py *)

Record BaseAnalyzer := {
  jar_path : string;
  memory_overrides : gmap string string;
  default_memory : string;
  default_initial_memory : string
}.

Definition str_or_default (v : pyval) (d : string) : string :=
  match v with PStr s => s | _ => d end.

(** [BaseAnalyzer.__init__] *)
Definition BaseAnalyzer_init (config : pyval)
    (overrides : option (gmap string string)) : result BaseAnalyzer :=
  gs ← dict_get config "graphshift" (PDict []);
  jar_config ← dict_get gs "jar" (PDict []);
  path ← dict_get jar_config "path" (PStr "gs-analyzer.jar");
  match path with
  | PStr p =>
      dm ← dict_get jar_config "memory" (PStr "2g");
      dim ← dict_get jar_config "initial_memory" (PStr "512m");
      Ok {| jar_path := p;
            memory_overrides := default ∅ overrides;
            default_memory := str_or_default dm "2g";
            default_initial_memory := str_or_default dim "512m" |}
  | _ => Raise (Exn ExcTypeError "expected str, bytes or os.PathLike object")
  end.

(** [a.get(k1) or a.get(k2) or d] on a dictionary of strings *)
Definition override_or (ov : gmap string string) (k1 k2 d : string) : string :=
  match ov !! k1 with
  | Some s => if str_truthy s then s else
      match ov !! k2 with
      | Some s2 => if str_truthy s2 then s2 else d
      | None => d
      end
  | None =>
      match ov !! k2 with
      | Some s2 => if str_truthy s2 then s2 else d
      | None => d
      end
  end.

(** line 78: the artifact's file name *)
Definition output_file (target_jdk scope : string) : string :=
  "temp_analysis_" +:+ target_jdk +:+ "_" +:+ scope +:+ ".json".

(** line 104: [Path('oss/outputs') / output_file] *)
Definition output_path (target_jdk scope : string) : string :=
  "oss/outputs/" +:+ output_file target_jdk scope.

(** lines 79-89.  Paths are kept as the strings they were given as:
    [str(Path(p))] is taken to be [p], which holds for a normalised [p]. *)
Definition jar_command (self : BaseAnalyzer) (directory_path target_jdk scope : string)
  : list string :=
  let memory := override_or (memory_overrides self) "memory" "heap_size" (default_memory self) in
  let initial_memory :=
    override_or (memory_overrides self) "initial_memory" "initial_heap"
                (default_initial_memory self) in
  [ "java"; "-Xmx" +:+ memory; "-Xms" +:+ initial_memory; "-Xss4m";
    "-jar"; jar_path self;
    "-d"; directory_path;
    "-t"; target_jdk;
    "--scope"; scope;
    "-o"; output_file target_jdk scope ].

(** The artifact path a call of [analyze_directory] reads and deletes. *)
Definition artifact_path_of_call (directory_path target_jdk scope : string) : string :=
  output_path target_jdk scope.

(** [BaseAnalyzer.analyze_directory]; [PNone] is Python's [None]. *)
Definition analyze_directory (w : World) (self : BaseAnalyzer)
    (directory_path target_jdk scope : string) : M pyval :=
  try_except
    (if negb (path_exists w directory_path) || negb (path_is_dir w directory_path)
     then log_error ("Directory does not exist: " +:+ directory_path) ;; ret PNone
     else
       let cmd := jar_command self directory_path target_jdk scope in
       emit (EvJar cmd) ;;
       out ← lift (jar_run w cmd);
       let '(returncode, stderr) := out in
       if (returncode =? 0)%Z then
         let p := artifact_path_of_call directory_path target_jdk scope in
         match artifact_after w cmd p with
         | Some content =>
             res ← lift content;
             lift (artifact_unlink w cmd p) ;;
             ret res
         | None =>
             log_error "JAR completed but output file not found" ;; ret PNone
         end
       else log_error ("JAR analysis failed: " +:+ stderr) ;; ret PNone)
    [ExcException]
    (fun e => log_error ("JAR execution failed: " +:+ exn_msg e) ;; ret PNone).

(** ** analysis_service.py *)

Record AnalysisService := {
  config : pyval;
  base_analyzer : BaseAnalyzer;
  max_concurrent_repos : pyval
}.

(** lines 30-31 *)
Definition configured_max_concurrent_repos (config : pyval) : result pyval :=
  gs ← dict_get config "graphshift" (PDict []);
  analysis_config ← dict_get gs "analysis" (PDict []);
  dict_get analysis_config "max_concurrent_repos" (PInt 5).

(** [AnalysisService.__init__] *)
Definition AnalysisService_init (w : World) (config : pyval) : result AnalysisService :=
  ba ← BaseAnalyzer_init config None;
  create_clone_service w config;;
  c ← configured_max_concurrent_repos config;
  Ok {| config := config; base_analyzer := ba; max_concurrent_repos := c |}.

(** The dictionary [_base_repo_analyzer] returns. *)
Record RepoResult := {
  repository : string;
  findings : pyval;
  total_issues : nat
}.

Record SingleResult := {
  single_result : RepoResult;
  single_type : string;
  single_repos_analyzed : nat;
  cleanup_path : option string
}.

Record OrgResult := {
  org_type : string;
  organization : string;
  repositories : list RepoResult;
  org_total_issues : nat;
  repos_analyzed : nat;
  cleanup_paths : option (list string)
}.

Inductive RunResult :=
| SingleRepo (r : SingleResult)
| Organization (r : OrgResult).

Definition len (v : pyval) : result nat :=
  match py_len v with
  | Some n => Ok n
  | None => Raise (Exn ExcTypeError "object has no len()")
  end.

(** lines 188-224 *)
Definition _base_repo_analyzer (w : World) (self : AnalysisService)
    (local_path repo_name to_version scope : string) (progress_callback : bool)
  : M RepoResult :=
  notify progress_callback ("Running analysis on " +:+ repo_name);;
  raw_result ← analyze_directory w (base_analyzer self) local_path to_version scope;
  if negb (truthy raw_result)
  then raise (Exn ExcException ("JAR analysis failed for " +:+ repo_name))
  else
    findings ← lift (match raw_result with
                     | PList _ => Ok raw_result
                     | _ => dict_get raw_result "findings" (PList [])
                     end);
    n ← lift (len findings);
    notify progress_callback
      ("Analysis complete: " +:+ pretty n +:+ " issues found in " +:+ repo_name);;
    ret {| repository := repo_name; findings := findings; total_issues := n |}.

(** lines 229-236: the loop body over the remaining directory entries *)
Fixpoint discover_loop (w : World) (max_repos : Z) (items repo_dirs : list string)
  : result (list string) :=
  match items with
  | [] => Ok repo_dirs
  | item :: rest =>
      if path_is_dir w item && negb (String.prefix "." (path_name w item)) then
        java_files ← path_rglob_java w item;
        match java_files with
        | [] => discover_loop w max_repos rest repo_dirs
        | _ :: _ =>
            let repo_dirs' := repo_dirs ++ [item] in
            if (Z.of_nat (length repo_dirs') >=? max_repos)%Z
            then Ok repo_dirs'
            else discover_loop w max_repos rest repo_dirs'
        end
      else discover_loop w max_repos rest repo_dirs
  end.

(** lines 226-237 *)
Definition _discover_local_repos (w : World) (org_path : string) (max_repos : Z)
  : result (list string) :=
  items ← path_iterdir w org_path;
  discover_loop w max_repos items [].

(** [l[:n]] *)
Definition slice_to {A} (l : list A) (n : Z) : list A :=
  if (0 <=? n)%Z then take (Z.to_nat n) l
  else take (length l - Z.to_nat (- n)) l.

Definition is_nil {A} (l : list A) : bool :=
  match l with [] => true | _ => false end.

Definition error_truthy (error : option string) : bool :=
  match error with Some s => str_truthy s | None => false end.

Definition error_str (error : option string) : string :=
  match error with Some s => s | None => "None" end.

(** lines 239-268 *)
Definition _discover_and_clone_remote_repos (w : World) (self : AnalysisService)
    (org_name provider : string) (max_repos : Z) (progress_callback : bool)
  : M (list CloneResult) :=
  lift (create_scm_service w (config self));;
  listing ← lift (list_org_repos w org_name provider max_repos);
  let '(all_repos, error) := listing in
  if error_truthy error || is_nil all_repos
  then raise (Exn ExcException ("Failed to discover repositories: " +:+ error_str error))
  else
    filtered ← lift (filter_java_repos w all_repos);
    let java_repos := slice_to filtered max_repos in
    if is_nil java_repos
    then raise (Exn ExcException ("No Java repositories found in " +:+ org_name))
    else
      notify progress_callback
        ("Cloning " +:+ pretty (length java_repos) +:+ " repositories");;
      emit (EvCloneMany java_repos);;
      clone_results ← lift (clone_organization_repositories w java_repos org_name
                              (max_concurrent_repos self));
      ret (filter (fun c => success c = true) clone_results).

(** [asyncio.Semaphore(value)]: the initial number of permits. *)
Definition Semaphore (value : pyval) : result nat :=
  match value with
  | PInt n =>
      if (n <? 0)%Z
      then Raise (Exn ExcValueError "Semaphore initial value must be >= 0")
      else Ok (Z.to_nat n)
  | PBool b => Ok (if b then 1 else 0)
  | _ => Raise (Exn ExcTypeError "'<' not supported between instances")
  end.

(** lines 284-302: the body of one task, between acquiring and releasing
    its permit.  [repo_name] is unbound in the handler exactly when the
    item does not have the shape [is_local] announces. *)
Definition analyze_single_item (w : World) (self : AnalysisService)
    (to_version scope : string) (progress_callback is_local : bool)
    (item : RepoItem) : M (option RepoResult) :=
  let bound_name :=
    match is_local, item with
    | true, LocalItem p => path_name w p
    | false, ClonedItem c => repo_name c
    | _, _ => "unknown"
    end in
  try_except
    (match is_local, item with
     | true, LocalItem p =>
         r ← _base_repo_analyzer w self p (path_name w p) to_version scope
               progress_callback;
         ret (Some r)
     | false, ClonedItem c =>
         r ← _base_repo_analyzer w self (local_path c) (repo_name c) to_version scope
               progress_callback;
         ret (Some r)
     | true, ClonedItem _ =>
         raise (Exn ExcAttributeError "'dict' object has no attribute 'name'")
     | false, LocalItem _ =>
         raise (Exn ExcTypeError "'PosixPath' object is not subscriptable")
     end)
    [ExcException]
    (fun e =>
       log_error ("Analysis failed for " +:+ bound_name +:+ ": " +:+ exn_msg e);;
       ret None).

Definition is_hang {A} (r : result A) : bool :=
  match r with Hang => true | _ => false end.

(** line 306: [asyncio.gather] with [return_exceptions=True].  It returns
    when every task has, one entry per task in submission order, a raised
    exception kept as the entry.  The trace is that of the schedule which
    runs the tasks in submission order. *)
Definition gather {A} (tasks : list (M A)) : M (list (result A)) :=
  (concat (map trace_of tasks),
   if existsb is_hang (map value_of tasks) then Hang else Ok (map value_of tasks)).

(** lines 309-316 *)
Fixpoint collect_successful (results : list (result (option RepoResult)))
  : M (list RepoResult) :=
  match results with
  | [] => ret []
  | Raise e :: rest =>
      log_error ("Analysis task failed: " +:+ exn_msg e);;
      collect_successful rest
  | Ok (Some r) :: rest =>
      rs ← collect_successful rest;
      ret (r :: rs)
  | _ :: rest => collect_successful rest
  end.

(** The join behind a semaphore.  With no permit at all no task ever passes
    [async with semaphore], and the join waits forever. *)
Definition gather_under {A} (permits : nat) (tasks : list (M A))
  : M (list (result A)) :=
  match permits, tasks with
  | O, _ :: _ => lift Hang
  | _, _ => gather tasks
  end.

(** lines 270-316 *)
Definition _parallel_repo_analysis (w : World) (self : AnalysisService)
    (repo_items : list RepoItem) (to_version scope : string)
    (progress_callback is_local : bool) : M (list RepoResult) :=
  permits ← lift (Semaphore (max_concurrent_repos self));
  let tasks :=
    map (analyze_single_item w self to_version scope progress_callback is_local)
        repo_items in
  results ← gather_under permits tasks;
  collect_successful results.

(** lines 318-320 *)
Definition _cleanup_cloned_repos (w : World) (clone_results : list RepoItem) : M unit :=
  emit (EvCleanup clone_results);;
  lift (cleanup_cloned_repositories w clone_results).

Definition url_like (s : string) : bool :=
  String.prefix "http://" s || String.prefix "https://" s || String.prefix "git@" s.

(** lines 322-330 *)
Definition _is_local_path (w : World) (path_or_url : string) : result bool :=
  if url_like path_or_url then Ok false
  else
    match path_resolve w path_or_url with
    | Ok p => Ok (path_exists w p)
    | Raise e => if caught_by [ExcOSError; ExcValueError] e then Ok false else Raise e
    | Hang => Hang
    end.

(** [s.split("/")[-1]] *)
Fixpoint last_segment (s acc : string) : string :=
  match s with
  | EmptyString => acc
  | String c rest =>
      if Ascii.eqb c "/" then last_segment rest ""
      else last_segment rest (acc +:+ String c "")
  end.

(** [s.replace(".git", "")]; [skip] counts the characters of a match still
    to drop. *)
Fixpoint remove_dot_git (s : string) (skip : nat) : string :=
  match s with
  | EmptyString => ""
  | String c rest =>
      match skip with
      | S k => remove_dot_git rest k
      | O =>
          if String.prefix ".git" s then remove_dot_git rest 3
          else String c (remove_dot_git rest 0)
      end
  end.

(** lines 332-337 *)
Definition _extract_repo_name (w : World) (repo_path_or_url : string) : string :=
  if url_like repo_path_or_url
  then remove_dot_git (last_segment repo_path_or_url "") 0
  else path_name w repo_path_or_url.

Definition opt_str_truthy (o : option string) : bool :=
  match o with Some s => str_truthy s | None => false end.

(** lines 67-116 *)
Definition _analyze_single_repo (w : World) (self : AnalysisService)
    (repo_path to_version scope : string) (progress_callback : bool)
  : M SingleResult :=
  is_local ← lift (_is_local_path w repo_path);
  located ←
    (if is_local : bool then
       resolved ← lift (path_resolve w repo_path);
       let name := path_name w resolved in
       notify progress_callback ("Analyzing local repository: " +:+ name);;
       ret (resolved, name, None)
     else
       notify progress_callback "Cloning remote repository";;
       emit (EvCloneOne repo_path);;
       clone_result ← lift (clone_single_repository w repo_path);
       match clone_result with
       | Some p =>
           if str_truthy p then
             let name := _extract_repo_name w repo_path in
             notify progress_callback ("Analyzing cloned repository: " +:+ name);;
             ret (p, name, Some p)
           else raise (Exn ExcException ("Failed to clone repository: " +:+ repo_path))
       | None => raise (Exn ExcException ("Failed to clone repository: " +:+ repo_path))
       end);
  let '(path, name, cleanup) := located in
  result ← _base_repo_analyzer w self path name to_version scope progress_callback;
  ret {| single_result := result;
         single_type := "single_repo";
         single_repos_analyzed := 1;
         cleanup_path := cleanup |}.

(** line 177: [sum(len(r.get('findings', [])) for r in analysis_results)] *)
Fixpoint sum_findings (analysis_results : list RepoResult) : result nat :=
  match analysis_results with
  | [] => Ok 0
  | r :: rest =>
      n ← len (findings r);
      m ← sum_findings rest;
      Ok (n + m)
  end.

(** lines 131-159: the discovery branch; the items and [cleanup_paths] *)
Definition discover_repo_items (w : World) (self : AnalysisService)
    (org_name : string) (max_repos : Z) (keep_clones : bool)
    (provider : string) (progress_callback : bool)
  : M (list RepoItem * option (list string)) :=
  let is_local := path_exists w org_name && path_is_dir w org_name in
  if is_local then
    notify progress_callback
      ("Discovering repositories in local directory: " +:+ org_name);;
    dirs ← lift (_discover_local_repos w org_name max_repos);
    ret (map LocalItem dirs, None)
  else
    notify progress_callback
      ("Discovering repositories in remote organization: " +:+ org_name);;
    clones ← _discover_and_clone_remote_repos w self org_name provider max_repos
               progress_callback;
    ret (map ClonedItem clones,
         if negb keep_clones then None
         else Some (map local_path (filter (fun c => success c = true) clones))).

(** lines 118-186 *)
Definition _analyze_organization (w : World) (self : AnalysisService)
    (org_name to_version scope : string) (max_repos : Z) (keep_clones : bool)
    (provider : string) (progress_callback : bool) : M OrgResult :=
  let is_local := path_exists w org_name && path_is_dir w org_name in
  discovered ← discover_repo_items w self org_name max_repos keep_clones provider
                 progress_callback;
  let '(repo_items, paths) := discovered in
  if is_nil repo_items
  then raise (Exn ExcException ("No Java repositories found in " +:+ org_name))
  else
    notify progress_callback
      ("Starting parallel analysis of " +:+ pretty (length repo_items)
       +:+ " repositories");;
    analysis_results ← _parallel_repo_analysis w self repo_items to_version scope
                         progress_callback is_local;
    (if negb is_local && negb keep_clones
     then _cleanup_cloned_repos w repo_items
     else ret tt);;
    total ← lift (sum_findings analysis_results);
    emit (EvAggregate total (length analysis_results));;
    ret {| org_type := "organization";
           organization := org_name;
           repositories := analysis_results;
           org_total_issues := total;
           repos_analyzed := length analysis_results;
           cleanup_paths := paths |}.

(** lines 33-65 *)
Definition run_analysis (w : World) (self : AnalysisService)
    (repo_path org_name : option string) (to_version scope : string)
    (max_repos : Z) (keep_clones : bool) (provider : string)
    (progress_callback : bool) : M (option RunResult) :=
  try_except
    (if opt_str_truthy repo_path then
       r ← _analyze_single_repo w self (default "" repo_path) to_version scope
             progress_callback;
       ret (Some (SingleRepo r))
     else if opt_str_truthy org_name then
       r ← _analyze_organization w self (default "" org_name) to_version scope
             max_repos keep_clones provider progress_callback;
       ret (Some (Organization r))
     else raise (Exn ExcValueError "Must provide either repo_path or org_name"))
    [ExcException]
    (fun e => log_error ("Analysis failed: " +:+ exn_msg e);; ret None).

(** ** The permit pool as a transition system

    [_parallel_repo_analysis] starts one task per item; each task runs
    [async with semaphore: body].  A task is waiting for a permit, in flight
    (it holds a permit and its adapter invocation is running), or finished
    with the value its body returned.  The event loop may interleave the
    tasks in any order: a waiting task takes a permit when one is free, a
    task in flight whose body returns finishes and gives its permit back.
    [body item = None] is a body that never returns. *)

Inductive task_state (O : Type) :=
| Waiting
| InFlight
| Finished (r : O).
Arguments Waiting {O}.
Arguments InFlight {O}.
Arguments Finished {O} r.

Record pool (O : Type) := {
  permits : nat;
  tasks : list (task_state O)
}.
Arguments permits {O} p.
Arguments tasks {O} p.

Definition pool_init {I O} (C : nat) (items : list I) : pool O :=
  {| permits := C; tasks := replicate (length items) Waiting |}.

Inductive pool_step {I O} (body : I -> option O) (items : list I)
  : pool O -> pool O -> Prop :=
| step_acquire (s : pool O) (i : nat) :
    tasks s !! i = Some Waiting ->
    0 < permits s ->
    pool_step body items s
      {| permits := permits s - 1; tasks := <[i := InFlight]> (tasks s) |}
| step_release (s : pool O) (i : nat) (item : I) (r : O) :
    tasks s !! i = Some InFlight ->
    items !! i = Some item ->
    body item = Some r ->
    pool_step body items s
      {| permits := S (permits s); tasks := <[i := Finished r]> (tasks s) |}.

Definition is_in_flight {O} (t : task_state O) : bool :=
  match t with InFlight => true | _ => false end.

Definition is_waiting {O} (t : task_state O) : bool :=
  match t with Waiting => true | _ => false end.

(** How many adapter invocations are running. *)
Definition in_flight {O} (s : pool O) : nat :=
  length (List.filter is_in_flight (tasks s)).

Definition waiting {O} (s : pool O) : nat :=
  length (List.filter is_waiting (tasks s)).

Definition finished_value {O} (t : task_state O) : option O :=
  match t with Finished r => Some r | _ => None end.

(** What the join hands back: nothing until every task has finished, then
    the values in submission order. *)
Definition joined {O} (s : pool O) : option (list O) :=
  mapM finished_value (tasks s).

(** A state the pool can be in after some interleaving. *)
Definition reachable {I O} (body : I -> option O) (C : nat) (items : list I) (s : pool O) : Prop :=
  rtc (pool_step body items) (pool_init C items) s.

(** The pool's view of one task: the value its body hands to the join, or
    nothing when the body never returns. *)
Definition task_body (w : World) (self : AnalysisService)
    (to_version scope : string) (progress_callback is_local : bool)
    (item : RepoItem) : option (result (option RepoResult)) :=
  match value_of (analyze_single_item w self to_version scope progress_callback
                    is_local item) with
  | Hang => None
  | r => Some r
  end.

(** ** Vocabulary of the specification *)

(** The terminal outcome of one item: its analysis result, or a recorded
    failure. *)
Definition outcome (w : World) (self : AnalysisService)
    (to_version scope : string) (progress_callback is_local : bool)
    (item : RepoItem) : result (option RepoResult) :=
  value_of (analyze_single_item w self to_version scope progress_callback
              is_local item).

(** The successful outcome of an item, if it has one. *)
Definition success_of (w : World) (self : AnalysisService)
    (to_version scope : string) (progress_callback is_local : bool)
    (item : RepoItem) : option RepoResult :=
  match outcome w self to_version scope progress_callback is_local item with
  | Ok (Some r) => Some r
  | _ => None
  end.

(** What the adapter answered for an item of the batch. *)
Definition adapter_result (w : World) (self : AnalysisService)
    (to_version scope : string) (is_local : bool) (item : RepoItem)
  : option (result pyval) :=
  match is_local, item with
  | true, LocalItem p =>
      Some (value_of (analyze_directory w (base_analyzer self) p to_version scope))
  | false, ClonedItem c =>
      Some (value_of (analyze_directory w (base_analyzer self) (local_path c)
                        to_version scope))
  | _, _ => None
  end.

(** The adapter's Failure: [analyze_directory] came back with [None] (the
    engine exited non-zero, the artifact was missing or unreadable, or the
    directory was). *)
Definition adapter_fails (w : World) (self : AnalysisService)
    (to_version scope : string) (is_local : bool) (item : RepoItem) : Prop :=
  adapter_result w self to_version scope is_local item = Some (Ok PNone).

(** The filter of lines 309-316 on one entry of the join. *)
Definition keep_success (r : result (option RepoResult)) : option RepoResult :=
  match r with
  | Ok (Some x) => Some x
  | _ => None
  end.

(** The order C3 asks for: whenever cleanup is invoked, the aggregation has
    already been evaluated. *)
Definition cleanup_follows_aggregation (t : list event) : Prop :=
  forall pre items post,
    t = pre ++ EvCleanup items :: post ->
    exists total n, EvAggregate total n ∈ pre.

(** A child that passes the test of lines 230-233: a directory, not
    hidden, below which [rglob("*.java")] finds at least one path. *)
Definition qualifying (w : World) (item : string) : Prop :=
  path_is_dir w item = true /\
  String.prefix "." (path_name w item) = false /\
  exists f fs, path_rglob_java w item = Ok (f :: fs).

Definition is_jar (ev : event) : bool :=
  match ev with EvJar _ => true | _ => false end.

Definition is_cleanup (ev : event) : bool :=
  match ev with EvCleanup _ => true | _ => false end.

Definition is_aggregate (ev : event) : bool :=
  match ev with EvAggregate _ _ => true | _ => false end.

Definition not_cleanup (ev : event) : bool := negb (is_cleanup ev).

Definition not_progress (ev : event) : bool :=
  match ev with EvProgress _ => false | _ => true end.

(** Two computations that differ by progress notes only: the same value,
    and the events of the second are those of the first without the
    notes. *)
Definition same_but_progress {A} (m1 m2 : M A) : Prop :=
  value_of m1 = value_of m2 /\
  trace_of m2 = List.filter not_progress (trace_of m1).

Definition is_error_log (ev : event) : bool :=
  match ev with EvLogError _ => true | _ => false end.

(** The name under which an item of the batch is analysed (lines 288-293). *)
Definition item_name (w : World) (item : RepoItem) : string :=
  match item with
  | LocalItem p => path_name w p
  | ClonedItem c => repo_name c
  end.

(** The item has the shape [is_local] announces. *)
Definition well_shaped (is_local : bool) (item : RepoItem) : bool :=
  match is_local, item with
  | true, LocalItem _ | false, ClonedItem _ => true
  | _, _ => false
  end.

(** The adapter's Success for an item, and the result the task makes of it:
    a non-empty answer whose findings (the answer itself when it is a list,
    its [findings] entry otherwise) can be counted. *)
Definition adapter_succeeds (w : World) (self : AnalysisService)
    (to_version scope : string) (is_local : bool) (item : RepoItem)
    (r : RepoResult) : Prop :=
  exists raw,
    adapter_result w self to_version scope is_local item = Some (Ok raw) /\
    truthy raw = true /\
    match raw with
    | PList _ => Ok raw
    | _ => dict_get raw "findings" (PList [])
    end = Ok (findings r) /\
    py_len (findings r) = Some (total_issues r) /\
    repository r = item_name w item.

(** The directory holds a Java source file: a path matching [*.java] below
    it that is not itself a directory. *)
Definition contains_source_file (w : World) (dir : string) : Prop :=
  exists files f,
    path_rglob_java w dir = Ok files /\ f ∈ files /\ path_is_dir w f = false.

(** ** The rest of the two services *)

(** base_analyzer.py lines 123-133 *)
Definition get_memory_info (self : BaseAnalyzer) : string :=
  let memory :=
    override_or (memory_overrides self) "memory" "heap_size" (default_memory self) in
  let initial_memory :=
    override_or (memory_overrides self) "initial_memory" "initial_heap"
                (default_initial_memory self) in
  memory +:+ " memory, " +:+ initial_memory +:+ " initial".

(** The test of lines 230-233 on one directory entry, when the scan of the
    entry comes back. *)
Definition qualifies (w : World) (item : string) : bool :=
  path_is_dir w item && negb (String.prefix "." (path_name w item)) &&
  match path_rglob_java w item with
  | Ok (_ :: _) => true
  | _ => false
  end.

(** The scan of an entry that is looked into comes back. *)
Definition scan_returns (w : World) (item : string) : Prop :=
  path_is_dir w item && negb (String.prefix "." (path_name w item)) = true ->
  exists files, path_rglob_java w item = Ok files.

(** The character does not occur in the string. *)
Fixpoint no_char (c : ascii) (s : string) : bool :=
  match s with
  | EmptyString => true
  | String c' rest => negb (Ascii.eqb c' c) && no_char c rest
  end.

(** ** cli/main.py

    The orchestrator prints to standard output and hands the analysis
    result to the output formatter, a collaborator.  Its progress callback
    is [_print_progress], so a progress note of the service is a printed
    line here. *)

(** The keys of the formatter's answer that [_print_files_saved] reads;
    [None] is an absent key. *)
Record OutputResult := {
  files_saved : option (list string);
  output_type : option string;
  repositories_processed : option Z
}.

Record Formatter := {
  create_output_formatter : result unit;
  format_and_save : RunResult -> bool -> result OutputResult
}.

Inductive cli_event :=
| CliPrint (line : string)                       (* print(line) *)
| CliLogError (msg : string)                     (* self.logger.error(msg) *)
| CliSave (analysis_result : RunResult) (is_organization : bool)
                                                 (* format_and_save was called *)
| CliService (ev : event).                       (* the services' other events *)

(** lines 124-126: the callback handed to [run_analysis] *)
Definition cli_of_event (ev : event) : cli_event :=
  match ev with
  | EvProgress message => CliPrint ("Progress: " +:+ message)
  | _ => CliService ev
  end.

Definition result_total_issues (analysis_result : RunResult) : nat :=
  match analysis_result with
  | SingleRepo r => total_issues (single_result r)
  | Organization r => org_total_issues r
  end.

Definition result_repos_analyzed (analysis_result : RunResult) : nat :=
  match analysis_result with
  | SingleRepo r => single_repos_analyzed r
  | Organization r => repos_analyzed r
  end.

(** lines 128-132 *)
Definition _print_analysis_complete (analysis_result : RunResult) : string :=
  "Analysis complete: " +:+ pretty (result_total_issues analysis_result)
  +:+ " issues found across " +:+ pretty (result_repos_analyzed analysis_result)
  +:+ " repositories".

(** lines 134-147: the lines it prints *)
Definition _print_files_saved (output_result : OutputResult) : list string :=
  let files := default [] (files_saved output_result) in
  let total_files := length files in
  match output_type output_result with
  | Some "organization" =>
      [ "Reports saved: " +:+ pretty total_files +:+ " files ("
        +:+ pretty (default 0%Z (repositories_processed output_result))
        +:+ " repositories + organization summary)" ]
  | _ =>
      ("Reports saved: " +:+ pretty total_files +:+ " files")
      :: map (fun file_path => "  • " +:+ file_path) files
  end.

Definition opt_str (o : option string) : string :=
  match o with Some s => s | None => "None" end.

(** lines 93-96: the handler of [except Exception] *)
Definition orchestration_failed (e : exn) : list cli_event :=
  [ CliPrint ("Operation failed: " +:+ exn_msg e);
    CliLogError ("Orchestration failed: " +:+ exn_msg e) ].

(** lines 29-96 *)
Definition orchestrate_analysis (w : World) (fmt : Formatter) (config : pyval)
    (repo_path org_name : option string) (to_version scope : string)
    (max_repos : Z) (keep_clones : bool) (provider : string)
  : list cli_event * result bool :=
  match AnalysisService_init w config with
  | Raise e => (orchestration_failed e, Ok false)
  | Hang => ([], Hang)
  | Ok analysis_service =>
    match create_output_formatter fmt with
    | Raise e => (orchestration_failed e, Ok false)
    | Hang => ([], Hang)
    | Ok _ =>
      let starting :=
        if opt_str_truthy repo_path
        then "Starting analysis: " +:+ opt_str repo_path
        else "Starting organization analysis: " +:+ opt_str org_name
             +:+ " (up to " +:+ pretty max_repos +:+ " repos)" in
      let analysis :=
        run_analysis w analysis_service repo_path org_name to_version scope
          max_repos keep_clones provider true in
      let printed := CliPrint starting :: map cli_of_event (trace_of analysis) in
      match value_of analysis with
      | Raise e => (printed ++ orchestration_failed e, Ok false)
      | Hang => (printed, Hang)
      | Ok None =>
          (printed ++ [CliPrint "Operation failed: Analysis failed"], Ok false)
      | Ok (Some analysis_result) =>
          let is_organization := opt_str_truthy org_name in
          let saving :=
            printed ++ [ CliPrint (_print_analysis_complete analysis_result);
                         CliSave analysis_result is_organization ] in
          match format_and_save fmt analysis_result is_organization with
          | Raise e => (saving ++ orchestration_failed e, Ok false)
          | Hang => (saving, Hang)
          | Ok output_result =>
              (saving ++ map CliPrint (_print_files_saved output_result)
                      ++ [CliPrint "Operation completed successfully"],
               Ok true)
          end
      end
    end
  end.

(** The parsed arguments of the [analyze] command. *)
Record AnalyzeArgs := {
  arg_repo : option string;
  arg_local_path : option string;
  arg_org : option string;
  arg_local_org : option string;
  arg_to_version : string;
  arg_scope : string;
  arg_max_repos : Z;
  arg_no_keep_clones : bool;
  arg_provider : string
}.

(** [a or b] on optional strings *)
Definition opt_or (a b : option string) : option string :=
  if opt_str_truthy a then a else b.

(** lines 265-279: the [analyze] branch of [main] *)
Definition main_analyze (w : World) (fmt : Formatter) (config : pyval)
    (args : AnalyzeArgs) : list cli_event * result bool :=
  let repo_path := opt_or (arg_repo args) (arg_local_path args) in
  let org_name := opt_or (arg_org args) (arg_local_org args) in
  let keep_clones := negb (arg_no_keep_clones args) in
  orchestrate_analysis w fmt config repo_path org_name (arg_to_version args)
    (arg_scope args) (arg_max_repos args) keep_clones (arg_provider args).

(** lines 294-295: the exit status for a finished [main] *)
Definition exit_status (success : bool) : Z := if success then 0%Z else 1%Z.

(** ** A small world to run the model on

    A local organization directory [/org] with five repositories and a
    hidden entry, where the engine crashes on [/org/c]; a directory [/empty]
    without any Java file; and a remote organization [acme] with five
    repositories of which three clone. *)

Definition demo_dir_of (cmd : list string) : string := nth 7 cmd "".

Definition demo_artifact (dir : string) : pyval :=
  if String.eqb dir "/org/b"
  then PList [PStr "Thread.stop"]
  else PDict [("findings", PList [PStr "Date.getYear"; PStr "Runtime.runFinalization"])].

Definition demo_clones : list CloneResult :=
  [ {| repo_name := "r1"; local_path := "/tmp/acme/r1"; success := true |};
    {| repo_name := "r2"; local_path := "/tmp/acme/r2"; success := false |};
    {| repo_name := "r3"; local_path := "/tmp/acme/r3"; success := true |};
    {| repo_name := "r4"; local_path := "/tmp/acme/r4"; success := false |};
    {| repo_name := "r5"; local_path := "/tmp/acme/r5"; success := true |} ].

Definition demo_world : World := {|
  path_exists p := String.prefix "/" p;
  path_is_dir p := String.prefix "/" p;
  path_resolve p := Ok p;
  path_name p := last_segment p "";
  path_iterdir p :=
    if String.eqb p "/org"
    then Ok ["/org/a"; "/org/b"; "/org/.cache"; "/org/c"; "/org/d"; "/org/e"]
    else if String.eqb p "/empty" then Ok ["/empty/.git"; "/empty/docs"]
    else Raise (Exn ExcOSError "Not a directory");
  path_rglob_java p :=
    if String.eqb p "/empty/docs" then Ok [] else Ok [p +:+ "/Main.java"];
  jar_run cmd :=
    if String.eqb (demo_dir_of cmd) "/org/c"
    then Ok (1%Z, "engine crashed")
    else Ok (0%Z, "");
  artifact_after cmd _ := Some (Ok (demo_artifact (demo_dir_of cmd)));
  artifact_unlink _ _ := Ok tt;
  create_scm_service _ := Ok tt;
  list_org_repos org _ _ :=
    if String.eqb org "acme"
    then Ok ([PStr "r1"; PStr "r2"; PStr "r3"; PStr "r4"; PStr "r5"], None)
    else Ok ([], Some "organization not found");
  filter_java_repos repos := Ok repos;
  create_clone_service _ := Ok tt;
  clone_single_repository _ := Ok (Some "/tmp/clone");
  clone_organization_repositories _ _ _ := Ok demo_clones;
  cleanup_cloned_repositories _ := Ok tt
|}.

Definition demo_config : pyval :=
  PDict [("graphshift", PDict [("analysis", PDict [("max_concurrent_repos", PInt 2)])])].

Definition demo_service : AnalysisService := {|
  config := demo_config;
  base_analyzer := {| jar_path := "gs-analyzer.jar";
                      memory_overrides := ∅;
                      default_memory := "2g";
                      default_initial_memory := "512m" |};
  max_concurrent_repos := PInt 2
|}.

(** The small world with the network down: nothing clones and the listing
    reports an error. *)
Definition offline_world : World := {|
  path_exists := path_exists demo_world;
  path_is_dir := path_is_dir demo_world;
  path_resolve := path_resolve demo_world;
  path_name := path_name demo_world;
  path_iterdir := path_iterdir demo_world;
  path_rglob_java := path_rglob_java demo_world;
  jar_run := jar_run demo_world;
  artifact_after := artifact_after demo_world;
  artifact_unlink := artifact_unlink demo_world;
  create_scm_service := create_scm_service demo_world;
  list_org_repos _ _ _ := Ok ([], Some "connection refused");
  filter_java_repos := filter_java_repos demo_world;
  create_clone_service := create_clone_service demo_world;
  clone_single_repository _ := Ok None;
  clone_organization_repositories _ _ _ := Ok [];
  cleanup_cloned_repositories := cleanup_cloned_repositories demo_world
|}.

(** The demo service with another concurrency setting. *)
(** The small world where the engine finds nothing to report in [/org/a]:
    it exits with status 0 and leaves an empty list as its artifact. *)
Definition clean_repo_world : World := {|
  path_exists := path_exists demo_world;
  path_is_dir := path_is_dir demo_world;
  path_resolve := path_resolve demo_world;
  path_name := path_name demo_world;
  path_iterdir := path_iterdir demo_world;
  path_rglob_java := path_rglob_java demo_world;
  jar_run := jar_run demo_world;
  artifact_after cmd _ :=
    Some (Ok (if String.eqb (demo_dir_of cmd) "/org/a" then PList []
              else demo_artifact (demo_dir_of cmd)));
  artifact_unlink := artifact_unlink demo_world;
  create_scm_service := create_scm_service demo_world;
  list_org_repos := list_org_repos demo_world;
  filter_java_repos := filter_java_repos demo_world;
  create_clone_service := create_clone_service demo_world;
  clone_single_repository := clone_single_repository demo_world;
  clone_organization_repositories := clone_organization_repositories demo_world;
  cleanup_cloned_repositories := cleanup_cloned_repositories demo_world
|}.

(** A directory [/mono] with two children: below [/mono/docs] the only
    path matching [*.java] is a directory named [notes.java]; below
    [/mono/app] it is the file [Main.java]. *)
Definition java_dir_world : World := {|
  path_exists p := String.prefix "/" p;
  path_is_dir p := String.prefix "/" p && negb (String.eqb p "/mono/app/Main.java");
  path_resolve p := Ok p;
  path_name p := last_segment p "";
  path_iterdir p :=
    if String.eqb p "/mono" then Ok ["/mono/docs"; "/mono/app"]
    else Raise (Exn ExcOSError "Not a directory");
  path_rglob_java p :=
    if String.eqb p "/mono/docs" then Ok ["/mono/docs/notes.java"]
    else if String.eqb p "/mono/app" then Ok ["/mono/app/Main.java"]
    else Ok [];
  jar_run := jar_run demo_world;
  artifact_after := artifact_after demo_world;
  artifact_unlink := artifact_unlink demo_world;
  create_scm_service := create_scm_service demo_world;
  list_org_repos := list_org_repos demo_world;
  filter_java_repos := filter_java_repos demo_world;
  create_clone_service := create_clone_service demo_world;
  clone_single_repository := clone_single_repository demo_world;
  clone_organization_repositories := clone_organization_repositories demo_world;
  cleanup_cloned_repositories := cleanup_cloned_repositories demo_world
|}.

Definition demo_service_with (bound : pyval) : AnalysisService := {|
  config := config demo_service;
  base_analyzer := base_analyzer demo_service;
  max_concurrent_repos := bound
|}.

(** A formatter that writes two files per result. *)
Definition demo_formatter : Formatter := {|
  create_output_formatter := Ok tt;
  format_and_save analysis_result is_organization :=
    Ok {| files_saved := Some ["report.json"; "report.csv"];
          output_type := if is_organization then Some "organization" else Some "single";
          repositories_processed :=
            Some (Z.of_nat (result_repos_analyzed analysis_result)) |}
|}.

Definition demo_args : AnalyzeArgs := {|
  arg_repo := None;
  arg_local_path := None;
  arg_org := Some "acme";
  arg_local_org := None;
  arg_to_version := "21";
  arg_scope := "all-deprecations";
  arg_max_repos := 50;
  arg_no_keep_clones := false;
  arg_provider := "github"
|}.

(** The invariant every interleaving of the pool keeps: permits out plus
    permits left make [C]; no task appears or disappears; a finished task
    holds the value of the body on its own item. *)
Definition pool_inv {I O} (body : I -> option O) (C : nat) (items : list I)
    (s : pool O) : Prop :=
  permits s + in_flight s = C /\
  length (tasks s) = length items /\
  forall i r, tasks s !! i = Some (Finished r) ->
              exists item, items !! i = Some item /\ body item = Some r.

(** Two steps are left for a waiting task, one for a task in flight. *)
Definition pool_measure {O} (s : pool O) : nat := 2 * waiting s + in_flight s.

(** Every event of a computation is of the given kind. *)
Definition only (p : event -> bool) {A} (m : M A) : Prop :=
  Forall (fun ev => p ev = true) (trace_of m).

(** The events of discovery are progress notes and the clone call. *)
Definition discovery_event (ev : event) : bool :=
  match ev with
  | EvProgress _ | EvCloneMany _ => true
  | _ => false
  end.

(** The events of the analysis phase are progress notes, error logs and
    engine runs. *)
Definition analysis_event (ev : event) : bool :=
  match ev with
  | EvProgress _ | EvLogError _ | EvJar _ => true
  | _ => false
  end.

(** * Properties *)

(** ** The permit pool *)

Section PoolFacts.
Context {I O : Type} (body : I -> option O).

Lemma count_insert (p : task_state O -> bool) (ts : list (task_state O)) i t t' :
  ts !! i = Some t ->
  length (List.filter p (<[i := t']> ts)) + (if p t then 1 else 0)
  = length (List.filter p ts) + (if p t' then 1 else 0).
Proof.
  revert i. induction ts as [|a ts IH]; intros [|i] Hi; simpl in *; try discriminate.
  - injection Hi as ->. destruct (p t), (p t'); simpl; lia.
  - specialize (IH i Hi). destruct (p a); simpl; lia.
Qed.

Lemma joined_Some_lookup (ts : list (task_state O)) (rs : list O) :
  mapM finished_value ts = Some rs ->
  forall i, ts !! i = (Finished <$> rs) !! i.
Proof.
  rewrite mapM_Some. induction 1 as [|t r ts rs Ht _ IH]; intros i; [done|].
  destruct t; simpl in Ht; try discriminate. injection Ht as ->.
  destruct i; simpl; [done | apply IH].
Qed.

Lemma pool_inv_init C items : pool_inv body C items (pool_init C items).
Proof.
  unfold pool_inv, pool_init, in_flight; simpl. repeat split.
  - induction (length items) as [|n IH]; simpl; lia.
  - by rewrite length_replicate.
  - intros i r H. apply lookup_replicate in H as [H _]. discriminate.
Qed.

Lemma pool_inv_step C items s s' :
  pool_inv body C items s -> pool_step body items s s' -> pool_inv body C items s'.
Proof.
  intros (Hp & Hl & Hf) Hstep.
  destruct Hstep as [s i Hi Hpos | s i item r0 Hi Hitem Hb];
    unfold pool_inv, in_flight in *; simpl.
  - pose proof (count_insert is_in_flight _ _ _ InFlight Hi) as Hc. simpl in Hc.
    repeat split.
    + lia.
    + by rewrite length_insert.
    + intros j r Hj. destruct (decide (i = j)) as [->|Hne].
      * rewrite list_lookup_insert_eq in Hj; [discriminate|]. by eapply lookup_lt_Some.
      * rewrite list_lookup_insert_ne in Hj by done. by apply Hf.
  - pose proof (count_insert is_in_flight _ _ _ (Finished r0) Hi) as Hc.
    simpl in Hc. repeat split.
    + lia.
    + by rewrite length_insert.
    + intros j r Hj. destruct (decide (i = j)) as [->|Hne].
      * rewrite list_lookup_insert_eq in Hj by (by eapply lookup_lt_Some).
        injection Hj as <-. eauto.
      * rewrite list_lookup_insert_ne in Hj by done. by apply Hf.
Qed.

Lemma reachable_inv C items s : reachable body C items s -> pool_inv body C items s.
Proof.
  unfold reachable. revert s.
  apply rtc_ind_r; [apply pool_inv_init | eauto using pool_inv_step].
Qed.

Lemma reachable_in_flight_le C items s :
  reachable body C items s -> in_flight s <= C.
Proof. intros H. apply reachable_inv in H as (Hp & _). lia. Qed.

(** Once the join has its list, it is the body mapped over the items. *)
Lemma reachable_joined C items s (rs : list O) :
  reachable body C items s -> joined s = Some rs -> mapM body items = Some rs.
Proof.
  intros H Hj. apply reachable_inv in H as (_ & Hl & Hf).
  unfold joined in Hj. pose proof (joined_Some_lookup _ _ Hj) as Hlk.
  assert (length rs = length items) as Hlen.
  { apply length_mapM in Hj. lia. }
  apply mapM_Some, Forall2_same_length_lookup. split; [done|].
  intros i item r Hitem Hr.
  specialize (Hlk i). rewrite list_lookup_fmap, Hr in Hlk. simpl in Hlk.
  destruct (Hf i r Hlk) as (item' & Hitem' & Hb). congruence.
Qed.

Lemma filter_empty_or_found (p : task_state O -> bool) (ts : list (task_state O)) :
  length (List.filter p ts) = 0 \/ exists i t, ts !! i = Some t /\ p t = true.
Proof.
  induction ts as [|a ts [IH|(i & t & Hi & Ht)]]; simpl.
  - by left.
  - destruct (p a) eqn:E; [right; by exists 0, a | by left].
  - right. by exists (S i), t.
Qed.

Lemma joined_None_pending (ts : list (task_state O)) :
  mapM finished_value ts = None ->
  exists i, ts !! i = Some Waiting \/ ts !! i = Some InFlight.
Proof.
  induction ts as [|t ts IH]; [done|].
  destruct t as [| |r].
  - intros _. exists 0. by left.
  - intros _. exists 0. by right.
  - intros H. destruct (mapM finished_value ts) as [rs|] eqn:E.
    + exfalso. apply mapM_Some in E.
      assert (mapM finished_value (Finished r :: ts) = Some (r :: rs)) as E2
        by (apply mapM_Some; by constructor).
      congruence.
    + destruct (IH eq_refl) as [i Hi]. by exists (S i).
Qed.

Lemma joined_Some_all_finished (s : pool O) (rs : list O) :
  joined s = Some rs -> in_flight s = 0 /\ waiting s = 0.
Proof.
  unfold joined, in_flight, waiting. rewrite mapM_Some.
  induction 1 as [|t r ts rs' Ht _ IH]; [done|].
  destruct t; simpl in *; try discriminate. exact IH.
Qed.

(** With at least one permit the pool never deadlocks: while the join is
    still waiting, some task can move. *)
Lemma pool_progress C items s :
  1 <= C -> Forall (fun item => is_Some (body item)) items ->
  reachable body C items s -> joined s = None ->
  exists s', pool_step body items s s'.
Proof.
  intros HC Hall Hr Hj. apply reachable_inv in Hr as (Hp & Hl & _).
  destruct (filter_empty_or_found is_in_flight (tasks s)) as [Hz|(i & t & Hi & Ht)].
  - destruct (joined_None_pending _ Hj) as [i [Hi|Hi]].
    + eexists. apply (step_acquire body items s i Hi). unfold in_flight in Hp. lia.
    + exfalso. pose proof (count_insert is_in_flight _ _ _ Waiting Hi) as Hc.
      simpl in Hc. lia.
  - destruct t; try discriminate.
    destruct (lookup_lt_is_Some_2 items i) as [item Hitem].
    { rewrite <- Hl. by eapply lookup_lt_Some. }
    destruct (proj1 (Forall_lookup _ _) Hall i item Hitem) as [r Hb].
    eexists. by eapply step_release.
Qed.

(** Every step uses up one unit of the measure. *)
Lemma pool_step_measure items s s' :
  pool_step body items s s' -> S (pool_measure s') = pool_measure s.
Proof.
  intros [s0 i Hi _ | s0 i item r Hi _ _]; unfold pool_measure, waiting, in_flight; simpl.
  - pose proof (count_insert is_in_flight _ _ _ InFlight Hi) as H1.
    pose proof (count_insert is_waiting _ _ _ InFlight Hi) as H2. simpl in *. lia.
  - pose proof (count_insert is_in_flight _ _ _ (Finished r) Hi) as H1.
    pose proof (count_insert is_waiting _ _ _ (Finished r) Hi) as H2.
    simpl in *. lia.
Qed.

Lemma pool_measure_init C (items : list I) :
  pool_measure (pool_init (O := O) C items) = 2 * length items.
Proof.
  unfold pool_measure, waiting, in_flight, pool_init; simpl.
  induction (length items) as [|n IH]; simpl in *; lia.
Qed.

Lemma pool_nsteps_measure items n s s' :
  nsteps (pool_step body items) n s s' -> n + pool_measure s' = pool_measure s.
Proof.
  induction 1 as [x | n x y z Hxy _ IH]; [done|].
  apply pool_step_measure in Hxy. lia.
Qed.

(** No interleaving is longer than two steps per item. *)
Lemma pool_steps_bounded C items n s :
  nsteps (pool_step body items) n (pool_init C items) s ->
  n + pool_measure s = 2 * length items.
Proof.
  intros H. apply pool_nsteps_measure in H. by rewrite pool_measure_init in H.
Qed.

(** With at least one permit every interleaving can be run to its end,
    where the join returns. *)
Lemma pool_completes C items s :
  1 <= C -> Forall (fun item => is_Some (body item)) items ->
  reachable body C items s ->
  exists s' rs, rtc (pool_step body items) s s' /\ joined s' = Some rs /\
                mapM body items = Some rs.
Proof.
  intros HC Hall. remember (pool_measure s) as m eqn:Em. revert s Em.
  induction m as [m IH] using lt_wf_ind. intros s -> Hr.
  destruct (joined s) as [rs|] eqn:Hj.
  - exists s, rs. split; [done|]. split; [done|]. by eapply reachable_joined.
  - destruct (pool_progress C items s HC Hall Hr Hj) as [s1 Hs1].
    pose proof (pool_step_measure _ _ _ Hs1) as Hm.
    destruct (IH (pool_measure s1) ltac:(lia) s1 eq_refl) as (s' & rs & Hs' & Hj').
    { eapply rtc_r; eauto. }
    exists s', rs. split; [|done]. eapply rtc_l; eauto.
Qed.

(** Without a permit nothing moves. *)
Lemma pool_no_permit_stuck items s :
  reachable body 0 items s -> s = pool_init 0 items.
Proof.
  unfold reachable. revert s. apply rtc_ind_r; [done|].
  intros y z _ Hstep ->. exfalso.
  inversion Hstep as [s i Hi Hpos | s i item r Hi Hitem Hb]; subst; simpl in *.
  - lia.
  - apply lookup_replicate in Hi as [Hi _]. discriminate.
Qed.
End PoolFacts.

(** ** The effect monad *)

Lemma value_bind {A B} (m : M A) (f : A -> M B) :
  value_of (m ≫= f) =
  match value_of m with
  | Ok a => value_of (f a)
  | Raise e => Raise e
  | Hang => Hang
  end.
Proof.
  destruct m as [t [a|e|]]; unfold mbind, M_bind, bind; simpl; try done.
  by destruct (f a).
Qed.

Lemma trace_bind {A B} (m : M A) (f : A -> M B) :
  trace_of (m ≫= f) =
  trace_of m ++ match value_of m with Ok a => trace_of (f a) | _ => [] end.
Proof.
  destruct m as [t [a|e|]]; unfold mbind, M_bind, bind; simpl;
    try (by rewrite app_nil_r).
  by destruct (f a).
Qed.

Lemma value_try_all {A} (body : M A) (h : exn -> M A) :
  value_of (try_except body [ExcException] h) =
  match value_of body with
  | Ok a => Ok a
  | Raise e => value_of (h e)
  | Hang => Hang
  end.
Proof.
  destruct body as [t [a|e|]]; unfold try_except; simpl; try done.
  by destruct (h e).
Qed.

Lemma trace_try_all {A} (body : M A) (h : exn -> M A) :
  trace_of (try_except body [ExcException] h) =
  trace_of body ++ match value_of body with Raise e => trace_of (h e) | _ => [] end.
Proof.
  destruct body as [t [a|e|]]; unfold try_except; simpl;
    try (by rewrite app_nil_r).
  by destruct (h e).
Qed.

Lemma value_notify cb msg : value_of (notify cb msg) = Ok tt.
Proof. by destruct cb. Qed.

Lemma value_lift {A} (r : result A) : value_of (lift r) = r.
Proof. done. Qed.

Lemma trace_lift {A} (r : result A) : trace_of (lift r) = [].
Proof. done. Qed.

Lemma notify_no_marker cb msg ev :
  ev ∈ trace_of (notify cb msg) -> exists m, ev = EvProgress m.
Proof.
  destruct cb; simpl; [|by intros ?%elem_of_nil].
  intros ->%list_elem_of_singleton. eauto.
Qed.

(** ** The adapter and one task *)

Lemma analyze_directory_never_raises w ba d v sc e :
  value_of (analyze_directory w ba d v sc) <> Raise e.
Proof.
  unfold analyze_directory. rewrite value_try_all.
  match goal with |- match value_of ?b with _ => _ end <> _ => destruct (value_of b) end;
    try done.
Qed.

(** What a returned repository result is made of. *)
Lemma base_repo_analyzer_Ok w self lp name v sc cb r :
  value_of (_base_repo_analyzer w self lp name v sc cb) = Ok r ->
  repository r = name /\
  py_len (findings r) = Some (total_issues r) /\
  exists raw, value_of (analyze_directory w (base_analyzer self) lp v sc) = Ok raw /\
              truthy raw = true.
Proof.
  unfold _base_repo_analyzer. rewrite value_bind, value_notify, value_bind.
  destruct (value_of (analyze_directory _ _ _ _ _)) as [raw| |] eqn:Hraw; try done.
  destruct (truthy raw) eqn:Ht; cbn [negb]; [|done].
  rewrite value_bind, value_lift.
  match goal with |- match ?x with _ => _ end = _ -> _ => destruct x as [fs| |] eqn:Hf end;
    try done.
  rewrite value_bind, value_lift. unfold len.
  destruct (py_len fs) as [n|] eqn:Hn; try done.
  rewrite value_bind, value_notify. simpl. intros [= <-]. simpl. eauto.
Qed.

Lemma outcome_never_raises w self v sc cb loc item e :
  outcome w self v sc cb loc item <> Raise e.
Proof.
  unfold outcome, analyze_single_item. rewrite value_try_all.
  match goal with |- match value_of ?b with _ => _ end <> _ => destruct (value_of b) end;
    try done.
Qed.

Lemma success_of_Some w self v sc cb loc item r :
  success_of w self v sc cb loc item = Some r <->
  outcome w self v sc cb loc item = Ok (Some r).
Proof.
  unfold success_of. destruct (outcome _ _ _ _ _ _ _) as [[x|]| |]; split; congruence.
Qed.

(** A successful outcome reports as many issues as it has findings. *)
Lemma success_of_count w self v sc cb loc item r :
  success_of w self v sc cb loc item = Some r ->
  py_len (findings r) = Some (total_issues r).
Proof.
  rewrite success_of_Some. unfold outcome, analyze_single_item.
  rewrite value_try_all.
  destruct loc, item as [p|c]; try rewrite value_bind;
    match goal with
    | |- context [value_of (_base_repo_analyzer ?a ?b ?c ?d ?e ?f ?g)] =>
        destruct (value_of (_base_repo_analyzer a b c d e f g)) as [r0| |] eqn:Hr
    | _ => idtac
    end; simpl; try done.
  - intros [= <-]. by apply base_repo_analyzer_Ok in Hr as (_ & ? & _).
  - intros [= <-]. by apply base_repo_analyzer_Ok in Hr as (_ & ? & _).
Qed.

(** ** The scheduler as a function *)

Lemma collect_successful_value results :
  value_of (collect_successful results) = Ok (omap keep_success results).
Proof.
  induction results as [|r rest IH]; [done|].
  destruct r as [[x|]|e|]; cbn [collect_successful].
  - rewrite value_bind, IH. done.
  - exact IH.
  - rewrite value_bind. simpl. exact IH.
  - exact IH.
Qed.

Lemma collect_successful_trace results :
  Forall (fun r => forall e, r <> Raise e) results ->
  trace_of (collect_successful results) = [].
Proof.
  induction 1 as [|r rest Hr _ IH]; [done|].
  destruct r as [[x|]|e|]; cbn [collect_successful]; try done.
  - rewrite trace_bind, IH, collect_successful_value. done.
  - by destruct (Hr e).
Qed.

Lemma omap_keep_success_outcomes w self v sc cb loc items :
  omap keep_success (map (fun it => value_of (analyze_single_item w self v sc cb loc it)) items)
  = omap (success_of w self v sc cb loc) items.
Proof.
  induction items as [|it items IH]; [done|].
  cbn [map omap list_omap]. fold (@omap list _ _ _ keep_success).
  fold (@omap list _ _ _ (success_of w self v sc cb loc)). rewrite IH.
  unfold success_of, outcome, keep_success.
  by destruct (value_of (analyze_single_item w self v sc cb loc it)) as [[x|]| |].
Qed.

Lemma existsb_is_hang_false w self v sc cb loc items :
  existsb is_hang (map value_of (map (analyze_single_item w self v sc cb loc) items)) = false
  <-> Forall (fun it => outcome w self v sc cb loc it <> Hang) items.
Proof.
  induction items as [|it items IH]; simpl.
  - split; [constructor|done].
  - rewrite orb_false_iff, IH, Forall_cons. unfold outcome.
    destruct (value_of (analyze_single_item _ _ _ _ _ _ it)); simpl; split;
      intros [? ?]; split; try done.
Qed.

Lemma gather_under_cases {A} (C : nat) (tasks : list (M A)) :
  (C = 0 /\ tasks <> [] /\ gather_under C tasks = lift Hang) \/
  ((tasks = [] \/ 1 <= C) /\ gather_under C tasks = gather tasks).
Proof.
  destruct C as [|C], tasks as [|t tasks]; simpl.
  - right. eauto.
  - left. eauto.
  - right. eauto.
  - right. split; [right; lia|done].
Qed.

Lemma gather_value w self v sc cb loc items :
  value_of (gather (map (analyze_single_item w self v sc cb loc) items)) =
  if existsb is_hang (map value_of (map (analyze_single_item w self v sc cb loc) items))
  then Hang
  else Ok (map (fun it => value_of (analyze_single_item w self v sc cb loc it)) items).
Proof. unfold gather, value_of at 1. cbn [snd]. by rewrite map_map. Qed.

(** When the scheduler returns, it returns the successful outcomes of the
    items, in the order of the items. *)
Lemma parallel_Ok w self items v sc cb loc rs :
  value_of (_parallel_repo_analysis w self items v sc cb loc) = Ok rs ->
  rs = omap (success_of w self v sc cb loc) items /\
  Forall (fun it => outcome w self v sc cb loc it <> Hang) items /\
  exists C, Semaphore (max_concurrent_repos self) = Ok C /\ (items = [] \/ 1 <= C).
Proof.
  unfold _parallel_repo_analysis. rewrite value_bind, value_lift.
  destruct (Semaphore _) as [C| |] eqn:HC; try done.
  rewrite value_bind.
  destruct (gather_under_cases C (map (analyze_single_item w self v sc cb loc) items))
    as [(_ & _ & ->)|(Hpos & ->)]; [done|].
  rewrite gather_value.
  destruct (existsb is_hang _) eqn:Hh; [done|].
  rewrite collect_successful_value, omap_keep_success_outcomes. intros [= <-].
  split; [done|]. split; [by apply existsb_is_hang_false|].
  exists C. split; [done|]. destruct Hpos as [Hnil|?]; [left|by right].
  by destruct items.
Qed.

(** The scheduler does return when the pool has a permit and every adapter
    invocation comes back. *)
Lemma parallel_returns w self items v sc cb loc C :
  Semaphore (max_concurrent_repos self) = Ok C ->
  items = [] \/ 1 <= C ->
  Forall (fun it => outcome w self v sc cb loc it <> Hang) items ->
  value_of (_parallel_repo_analysis w self items v sc cb loc)
  = Ok (omap (success_of w self v sc cb loc) items).
Proof.
  intros HC Hpos Hall. unfold _parallel_repo_analysis.
  rewrite value_bind, value_lift, HC, value_bind.
  destruct (gather_under_cases C (map (analyze_single_item w self v sc cb loc) items))
    as [(-> & Hne & _)|(_ & ->)].
  - destruct Hpos as [->|?]; [done|lia].
  - rewrite gather_value.
    rewrite (proj2 (existsb_is_hang_false w self v sc cb loc items) Hall).
    by rewrite collect_successful_value, omap_keep_success_outcomes.
Qed.

(** ** The model on the small world *)

Example demo_service_init :
  AnalysisService_init demo_world demo_config = Ok demo_service.
Proof. reflexivity. Qed.

Example demo_local_org_run :
  value_of (run_analysis demo_world demo_service None (Some "/org")
              "21" "all-deprecations" 4 true "github" true)
  = Ok (Some (Organization
      {| org_type := "organization";
         organization := "/org";
         repositories :=
           [ {| repository := "a";
                findings := PList [PStr "Date.getYear"; PStr "Runtime.runFinalization"];
                total_issues := 2 |};
             {| repository := "b";
                findings := PList [PStr "Thread.stop"];
                total_issues := 1 |};
             {| repository := "d";
                findings := PList [PStr "Date.getYear"; PStr "Runtime.runFinalization"];
                total_issues := 2 |} ];
         org_total_issues := 5;
         repos_analyzed := 3;
         cleanup_paths := None |})).
Proof. vm_compute. reflexivity. Qed.

(** ** C2: the artifact path of concurrent analyses *)

(** The artifact path is built from the target version and the scope alone. *)
Lemma artifact_path_ignores_directory d1 d2 v sc :
  artifact_path_of_call d1 v sc = artifact_path_of_call d2 v sc.
Proof. reflexivity. Qed.

(** The engine is told to write, and the adapter then reads and deletes, the
    same file whatever the directory. *)
Lemma jar_command_output_arg ba d v sc :
  last (jar_command ba d v sc) = Some (output_file v sc).
Proof. reflexivity. Qed.

(** C2 (fails on the code): two distinct repositories of one batch, analysed
    with the same target version 21 and scope all-deprecations, are given
    one and the same output artifact path; the engine writes both results to
    it and each task reads and deletes it. *)
Theorem C2_artifact_path_shared :
  "/org/a" <> "/org/b" /\
  artifact_path_of_call "/org/a" "21" "all-deprecations"
  = artifact_path_of_call "/org/b" "21" "all-deprecations" /\
  artifact_path_of_call "/org/a" "21" "all-deprecations"
  = "oss/outputs/temp_analysis_21_all-deprecations.json" /\
  last (jar_command (base_analyzer demo_service) "/org/a" "21" "all-deprecations")
  = last (jar_command (base_analyzer demo_service) "/org/b" "21" "all-deprecations").
Proof. repeat split; done. Qed.

(** ** C1: the permit invariant *)

(** C1: for a configured bound [C >= 1] the semaphore starts with [C]
    permits, and in every state that any interleaving of the batch's tasks
    can reach, at most [C] adapter invocations are in flight; a
    configuration without the setting gives the bound 5. *)
Theorem C1_permit_invariant (w : World) (self : AnalysisService) (C : Z)
    (to_version scope : string) (progress_callback is_local : bool)
    (repo_items : list RepoItem) (s : pool (result (option RepoResult))) :
  (1 <= C)%Z ->
  max_concurrent_repos self = PInt C ->
  Semaphore (max_concurrent_repos self) = Ok (Z.to_nat C) /\
  (reachable (task_body w self to_version scope progress_callback is_local)
     (Z.to_nat C) repo_items s ->
   (Z.of_nat (in_flight s) <= C)%Z /\ permits s + in_flight s = Z.to_nat C) /\
  (forall kvs, assoc_get "graphshift" kvs = None ->
     configured_max_concurrent_repos (PDict kvs) = Ok (PInt 5)) /\
  (forall kvs g, assoc_get "graphshift" kvs = Some (PDict g) ->
     assoc_get "analysis" g = None ->
     configured_max_concurrent_repos (PDict kvs) = Ok (PInt 5)) /\
  (forall kvs g a, assoc_get "graphshift" kvs = Some (PDict g) ->
     assoc_get "analysis" g = Some (PDict a) ->
     assoc_get "max_concurrent_repos" a = None ->
     configured_max_concurrent_repos (PDict kvs) = Ok (PInt 5)) /\
  Semaphore (PInt 5) = Ok 5.
Proof.
  intros HC Hcfg. split; [|split; [|repeat split]].
  - rewrite Hcfg. unfold Semaphore.
    destruct (C <? 0)%Z eqn:E; [apply Z.ltb_lt in E; lia | done].
  - intros Hr. apply reachable_inv in Hr as (Hp & _). split; lia.
  - intros kvs H. unfold configured_max_concurrent_repos. simpl. by rewrite H.
  - intros kvs g H1 H2. unfold configured_max_concurrent_repos. simpl.
    rewrite H1. simpl. by rewrite H2.
  - intros kvs g a H1 H2 H3. unfold configured_max_concurrent_repos. simpl.
    rewrite H1. simpl. rewrite H2. simpl. by rewrite H3.
Qed.

Lemma C1_permit_invariant_witness :
  let s : pool (result (option RepoResult)) :=
    {| permits := 0; tasks := [InFlight; InFlight; Waiting] |} in
  let items := [LocalItem "/org/a"; LocalItem "/org/b"; LocalItem "/org/c"] in
  (Z.of_nat (in_flight s) <= 2)%Z /\ permits s + in_flight s = Z.to_nat 2.
Proof.
  intros s items.
  refine (proj1 (proj2 (C1_permit_invariant demo_world demo_service 2
            "21" "all-deprecations" true true items s _ _)) _).
  - lia.
  - reflexivity.
  - eapply rtc_l; [eapply step_acquire with (i := 0); [reflexivity | simpl; lia]|].
    eapply rtc_l; [eapply step_acquire with (i := 1); [reflexivity | simpl; lia]|].
    apply rtc_refl.
Defined.

(** ** C4: failure isolation and the join *)

Lemma task_body_Some w self v sc cb loc item r :
  task_body w self v sc cb loc item = Some r <->
  outcome w self v sc cb loc item = r /\ r <> Hang.
Proof.
  unfold task_body, outcome.
  destruct (value_of _) as [x|e|]; split; try intros [= <-]; try intros [<- ?]; done.
Qed.

Lemma mapM_task_body w self v sc cb loc items rs :
  mapM (task_body w self v sc cb loc) items = Some rs <->
  rs = map (outcome w self v sc cb loc) items /\
  Forall (fun it => outcome w self v sc cb loc it <> Hang) items.
Proof.
  rewrite mapM_Some. split.
  - induction 1 as [|it r items rs Hr _ [-> IH]]; [by split|].
    apply task_body_Some in Hr as [<- Hne]. split; [done|by constructor].
  - intros [-> H]. induction H as [|it items Hne _ IH]; constructor; [|done].
    by apply task_body_Some.
Qed.

(** The join as a function agrees with the pool: when it returns a list,
    some interleaving ends with the join holding that list, and every
    interleaving that ends holds it; when it hangs, no interleaving ever
    lets the join return. *)
Lemma gather_under_adequate w self v sc cb loc items C :
  let body := task_body w self v sc cb loc in
  let tasks := map (analyze_single_item w self v sc cb loc) items in
  (forall rs, value_of (gather_under C tasks) = Ok rs ->
     (exists s, reachable body C items s /\ joined s = Some rs) /\
     (forall s rs', reachable body C items s -> joined s = Some rs' -> rs' = rs)) /\
  (value_of (gather_under C tasks) = Hang ->
     forall s, reachable body C items s -> joined s = None) /\
  (forall e, value_of (gather_under C tasks) <> Raise e).
Proof.
  intros body tasks. subst tasks.
  destruct (gather_under_cases C (map (analyze_single_item w self v sc cb loc) items))
    as [(-> & Hne & ->)|(Hpos & ->)].
  - split; [done|]. split; [|done]. intros _ s Hs.
    apply pool_no_permit_stuck in Hs as ->.
    destruct items as [|it items]; [done|]. reflexivity.
  - rewrite gather_value.
    destruct (existsb is_hang _) eqn:Hh.
    + split; [done|]. split; [|done]. intros _ s Hs.
      destruct (joined s) as [rs|] eqn:Hj; [|done]. exfalso.
      pose proof (reachable_joined _ _ _ _ _ Hs Hj) as Hm.
      apply mapM_task_body in Hm as [_ Hall].
      apply existsb_is_hang_false in Hall. congruence.
    + apply existsb_is_hang_false in Hh. split; [|split; [done|done]].
      intros rs [= <-]. split.
      * destruct Hpos as [Hnil|Hpos].
        -- destruct items; [|done]. exists (pool_init C (@nil RepoItem)). split; [apply rtc_refl|done].
        -- destruct (pool_completes body C items (pool_init C items) Hpos)
             as (s & rs & Hs & Hj & Hm); [|apply rtc_refl|].
           ++ eapply Forall_impl; [exact Hh|]. intros it Hit. subst body.
              cbv beta in Hit. unfold task_body. fold (outcome w self v sc cb loc it).
              destruct (outcome _ _ _ _ _ _ it); [eauto|eauto|done].
           ++ exists s. split; [exact Hs|].
              apply mapM_task_body in Hm as [-> _]. exact Hj.
      * intros s rs' Hs Hj. pose proof (reachable_joined _ _ _ _ _ Hs Hj) as Hm.
        by apply mapM_task_body in Hm as [-> _].
Qed.

(** A failed adapter call is the recorded failure of its own item. *)
Lemma adapter_fails_recorded w self v sc cb loc item :
  adapter_fails w self v sc loc item ->
  outcome w self v sc cb loc item = Ok None /\
  EvLogError ("Analysis failed for " +:+ item_name w item +:+
              ": JAR analysis failed for " +:+ item_name w item)
    ∈ trace_of (analyze_single_item w self v sc cb loc item).
Proof.
  intros Hres. unfold adapter_fails in Hres. unfold outcome, analyze_single_item.
  rewrite value_try_all, trace_try_all.
  assert (forall p name,
    value_of (analyze_directory w (base_analyzer self) p v sc) = Ok PNone ->
    value_of (r ← _base_repo_analyzer w self p name v sc cb; ret (Some r))
    = Raise (Exn ExcException ("JAR analysis failed for " +:+ name))) as Hbase.
  { intros p name Hraw. rewrite value_bind. unfold _base_repo_analyzer.
    rewrite value_bind, value_notify, value_bind, Hraw. done. }
  destruct loc, item as [p|c]; simpl in Hres; try discriminate;
    injection Hres as Hres; rewrite (Hbase _ _ Hres); simpl; (split; [done|]);
    apply elem_of_app; right; apply list_elem_of_singleton; reflexivity.
Qed.

(** A usable adapter answer is the result of its own item, whatever the
    rest of the batch does. *)
Lemma adapter_succeeds_kept w self v sc cb loc item r :
  adapter_succeeds w self v sc loc item r ->
  outcome w self v sc cb loc item = Ok (Some r).
Proof.
  intros (raw & Hres & Htruthy & Hfind & Hlen & Hname).
  unfold outcome, analyze_single_item. rewrite value_try_all.
  assert (forall p,
    value_of (analyze_directory w (base_analyzer self) p v sc) = Ok raw ->
    value_of (x ← _base_repo_analyzer w self p (repository r) v sc cb; ret (Some x))
    = Ok (Some r)) as Hbase.
  { intros p Hraw. rewrite value_bind. unfold _base_repo_analyzer.
    rewrite value_bind, value_notify, value_bind, Hraw, Htruthy.
    cbn [negb]. rewrite value_bind, value_lift, Hfind.
    rewrite value_bind, value_lift. unfold len. rewrite Hlen.
    rewrite value_bind, value_notify. destruct r; done. }
  destruct loc, item as [p|c]; simpl in Hres, Hname; try discriminate;
    injection Hres as Hres; rewrite <- Hname, (Hbase _ Hres); done.
Qed.

(** C4: in every interleaving the join hands back its list only when no
    task is waiting or in flight, and the list has one entry per item, the
    terminal outcome of that very item, in submission order; an outcome is a
    success or a recorded failure, never an escaped exception; a failed
    adapter call gives the recorded failure of its own item, logged under
    that item's name; a usable adapter answer gives the result of its own
    item, read off that answer, whatever the other items did; so in a batch
    holding a failed item and a sibling whose adapter succeeded, the join
    holds the failure at the one position and the sibling's result at the
    other; and when the adapter invocations come back, failed or not, every
    interleaving can be run to the join and the scheduler returns normally
    with the successes, the result of every sibling whose adapter succeeded
    among them. *)
Theorem C4_failure_isolation_and_join (w : World) (self : AnalysisService)
    (to_version scope : string) (progress_callback is_local : bool)
    (repo_items : list RepoItem) (C : nat) :
  1 <= C ->
  Semaphore (max_concurrent_repos self) = Ok C ->
  let body := task_body w self to_version scope progress_callback is_local in
  let out := outcome w self to_version scope progress_callback is_local in
  let fails := adapter_fails w self to_version scope is_local in
  let succeeds := adapter_succeeds w self to_version scope is_local in
  (forall s rs, reachable body C repo_items s -> joined s = Some rs ->
     in_flight s = 0 /\ waiting s = 0 /\
     length rs = length repo_items /\
     forall i item, repo_items !! i = Some item -> rs !! i = Some (out item)) /\
  (forall item, (exists r, out item = Ok (Some r)) \/ out item = Ok None \/ out item = Hang) /\
  (forall item, fails item ->
     out item = Ok None /\
     EvLogError ("Analysis failed for " +:+ item_name w item +:+
                 ": JAR analysis failed for " +:+ item_name w item)
       ∈ trace_of (analyze_single_item w self to_version scope progress_callback
                     is_local item)) /\
  (forall item r, succeeds item r -> out item = Ok (Some r)) /\
  (forall s rs i j failed sibling r,
     reachable body C repo_items s -> joined s = Some rs ->
     repo_items !! i = Some failed -> fails failed ->
     repo_items !! j = Some sibling -> succeeds sibling r ->
     rs !! i = Some (Ok None) /\ rs !! j = Some (Ok (Some r))) /\
  (Forall (fun it => out it <> Hang) repo_items ->
     (forall s, reachable body C repo_items s ->
        exists s' rs, rtc (pool_step body repo_items) s s' /\ joined s' = Some rs /\
                      rs = map out repo_items) /\
     value_of (_parallel_repo_analysis w self repo_items to_version scope
                 progress_callback is_local)
     = Ok (omap (success_of w self to_version scope progress_callback is_local)
             repo_items) /\
     (forall sibling r, sibling ∈ repo_items -> succeeds sibling r ->
        r ∈ omap (success_of w self to_version scope progress_callback is_local)
              repo_items)).
Proof.
  intros HC Hsem body out fails succeeds.
  assert (forall s rs, reachable body C repo_items s -> joined s = Some rs ->
            forall i item, repo_items !! i = Some item -> rs !! i = Some (out item))
    as Hpos.
  { intros s rs Hr Hj i item Hi. pose proof (reachable_joined _ _ _ _ _ Hr Hj) as Hm.
    apply mapM_task_body in Hm as [-> _].
    rewrite list_lookup_fmap || rewrite list_lookup_map. by rewrite Hi. }
  split; [|split; [|split; [|split; [|split]]]].
  - intros s rs Hr Hj. split; [|split; [|split]].
    + eapply joined_Some_all_finished; eauto.
    + eapply joined_Some_all_finished; eauto.
    + pose proof (reachable_joined _ _ _ _ _ Hr Hj) as Hm.
      apply mapM_task_body in Hm as [-> _]. by rewrite length_map.
    + exact (Hpos s rs Hr Hj).
  - intros item. subst out. simpl.
    destruct (outcome w self to_version scope progress_callback is_local item)
      as [[r|]|e|] eqn:E; eauto.
    by apply outcome_never_raises in E.
  - intros item Hf. by apply adapter_fails_recorded.
  - intros item r Hs. by apply adapter_succeeds_kept.
  - intros s rs i j failed sibling r Hr Hj Hi Hf Hjj Hs. split.
    + rewrite (Hpos s rs Hr Hj i failed Hi). f_equal.
      by apply adapter_fails_recorded.
    + rewrite (Hpos s rs Hr Hj j sibling Hjj). f_equal.
      by apply adapter_succeeds_kept.
  - intros Hall. split; [|split].
    + intros s Hr.
      destruct (pool_completes body C repo_items s HC) as (s' & rs & Hs' & Hj & Hm); [|done|].
      * eapply Forall_impl; [exact Hall|]. intros it Hne. subst body.
        unfold task_body. fold (outcome w self to_version scope progress_callback is_local it).
        subst out. simpl in Hne.
        destruct (outcome _ _ _ _ _ _ it); [eauto|eauto|done].
      * exists s', rs. split; [done|]. split; [done|].
        by apply mapM_task_body in Hm as [-> _].
    + apply (parallel_returns _ _ _ _ _ _ _ C); [done|by right|done].
    + intros sibling r Hin Hs. apply list_elem_of_omap. exists sibling. split; [done|].
      unfold success_of.
      by rewrite (adapter_succeeds_kept _ _ _ _ progress_callback _ _ _ Hs).
Qed.

Lemma C4_failure_isolation_and_join_witness :
  let items := [LocalItem "/org/a"; LocalItem "/org/b"; LocalItem "/org/c"] in
  let out := outcome demo_world demo_service "21" "all-deprecations" true true in
  let a := {| repository := "a";
              findings := PList [PStr "Date.getYear"; PStr "Runtime.runFinalization"];
              total_issues := 2 |} in
  let b := {| repository := "b"; findings := PList [PStr "Thread.stop"];
              total_issues := 1 |} in
  out (LocalItem "/org/c") = Ok None /\
  out (LocalItem "/org/a") = Ok (Some a) /\
  out (LocalItem "/org/b") = Ok (Some b) /\
  a ∈ omap (success_of demo_world demo_service "21" "all-deprecations" true true) items /\
  value_of (_parallel_repo_analysis demo_world demo_service items
              "21" "all-deprecations" true true)
  = Ok (omap (success_of demo_world demo_service "21" "all-deprecations" true true)
          items).
Proof.
  intros items out a b.
  destruct (C4_failure_isolation_and_join demo_world demo_service
              "21" "all-deprecations" true true items 2 ltac:(lia) eq_refl)
    as (_ & _ & Hfail & Hsucc & _ & Hret).
  assert (adapter_succeeds demo_world demo_service "21" "all-deprecations" true
            (LocalItem "/org/a") a) as Ha.
  { eexists. split; [vm_compute; reflexivity|]. repeat split. }
  assert (adapter_succeeds demo_world demo_service "21" "all-deprecations" true
            (LocalItem "/org/b") b) as Hb.
  { eexists. split; [vm_compute; reflexivity|]. repeat split. }
  destruct Hret as (_ & Hval & Hin).
  { repeat constructor; vm_compute; discriminate. }
  split; [apply (Hfail (LocalItem "/org/c")); vm_compute; reflexivity|].
  split; [exact (Hsucc _ _ Ha)|].
  split; [exact (Hsucc _ _ Hb)|].
  split; [|exact Hval].
  apply (Hin (LocalItem "/org/a")); [apply list_elem_of_here|exact Ha].
Defined.

(** ** The organization run *)

Lemma sum_findings_counts rs :
  Forall (fun x => py_len (findings x) = Some (total_issues x)) rs ->
  sum_findings rs = Ok (sum_list_with total_issues rs).
Proof.
  induction 1 as [|x rs Hx _ IH]; [done|].
  cbn [sum_findings]. unfold len. rewrite Hx. simpl. rewrite IH. done.
Qed.

Lemma successes_counted w self v sc cb loc items :
  Forall (fun x => py_len (findings x) = Some (total_issues x))
         (omap (success_of w self v sc cb loc) items).
Proof.
  induction items as [|it items IH]; [constructor|].
  cbn [omap list_omap]. fold (@omap list _ _ _ (success_of w self v sc cb loc)).
  destruct (success_of w self v sc cb loc it) as [r|] eqn:E; [|done].
  constructor; [by eapply success_of_count | done].
Qed.

(** What a returned organization result is made of. *)
Lemma analyze_organization_Ok w self org v sc max keep prov cb r :
  value_of (_analyze_organization w self org v sc max keep prov cb) = Ok r ->
  let loc := path_exists w org && path_is_dir w org in
  exists items paths,
    value_of (discover_repo_items w self org max keep prov cb) = Ok (items, paths) /\
    items <> [] /\
    value_of (_parallel_repo_analysis w self items v sc cb loc)
    = Ok (repositories r) /\
    repositories r = omap (success_of w self v sc cb loc) items /\
    repos_analyzed r = length (repositories r) /\
    org_total_issues r = sum_list_with total_issues (repositories r) /\
    cleanup_paths r = paths /\
    organization r = org.
Proof.
  intros Hv loc. revert Hv.
  unfold _analyze_organization. fold loc. rewrite value_bind.
  destruct (value_of (discover_repo_items _ _ _ _ _ _ _)) as [[items paths]| |] eqn:Hd;
    try done.
  destruct items as [|it items]; [done|]. cbn [is_nil].
  rewrite value_bind, value_notify, value_bind.
  destruct (value_of (_parallel_repo_analysis _ _ _ _ _ _ _)) as [rs| |] eqn:Hp; try done.
  rewrite value_bind.
  match goal with |- match value_of ?c with _ => _ end = _ -> _ =>
    destruct (value_of c) as [[]| |]; try done end.
  rewrite value_bind, value_lift.
  pose proof (parallel_Ok _ _ _ _ _ _ _ _ Hp) as (Hrs & _ & _).
  assert (sum_findings rs = Ok (sum_list_with total_issues rs)) as Hsum.
  { apply sum_findings_counts. rewrite Hrs. apply successes_counted. }
  rewrite Hsum, value_bind. simpl. intros [= <-]. simpl.
  exists (it :: items), paths. repeat split; try done.
Qed.

(** The run returns normally once discovery found something, the pool has
    a permit, every adapter invocation comes back and cleanup, where it is
    due, succeeds: however many items failed. *)
Lemma analyze_organization_returns w self org v sc max keep prov cb items paths C :
  let loc := path_exists w org && path_is_dir w org in
  value_of (discover_repo_items w self org max keep prov cb) = Ok (items, paths) ->
  items <> [] ->
  Semaphore (max_concurrent_repos self) = Ok C ->
  1 <= C ->
  Forall (fun it => outcome w self v sc cb loc it <> Hang) items ->
  (negb loc && negb keep = true -> cleanup_cloned_repositories w items = Ok tt) ->
  value_of (_analyze_organization w self org v sc max keep prov cb)
  = Ok {| org_type := "organization";
          organization := org;
          repositories := omap (success_of w self v sc cb loc) items;
          org_total_issues :=
            sum_list_with total_issues (omap (success_of w self v sc cb loc) items);
          repos_analyzed := length (omap (success_of w self v sc cb loc) items);
          cleanup_paths := paths |}.
Proof.
  intros loc Hd Hne HC Hpos Hall Hclean.
  unfold _analyze_organization. rewrite value_bind, Hd.
  destruct items as [|it items]; [done|]. cbn [is_nil].
  rewrite value_bind, value_notify, value_bind.
  fold loc.
  rewrite (parallel_returns w self (it :: items) v sc cb loc C HC (or_intror Hpos) Hall).
  rewrite value_bind.
  assert (value_of (if negb loc && negb keep
                    then _cleanup_cloned_repos w (it :: items) else ret tt) = Ok tt) as ->.
  { destruct (negb loc && negb keep) eqn:E; [|done].
    unfold _cleanup_cloned_repos. rewrite value_bind. simpl. by rewrite Hclean. }
  rewrite value_bind, value_lift.
  rewrite (sum_findings_counts _ (successes_counted w self v sc cb loc (it :: items))).
  rewrite value_bind. done.
Qed.

Lemma run_analysis_value w self repo_path org_name v sc max keep prov cb :
  value_of (run_analysis w self repo_path org_name v sc max keep prov cb) =
  if opt_str_truthy repo_path then
    match value_of (_analyze_single_repo w self (default "" repo_path) v sc cb) with
    | Ok r => Ok (Some (SingleRepo r))
    | Raise _ => Ok None
    | Hang => Hang
    end
  else if opt_str_truthy org_name then
    match value_of (_analyze_organization w self (default "" org_name) v sc max keep
                      prov cb) with
    | Ok r => Ok (Some (Organization r))
    | Raise _ => Ok None
    | Hang => Hang
    end
  else Ok None.
Proof.
  unfold run_analysis. rewrite value_try_all.
  destruct (opt_str_truthy repo_path); [|destruct (opt_str_truthy org_name)].
  - rewrite value_bind. by destruct (value_of (_analyze_single_repo _ _ _ _ _ _)).
  - rewrite value_bind. by destruct (value_of (_analyze_organization _ _ _ _ _ _ _ _ _)).
  - done.
Qed.

Lemma omap_length_le {A B} (f : A -> option B) (l : list A) :
  length (omap f l) <= length l.
Proof.
  induction l as [|a l IH]; [done|].
  cbn [omap list_omap]. fold (@omap list _ _ _ f). destruct (f a); simpl; lia.
Qed.

Lemma omap_sublist {A B} (f : A -> option B) (l : list A) :
  exists kept, sublist kept l /\ Forall2 (fun a b => f a = Some b) kept (omap f l).
Proof.
  induction l as [|a l (kept & Hs & Hf)].
  - exists []. split; [done|constructor].
  - cbn [omap list_omap]. fold (@omap list _ _ _ f). destruct (f a) as [b|] eqn:E.
    + exists (a :: kept). split; [by constructor|by constructor].
    + exists kept. split; [by constructor|done].
Qed.

(** ** C5: how many repositories were analysed *)

(** When an organization run returns, its repository list is the list of
    the items' kept results, [repos_analyzed] is its length and is at most
    the number of items; and when discovery finds four items, the bound is
    2, the adapter call of the third fails and the three others are kept,
    the run returns normally with [repos_analyzed = 3] and those three
    results. *)
Lemma organization_counts_kept_results (w : World) (self : AnalysisService)
    (org_name to_version scope : string) (max_repos : Z) (keep_clones : bool)
    (provider : string) (progress_callback : bool) :
  let is_local := path_exists w org_name && path_is_dir w org_name in
  let out := outcome w self to_version scope progress_callback is_local in
  let run := _analyze_organization w self org_name to_version scope max_repos
               keep_clones provider progress_callback in
  let discovery := discover_repo_items w self org_name max_repos keep_clones
                     provider progress_callback in
  (forall r, value_of run = Ok r ->
     exists items paths,
       value_of discovery = Ok (items, paths) /\
       repositories r
       = omap (success_of w self to_version scope progress_callback is_local) items /\
       repos_analyzed r = length (repositories r) /\
       repos_analyzed r <= length items) /\
  (forall i1 i2 i3 i4 paths r1 r2 r4,
     value_of discovery = Ok ([i1; i2; i3; i4], paths) ->
     max_concurrent_repos self = PInt 2 ->
     out i1 = Ok (Some r1) -> out i2 = Ok (Some r2) ->
     adapter_fails w self to_version scope is_local i3 ->
     out i4 = Ok (Some r4) ->
     (negb is_local && negb keep_clones = true ->
      cleanup_cloned_repositories w [i1; i2; i3; i4] = Ok tt) ->
     exists r, value_of run = Ok r /\
               value_of (run_analysis w self None (Some org_name) to_version scope
                           max_repos keep_clones provider progress_callback)
               = (if str_truthy org_name then Ok (Some (Organization r)) else Ok None) /\
               repos_analyzed r = 3 /\
               repositories r = [r1; r2; r4] /\
               length (repositories r) = 3).
Proof.
  intros loc out run discovery. split.
  - intros r Hr. apply analyze_organization_Ok in Hr
      as (items & paths & Hd & _ & _ & Hrs & Hn & _).
    exists items, paths. repeat split; try done.
    rewrite Hn, Hrs. apply omap_length_le.
  - intros i1 i2 i3 i4 paths r1 r2 r4 Hd Hcfg H1 H2 H3 H4 Hclean.
    apply (adapter_fails_recorded _ _ _ _ progress_callback) in H3 as [H3 _].
    fold loc in H3. fold out in H3.
    assert (value_of run = Ok
      {| org_type := "organization"; organization := org_name;
         repositories := [r1; r2; r4]; org_total_issues := sum_list_with total_issues [r1; r2; r4];
         repos_analyzed := 3; cleanup_paths := paths |}) as Hrun.
    { subst run.
      rewrite (analyze_organization_returns w self org_name to_version scope max_repos
                 keep_clones provider progress_callback [i1; i2; i3; i4] paths 2);
        try done.
      - fold loc. cbn [omap list_omap]. unfold success_of. fold out.
        by rewrite H1, H2, H3, H4.
      - by rewrite Hcfg.
      - lia.
      - fold loc. fold out. repeat constructor; congruence. }
    eexists. split; [exact Hrun|]. split; [|done].
    rewrite run_analysis_value. cbn [opt_str_truthy].
    destruct (str_truthy org_name); [|done].
    change (default "" (Some org_name)) with org_name. fold run. by rewrite Hrun.
Qed.

Lemma organization_counts_kept_results_demo :
  exists r,
    value_of (_analyze_organization demo_world demo_service "/org" "21"
                "all-deprecations" 4 true "github" true) = Ok r /\
    value_of (run_analysis demo_world demo_service None (Some "/org") "21"
                "all-deprecations" 4 true "github" true)
    = Ok (Some (Organization r)) /\
    repos_analyzed r = 3 /\
    repositories r
    = [ {| repository := "a";
           findings := PList [PStr "Date.getYear"; PStr "Runtime.runFinalization"];
           total_issues := 2 |};
        {| repository := "b"; findings := PList [PStr "Thread.stop"];
           total_issues := 1 |};
        {| repository := "d";
           findings := PList [PStr "Date.getYear"; PStr "Runtime.runFinalization"];
           total_issues := 2 |} ] /\
    length (repositories r) = 3.
Proof.
  refine (proj2 (organization_counts_kept_results demo_world demo_service "/org"
            "21" "all-deprecations" 4 true "github" true)
          (LocalItem "/org/a") (LocalItem "/org/b") (LocalItem "/org/c")
          (LocalItem "/org/d") None _ _ _ _ _ _ _ _ _ _).
  - vm_compute. reflexivity.
  - reflexivity.
  - vm_compute. reflexivity.
  - vm_compute. reflexivity.
  - vm_compute. reflexivity.
  - vm_compute. reflexivity.
  - vm_compute. discriminate.
Qed.

(** An adapter answer that is empty, a repository with nothing to report,
    takes the branch of line 208 meant for [None]: its item is recorded as
    failed. *)
Lemma empty_answer_recorded_as_failure w self v sc cb loc item raw :
  adapter_result w self v sc loc item = Some (Ok raw) ->
  truthy raw = false ->
  outcome w self v sc cb loc item = Ok None /\
  EvLogError ("Analysis failed for " +:+ item_name w item +:+
              ": JAR analysis failed for " +:+ item_name w item)
    ∈ trace_of (analyze_single_item w self v sc cb loc item).
Proof.
  intros Hres Hfalsy. unfold outcome, analyze_single_item.
  rewrite value_try_all, trace_try_all.
  assert (forall p name,
    value_of (analyze_directory w (base_analyzer self) p v sc) = Ok raw ->
    value_of (r ← _base_repo_analyzer w self p name v sc cb; ret (Some r))
    = Raise (Exn ExcException ("JAR analysis failed for " +:+ name))) as Hbase.
  { intros p name Hraw. rewrite value_bind. unfold _base_repo_analyzer.
    rewrite value_bind, value_notify, value_bind, Hraw, Hfalsy. done. }
  destruct loc, item as [p|c]; simpl in Hres; try discriminate;
    injection Hres as Hres; rewrite (Hbase _ _ Hres); simpl; (split; [done|]);
    apply elem_of_app; right; apply list_elem_of_singleton; reflexivity.
Qed.

(** C5: a batch of four items, bound 2, in which exactly one adapter call
    fails, the engine exiting with status 1 on [/org/c], while the engine
    exits with status 0 on [/org/a] and reports no finding there.  The
    adapter hands the empty list back for [/org/a], yet the run reports
    [repos_analyzed = 2]: the repository with nothing to report is logged as
    a failed analysis and left out together with the failed one. *)
Theorem C5_clean_repository_counted_as_failed :
  let w := clean_repo_world in
  let items := [LocalItem "/org/a"; LocalItem "/org/b"; LocalItem "/org/c";
                LocalItem "/org/d"] in
  let adapter := adapter_result w demo_service "21" "all-deprecations" true in
  let engine dir :=
    jar_run w (jar_command (base_analyzer demo_service) dir "21" "all-deprecations") in
  let run := run_analysis w demo_service None (Some "/org") "21" "all-deprecations"
               4 true "github" true in
  value_of (discover_repo_items w demo_service "/org" 4 true "github" true)
  = Ok (items, None) /\
  max_concurrent_repos demo_service = PInt 2 /\
  engine "/org/a" = Ok (0%Z, "") /\ adapter (LocalItem "/org/a") = Some (Ok (PList [])) /\
  engine "/org/c" = Ok (1%Z, "engine crashed") /\
  (forall item, item ∈ items ->
     adapter_fails w demo_service "21" "all-deprecations" true item <->
     item = LocalItem "/org/c") /\
  value_of run
  = Ok (Some (Organization
      {| org_type := "organization"; organization := "/org";
         repositories :=
           [ {| repository := "b"; findings := PList [PStr "Thread.stop"];
                total_issues := 1 |};
             {| repository := "d";
                findings := PList [PStr "Date.getYear"; PStr "Runtime.runFinalization"];
                total_issues := 2 |} ];
         org_total_issues := 3;
         repos_analyzed := 2;
         cleanup_paths := None |})) /\
  EvLogError "Analysis failed for a: JAR analysis failed for a" ∈ trace_of run.
Proof.
  intros w items adapter engine run.
  split; [vm_compute; reflexivity|]. split; [reflexivity|].
  split; [vm_compute; reflexivity|]. split; [vm_compute; reflexivity|].
  split; [vm_compute; reflexivity|]. split; [|split].
  - intros item Hin. unfold adapter_fails. subst items.
    repeat (apply elem_of_cons in Hin as [->|Hin]);
      [| | | |by apply elem_of_nil in Hin]; vm_compute; split; congruence.
  - vm_compute. reflexivity.
  - vm_compute. repeat first [apply list_elem_of_here | apply list_elem_of_further].
Qed.

(** ** C6: the total number of issues *)

(** C6: when an organization run returns, [total_issues] is the sum of the
    finding counts of the repositories it lists, these are the successful
    outcomes of the discovered items and no others, and the finding count of
    each is the length of its findings. *)
Theorem C6_total_issues_sums_successes (w : World) (self : AnalysisService)
    (org_name to_version scope : string) (max_repos : Z) (keep_clones : bool)
    (provider : string) (progress_callback : bool) (r : OrgResult) :
  let is_local := path_exists w org_name && path_is_dir w org_name in
  value_of (_analyze_organization w self org_name to_version scope max_repos
              keep_clones provider progress_callback) = Ok r ->
  org_total_issues r = sum_list_with total_issues (repositories r) /\
  Forall (fun x => py_len (findings x) = Some (total_issues x)) (repositories r) /\
  exists items paths,
    value_of (discover_repo_items w self org_name max_repos keep_clones provider
                progress_callback) = Ok (items, paths) /\
    repositories r
    = omap (success_of w self to_version scope progress_callback is_local) items.
Proof.
  intros loc Hr.
  apply analyze_organization_Ok in Hr
    as (items & paths & Hd & _ & _ & Hrs & _ & Hsum & _).
  split; [done|]. split.
  - rewrite Hrs. apply successes_counted.
  - by exists items, paths.
Qed.

Lemma C6_total_issues_sums_successes_witness :
  exists r,
    value_of (_analyze_organization demo_world demo_service "/org" "21"
                "all-deprecations" 4 true "github" true) = Ok r /\
    org_total_issues r = 5 /\
    org_total_issues r = sum_list_with total_issues (repositories r).
Proof.
  eexists. split; [vm_compute; reflexivity|]. split; [reflexivity|].
  refine (proj1 (C6_total_issues_sums_successes demo_world demo_service "/org" "21"
            "all-deprecations" 4 true "github" true _ _)).
  vm_compute. reflexivity.
Defined.

(** ** C10: the order of the repository list *)

(** C10: when an organization run returns, the repositories it lists are
    the successful outcomes of a sub-list of the discovered items, taken in
    the order of the items; and whatever the interleaving, the join's list
    is in submission order and filters to that same list. *)
Theorem C10_results_in_submission_order (w : World) (self : AnalysisService)
    (org_name to_version scope : string) (max_repos : Z) (keep_clones : bool)
    (provider : string) (progress_callback : bool) (r : OrgResult) :
  let is_local := path_exists w org_name && path_is_dir w org_name in
  let out := outcome w self to_version scope progress_callback is_local in
  value_of (_analyze_organization w self org_name to_version scope max_repos
              keep_clones provider progress_callback) = Ok r ->
  exists items paths,
    value_of (discover_repo_items w self org_name max_repos keep_clones provider
                progress_callback) = Ok (items, paths) /\
    (exists kept, sublist kept items /\
       Forall2 (fun item x => out item = Ok (Some x)) kept (repositories r)) /\
    (forall C s rs,
       reachable (task_body w self to_version scope progress_callback is_local)
                 C items s ->
       joined s = Some rs ->
       rs = map out items /\ omap keep_success rs = repositories r).
Proof.
  intros loc out Hr.
  apply analyze_organization_Ok in Hr as (items & paths & Hd & _ & _ & Hrs & _).
  exists items, paths. split; [done|]. split.
  - destruct (omap_sublist (success_of w self to_version scope progress_callback loc)
                items) as (kept & Hs & Hf).
    exists kept. split; [done|]. rewrite Hrs.
    eapply Forall2_impl; [exact Hf|]. intros item x Hx. by apply success_of_Some.
  - intros C s rs Hreach Hj.
    pose proof (reachable_joined _ _ _ _ _ Hreach Hj) as Hm.
    apply mapM_task_body in Hm as [-> _]. split; [done|].
    rewrite Hrs. apply omap_keep_success_outcomes.
Qed.

Lemma C10_results_in_submission_order_witness :
  exists r items paths,
    value_of (_analyze_organization demo_world demo_service "/org" "21"
                "all-deprecations" 4 true "github" true) = Ok r /\
    value_of (discover_repo_items demo_world demo_service "/org" 4 true "github" true)
    = Ok (items, paths) /\
    map repository (repositories r) = ["a"; "b"; "d"] /\
    exists kept, sublist kept items /\
      Forall2 (fun item x =>
                 outcome demo_world demo_service "21" "all-deprecations" true true item
                 = Ok (Some x)) kept (repositories r).
Proof.
  eexists.
  destruct (C10_results_in_submission_order demo_world demo_service "/org" "21"
              "all-deprecations" 4 true "github" true _
              ltac:(vm_compute; reflexivity)) as (items & paths & Hd & Hk & _).
  exists items, paths. split; [vm_compute; reflexivity|]. split; [exact Hd|].
  split; [reflexivity|]. exact Hk.
Defined.

(** ** Which events a phase can emit *)

Lemma only_bind p {A B} (m : M A) (f : A -> M B) :
  only p m -> (forall a, only p (f a)) -> only p (m ≫= f).
Proof.
  unfold only. intros Hm Hf. rewrite trace_bind. apply Forall_app. split; [done|].
  destruct (value_of m); [apply Hf|constructor|constructor].
Qed.

Lemma only_nil p {A} (r : result A) : only p (([], r) : M A).
Proof. constructor. Qed.

Lemma only_ret p {A} (a : A) : only p (ret a).
Proof. constructor. Qed.

Lemma only_mret p {A} (a : A) : only p (mret a : M A).
Proof. constructor. Qed.

Lemma only_raise p {A} (e : exn) : only p (raise e : M A).
Proof. constructor. Qed.

Lemma only_lift p {A} (r : result A) : only p (lift r).
Proof. constructor. Qed.

Lemma only_emit (p : event -> bool) ev : p ev = true -> only p (emit ev).
Proof. intros H. by repeat constructor. Qed.

Lemma only_notify (p : event -> bool) cb msg :
  (forall m, p (EvProgress m) = true) -> only p (notify cb msg).
Proof. intros H. destruct cb; [by apply only_emit|constructor]. Qed.

Lemma only_log_error (p : event -> bool) msg :
  (forall m, p (EvLogError m) = true) -> only p (log_error msg).
Proof. intros H. by apply only_emit. Qed.

Lemma only_try p {A} (body : M A) classes (h : exn -> M A) :
  only p body -> (forall e, only p (h e)) -> only p (try_except body classes h).
Proof.
  unfold only, try_except. intros Hb Hh. destruct body as [t [a|e|]]; try done.
  destruct (caught_by classes e); [|done].
  specialize (Hh e). destruct (h e) as [t' r]. simpl in *. by apply Forall_app.
Qed.

Lemma only_weaken (p q : event -> bool) {A} (m : M A) :
  (forall ev, p ev = true -> q ev = true) -> only p m -> only q m.
Proof. intros H Hp. eapply Forall_impl; [exact Hp|]. intros ev. apply H. Qed.

Ltac only_step :=
  first
    [ apply only_bind; [|intros ?]
    | apply only_try; [|intros ?]
    | apply only_notify; reflexivity
    | apply only_log_error; reflexivity
    | apply only_emit; reflexivity
    | apply only_ret
    | apply only_mret
    | apply only_raise
    | apply only_lift
    | apply only_nil
    | match goal with
      | |- only _ (if ?x then _ else _) => destruct x
      | |- only _ (let '(_, _) := ?x in _) => destruct x
      | |- only _ (match ?x with _ => _ end) => destruct x
      end ].

Lemma discovery_only_discovery_events w self org max keep prov cb :
  only discovery_event (discover_repo_items w self org max keep prov cb).
Proof.
  unfold discover_repo_items, _discover_and_clone_remote_repos.
  repeat only_step.
Qed.

Lemma analyze_directory_only_analysis_events w ba d v sc :
  only analysis_event (analyze_directory w ba d v sc).
Proof. unfold analyze_directory. repeat only_step. Qed.

Lemma analyze_single_item_only_analysis_events w self v sc cb loc item :
  only analysis_event (analyze_single_item w self v sc cb loc item).
Proof.
  unfold analyze_single_item, _base_repo_analyzer.
  repeat first [apply analyze_directory_only_analysis_events | only_step].
Qed.

Lemma collect_successful_only_analysis_events results :
  only analysis_event (collect_successful results).
Proof.
  induction results as [|r rest IH]; [constructor|].
  destruct r as [[x|]|e|]; cbn [collect_successful]; repeat first [exact IH | only_step].
Qed.

Lemma parallel_only_analysis_events w self items v sc cb loc :
  only analysis_event (_parallel_repo_analysis w self items v sc cb loc).
Proof.
  unfold _parallel_repo_analysis. apply only_bind; [apply only_lift|]. intros C.
  apply only_bind; [|intros; apply collect_successful_only_analysis_events].
  destruct (gather_under_cases C (map (analyze_single_item w self v sc cb loc) items))
    as [(_ & _ & ->)|(_ & ->)]; [apply only_lift|].
  unfold only, gather, trace_of at 1. cbn [fst].
  apply Forall_concat, Forall_fmap, Forall_fmap, Forall_forall. intros it _.
  apply analyze_single_item_only_analysis_events.
Qed.

(** ** C9: failures of a run *)

(** C9: [run_analysis] never raises.  Called with neither a [repo_path] nor
    an [org_name] it logs the error and returns [None]; and whenever the
    single-repository or the organization analysis raises, the run returns
    [None]. *)
Theorem C9_run_analysis_never_raises (w : World) (self : AnalysisService)
    (repo_path org_name : option string) (to_version scope : string)
    (max_repos : Z) (keep_clones : bool) (provider : string)
    (progress_callback : bool) :
  let run := run_analysis w self repo_path org_name to_version scope max_repos
               keep_clones provider progress_callback in
  (forall e, value_of run <> Raise e) /\
  (opt_str_truthy repo_path = false -> opt_str_truthy org_name = false ->
   run = ([EvLogError "Analysis failed: Must provide either repo_path or org_name"],
          Ok None)) /\
  (opt_str_truthy repo_path = true ->
   forall e, value_of (_analyze_single_repo w self (default "" repo_path) to_version
                         scope progress_callback) = Raise e ->
             value_of run = Ok None /\
             EvLogError ("Analysis failed: " +:+ exn_msg e) ∈ trace_of run) /\
  (opt_str_truthy repo_path = false -> opt_str_truthy org_name = true ->
   forall e, value_of (_analyze_organization w self (default "" org_name) to_version
                         scope max_repos keep_clones provider progress_callback)
             = Raise e ->
             value_of run = Ok None /\
             EvLogError ("Analysis failed: " +:+ exn_msg e) ∈ trace_of run).
Proof.
  intros run. subst run. split; [|split; [|split]].
  - intros e. rewrite run_analysis_value.
    destruct (opt_str_truthy repo_path); [|destruct (opt_str_truthy org_name)].
    + by destruct (value_of (_analyze_single_repo _ _ _ _ _ _)).
    + by destruct (value_of (_analyze_organization _ _ _ _ _ _ _ _ _)).
    + done.
  - intros H1 H2. unfold run_analysis. by rewrite H1, H2.
  - intros H1 e He. split.
    + by rewrite run_analysis_value, H1, He.
    + unfold run_analysis. rewrite trace_try_all, H1, value_bind, He.
      apply elem_of_app. right. apply list_elem_of_singleton. reflexivity.
  - intros H1 H2 e He. split.
    + by rewrite run_analysis_value, H1, H2, He.
    + unfold run_analysis. rewrite trace_try_all, H1, H2, value_bind, He.
      apply elem_of_app. right. apply list_elem_of_singleton. reflexivity.
Qed.

Lemma C9_run_analysis_never_raises_witness :
  run_analysis demo_world demo_service None None "21" "all-deprecations" 50 true
    "github" true
  = ([EvLogError "Analysis failed: Must provide either repo_path or org_name"], Ok None)
  /\ value_of (run_analysis demo_world demo_service None (Some "/empty") "21"
                 "all-deprecations" 50 true "github" true) = Ok None.
Proof.
  split.
  - refine (proj1 (proj2 (C9_run_analysis_never_raises demo_world demo_service None None
              "21" "all-deprecations" 50 true "github" true)) _ _); reflexivity.
  - refine (proj1 (proj2 (proj2 (proj2 (C9_run_analysis_never_raises demo_world
              demo_service None (Some "/empty") "21" "all-deprecations" 50 true
              "github" true))) _ _
              (Exn ExcException "No Java repositories found in /empty") _));
      [reflexivity | reflexivity | vm_compute; reflexivity].
Defined.

(** ** C7: discovery without a qualifying repository *)

(** C7: when discovery comes back without any item, the organization
    analysis raises and the run reports the failure [None]; nothing is
    scheduled: the run emits the events of discovery and no others, and no
    engine is started.  A run whose discovery found items still returns a
    result when every one of them fails analysis. *)
Theorem C7_empty_discovery_is_fatal (w : World) (self : AnalysisService)
    (org_name to_version scope : string) (max_repos : Z) (keep_clones : bool)
    (provider : string) (progress_callback : bool) :
  let is_local := path_exists w org_name && path_is_dir w org_name in
  let discovery := discover_repo_items w self org_name max_repos keep_clones
                     provider progress_callback in
  let run := _analyze_organization w self org_name to_version scope max_repos
               keep_clones provider progress_callback in
  ((forall items paths, value_of discovery = Ok (items, paths) -> items = []) ->
   value_of discovery <> Hang ->
   (exists e, value_of run = Raise e) /\
   (str_truthy org_name = true ->
    value_of (run_analysis w self None (Some org_name) to_version scope max_repos
                keep_clones provider progress_callback) = Ok None) /\
   trace_of run = trace_of discovery /\
   (forall ev, ev ∈ trace_of run -> is_jar ev = false /\ is_cleanup ev = false)) /\
  (forall paths,
     value_of discovery = Ok ([], paths) ->
     value_of run
     = Raise (Exn ExcException ("No Java repositories found in " +:+ org_name))) /\
  (forall items paths C,
     value_of discovery = Ok (items, paths) -> items <> [] ->
     Semaphore (max_concurrent_repos self) = Ok C -> 1 <= C ->
     Forall (fun it => outcome w self to_version scope progress_callback is_local it
                       = Ok None) items ->
     (negb is_local && negb keep_clones = true ->
      cleanup_cloned_repositories w items = Ok tt) ->
     exists r, value_of run = Ok r /\ repos_analyzed r = 0 /\ repositories r = []).
Proof.
  intros loc discovery run. split; [|split].
  - intros Hzero Hnh.
    assert ((exists e, value_of run = Raise e) /\ trace_of run = trace_of discovery)
      as [[e He] Ht].
    { subst run. unfold _analyze_organization. fold discovery.
      rewrite value_bind, trace_bind.
      destruct (value_of discovery) as [[items paths]|e|] eqn:Hd.
      - rewrite (Hzero items paths eq_refl). simpl. rewrite app_nil_r. eauto.
      - rewrite app_nil_r. eauto.
      - done. }
    split; [eauto|]. split; [|split; [done|]].
    + intros Horg. rewrite run_analysis_value. cbn [opt_str_truthy]. rewrite Horg.
      change (default "" (Some org_name)) with org_name. fold run. by rewrite He.
    + intros ev Hev. rewrite Ht in Hev.
      pose proof (discovery_only_discovery_events w self org_name max_repos keep_clones
                    provider progress_callback) as Hd.
      apply (proj1 (Forall_forall _ _) Hd) in Hev. by destruct ev.
  - intros paths Hd. subst run. unfold _analyze_organization. fold discovery.
    by rewrite value_bind, Hd.
  - intros items paths C Hd Hne HC Hpos Hfail Hclean.
    eexists. split.
    + apply (analyze_organization_returns w self org_name to_version scope max_repos
               keep_clones provider progress_callback items paths C); try done.
      eapply Forall_impl; [exact Hfail|]. intros it Hit. fold loc. by rewrite Hit.
    + simpl. fold loc.
      assert (omap (success_of w self to_version scope progress_callback loc) items = [])
        as ->; [|done].
      clear -Hfail. induction Hfail as [|it items Hit _ IH]; [done|].
      cbn [omap list_omap]. unfold success_of at 1. rewrite Hit. exact IH.
Qed.

Lemma C7_empty_discovery_is_fatal_witness :
  value_of (run_analysis demo_world demo_service None (Some "/empty") "21"
              "all-deprecations" 50 true "github" true) = Ok None /\
  trace_of (_analyze_organization demo_world demo_service "/empty" "21"
              "all-deprecations" 50 true "github" true)
  = [EvProgress "Discovering repositories in local directory: /empty"].
Proof.
  destruct (proj1 (C7_empty_discovery_is_fatal demo_world demo_service "/empty" "21"
              "all-deprecations" 50 true "github" true)) as (_ & Hrun & Ht & _).
  - intros items paths. vm_compute. by intros [= <- _].
  - vm_compute. discriminate.
  - split; [by apply Hrun|]. rewrite Ht. vm_compute. reflexivity.
Defined.

(** ** C8: what discovery returns *)

Lemma discover_loop_spec w max items acc dirs :
  discover_loop w max items acc = Ok dirs ->
  (Z.of_nat (length acc) < max)%Z ->
  (Z.of_nat (length dirs) <= max)%Z /\
  exists found, dirs = acc ++ found /\ sublist found items /\ Forall (qualifying w) found.
Proof.
  revert acc. induction items as [|item rest IH]; intros acc Hloop Hacc.
  - injection Hloop as <-. split; [lia|]. exists []. by rewrite app_nil_r.
  - cbn [discover_loop] in Hloop.
    destruct (path_is_dir w item && negb (String.prefix "." (path_name w item))) eqn:Hq.
    + destruct (path_rglob_java w item) as [[|f fs]| |] eqn:Hg; simpl in Hloop; try done.
      * destruct (IH acc Hloop Hacc) as (Hlen & found & -> & Hs & Hf).
        split; [done|]. exists found. repeat split; [by constructor|done].
      * apply andb_true_iff in Hq as [Hdir Hhid]. apply negb_true_iff in Hhid.
        assert (qualifying w item) as Hqual by (repeat split; eauto).
        destruct (Z.of_nat (length (acc ++ [item])) >=? max)%Z eqn:Hge.
        -- injection Hloop as <-. rewrite length_app in *. simpl in *.
           split; [lia|]. exists [item]. repeat split.
           ++ apply sublist_skip, sublist_nil_l.
           ++ by constructor.
        -- assert (Z.of_nat (length (acc ++ [item])) < max)%Z as Hlt by lia.
           destruct (IH _ Hloop Hlt) as (Hlen & found & -> & Hs & Hf).
           split; [done|]. exists (item :: found). rewrite <- app_assoc.
           repeat split; [by constructor | by constructor].
    + destruct (IH acc Hloop Hacc) as (Hlen & found & -> & Hs & Hf).
      split; [done|]. exists found. repeat split; [by constructor|done].
Qed.

(** Once the cap is reached the remaining entries are not looked at. *)
Lemma discover_loop_stops w max pre post acc dirs :
  discover_loop w max pre acc = Ok dirs ->
  (Z.of_nat (length acc) < max)%Z ->
  (max <= Z.of_nat (length dirs))%Z ->
  discover_loop w max (pre ++ post) acc = Ok dirs.
Proof.
  revert acc. induction pre as [|item rest IH]; intros acc Hloop Hacc Hfull.
  - injection Hloop as <-. lia.
  - cbn [discover_loop app] in *.
    destruct (path_is_dir w item && negb (String.prefix "." (path_name w item))).
    + destruct (path_rglob_java w item) as [[|f fs]| |]; simpl in *; try done.
      * by apply IH.
      * destruct (Z.of_nat (length (acc ++ [item])) >=? max)%Z eqn:Hge; [done|].
        apply IH; [done|lia|done].
    + by apply IH.
Qed.

Lemma slice_to_capped {A} (l : list A) (n : Z) :
  (0 <= n)%Z -> slice_to l n = take (Z.to_nat n) l /\ (Z.of_nat (length (slice_to l n)) <= n)%Z.
Proof.
  intros Hn. unfold slice_to. destruct (0 <=? n)%Z eqn:E; [|lia].
  split; [done|]. rewrite length_take. lia.
Qed.

(** With [max_repos >= 1], local discovery returns at most [max_repos]
    children of the directory, in listing order, each a non-hidden directory
    below which the scan for [*.java] finds a path; once the entries looked
    at so far hold [max_repos] such children the result is fixed, whatever
    follows in the listing; and remote discovery hands the clone service the
    first [max_repos] filtered repositories at most. *)
Lemma discovery_capped (w : World) (self : AnalysisService)
    (org_path org_name provider : string) (max_repos : Z) (progress_callback : bool) :
  (1 <= max_repos)%Z ->
  (forall dirs, _discover_local_repos w org_path max_repos = Ok dirs ->
     (Z.of_nat (length dirs) <= max_repos)%Z /\
     exists children, path_iterdir w org_path = Ok children /\
                      sublist dirs children /\
                      Forall (qualifying w) dirs) /\
  (forall pre post dirs,
     path_iterdir w org_path = Ok (pre ++ post) ->
     discover_loop w max_repos pre [] = Ok dirs ->
     Z.of_nat (length dirs) = max_repos ->
     _discover_local_repos w org_path max_repos = Ok dirs) /\
  (forall java_repos,
     EvCloneMany java_repos ∈
       trace_of (_discover_and_clone_remote_repos w self org_name provider max_repos
                   progress_callback) ->
     (Z.of_nat (length java_repos) <= max_repos)%Z /\
     exists all_repos error filtered,
       list_org_repos w org_name provider max_repos = Ok (all_repos, error) /\
       filter_java_repos w all_repos = Ok filtered /\
       java_repos = take (Z.to_nat max_repos) filtered).
Proof.
  intros Hmax. split; [|split].
  - intros dirs. unfold _discover_local_repos.
    destruct (path_iterdir w org_path) as [children| |] eqn:Hc; simpl; try done.
    intros Hloop. apply discover_loop_spec in Hloop as (Hlen & found & -> & Hs & Hf);
      [|simpl; lia].
    split; [done|]. exists children. by repeat split.
  - intros pre post dirs Hc Hloop Hlen. unfold _discover_local_repos. rewrite Hc. simpl.
    apply discover_loop_stops; [done|simpl; lia|lia].
  - intros java_repos. unfold _discover_and_clone_remote_repos.
    rewrite trace_bind, trace_lift, value_lift, app_nil_l.
    destruct (create_scm_service w (config self)) as [[]| |];
      [|by intros ?%elem_of_nil..].
    rewrite trace_bind, trace_lift, value_lift, app_nil_l.
    destruct (list_org_repos w org_name provider max_repos) as [[all_repos error]| |];
      [|by intros ?%elem_of_nil..].
    destruct (error_truthy error || is_nil all_repos); [by intros ?%elem_of_nil|].
    rewrite trace_bind, trace_lift, value_lift, app_nil_l.
    destruct (filter_java_repos w all_repos) as [filtered| |] eqn:Hfilter;
      [|by intros ?%elem_of_nil..].
    destruct (slice_to_capped filtered max_repos ltac:(lia)) as [Hs Hl].
    destruct (is_nil (slice_to filtered max_repos)); [by intros ?%elem_of_nil|].
    rewrite trace_bind, value_notify, trace_bind.
    intros [Hin|Hin]%elem_of_app.
    { apply notify_no_marker in Hin as [m Hm]. discriminate. }
    cbn [trace_of emit fst value_of snd] in Hin.
    apply elem_of_cons in Hin as [[= ->]|Hin].
    + split; [done|]. by exists all_repos, error, filtered.
    + rewrite trace_bind, trace_lift in Hin. simpl in Hin.
      destruct (clone_organization_repositories w _ _ _); by apply elem_of_nil in Hin.
Qed.

Lemma discovery_capped_demo :
  _discover_local_repos demo_world "/org" 2 = Ok ["/org/a"; "/org/b"] /\
  (Z.of_nat (length ["/org/a"; "/org/b"]) <= 2)%Z.
Proof.
  assert (_discover_local_repos demo_world "/org" 2 = Ok ["/org/a"; "/org/b"]) as H
    by (vm_compute; reflexivity).
  split; [exact H|].
  exact (proj1 (proj1 (discovery_capped demo_world demo_service "/org" "acme"
                  "github" 2 true ltac:(lia)) _ H)).
Qed.

(** C8: a child is taken as a repository as soon as the scan of line 232
    finds a path named [*.java] below it, whatever that path is.  In
    [/mono], the child [docs] holds no Java source file, only a directory
    named [notes.java]; discovery returns it all the same, ahead of [app],
    which does hold one, and the organization run receives it as an item
    to analyse. *)
Theorem C8_directory_named_java_qualifies :
  let w := java_dir_world in
  path_iterdir w "/mono" = Ok ["/mono/docs"; "/mono/app"] /\
  path_rglob_java w "/mono/docs" = Ok ["/mono/docs/notes.java"] /\
  path_is_dir w "/mono/docs/notes.java" = true /\
  ~ contains_source_file w "/mono/docs" /\
  contains_source_file w "/mono/app" /\
  _discover_local_repos w "/mono" 5 = Ok ["/mono/docs"; "/mono/app"] /\
  value_of (discover_repo_items w demo_service "/mono" 5 true "github" true)
  = Ok ([LocalItem "/mono/docs"; LocalItem "/mono/app"], None).
Proof.
  intros w.
  split; [reflexivity|]. split; [reflexivity|]. split; [reflexivity|].
  split; [|split; [|split]].
  - intros (files & f & Hfiles & Hin & Hdir).
    injection Hfiles as <-. apply list_elem_of_singleton in Hin as ->. discriminate.
  - exists ["/mono/app/Main.java"], "/mono/app/Main.java".
    split; [reflexivity|]. split; [apply list_elem_of_here|reflexivity].
  - vm_compute. reflexivity.
  - vm_compute. reflexivity.
Qed.

(** ** C3: when cleanup runs and what it is given *)

Lemma cleanup_trace_value w items :
  trace_of (_cleanup_cloned_repos w items) = [EvCleanup items] /\
  value_of (_cleanup_cloned_repos w items) = cleanup_cloned_repositories w items.
Proof.
  unfold _cleanup_cloned_repos. rewrite trace_bind, value_bind. simpl.
  by destruct (cleanup_cloned_repositories w items).
Qed.

(** The events of an organization run, phase by phase. *)
Lemma analyze_organization_trace w self org v sc max keep prov cb :
  let loc := path_exists w org && path_is_dir w org in
  let discovery := discover_repo_items w self org max keep prov cb in
  trace_of (_analyze_organization w self org v sc max keep prov cb) =
  trace_of discovery ++
  match value_of discovery with
  | Ok (items, _) =>
      if is_nil items then [] else
      let analysis := _parallel_repo_analysis w self items v sc cb loc in
      trace_of (notify cb ("Starting parallel analysis of " +:+ pretty (length items)
                           +:+ " repositories")) ++
      trace_of analysis ++
      match value_of analysis with
      | Ok rs =>
          if negb loc && negb keep then
            EvCleanup items ::
            match cleanup_cloned_repositories w items with
            | Ok _ => [EvAggregate (sum_list_with total_issues rs) (length rs)]
            | _ => []
            end
          else [EvAggregate (sum_list_with total_issues rs) (length rs)]
      | _ => []
      end
  | _ => []
  end.
Proof.
  intros loc discovery. unfold _analyze_organization. fold loc. fold discovery.
  rewrite trace_bind. f_equal.
  destruct (value_of discovery) as [[items paths]| |]; try done.
  destruct (is_nil items); [done|].
  rewrite trace_bind, value_notify. f_equal.
  rewrite trace_bind. f_equal.
  destruct (value_of (_parallel_repo_analysis _ _ _ _ _ _ _)) as [rs| |] eqn:Hp; try done.
  pose proof (parallel_Ok _ _ _ _ _ _ _ _ Hp) as (Hrs & _ & _).
  assert (sum_findings rs = Ok (sum_list_with total_issues rs)) as Hsum.
  { apply sum_findings_counts. rewrite Hrs. apply successes_counted. }
  rewrite trace_bind.
  destruct (negb loc && negb keep).
  - destruct (cleanup_trace_value w items) as [-> ->].
    destruct (cleanup_cloned_repositories w items) as [[]| |]; try done.
    rewrite trace_bind, value_lift, trace_lift, Hsum. cbv beta iota.
    rewrite trace_bind. done.
  - cbn [trace_of value_of ret fst snd app].
    rewrite trace_bind, value_lift, trace_lift, Hsum. cbv beta iota.
    rewrite trace_bind. done.
Qed.

(** What remote discovery returns is the successful part of what the clone
    service reported. *)
Lemma remote_discovery_Ok w self org prov max cb clones :
  value_of (_discover_and_clone_remote_repos w self org prov max cb) = Ok clones ->
  exists java_repos reported,
    clone_organization_repositories w java_repos org (max_concurrent_repos self)
    = Ok reported /\
    clones = filter (fun c => success c = true) reported.
Proof.
  unfold _discover_and_clone_remote_repos. rewrite value_bind, value_lift.
  destruct (create_scm_service w (config self)) as [[]| |]; try done.
  rewrite value_bind, value_lift.
  destruct (list_org_repos w org prov max) as [[all_repos error]| |]; try done.
  destruct (error_truthy error || is_nil all_repos); [done|].
  rewrite value_bind, value_lift.
  destruct (filter_java_repos w all_repos) as [filtered| |]; try done.
  destruct (is_nil (slice_to filtered max)); [done|].
  rewrite value_bind, value_notify, value_bind. cbn [value_of emit snd].
  rewrite value_bind, value_lift.
  destruct (clone_organization_repositories w _ _ _) as [reported| |] eqn:Hc; try done.
  intros [= <-]. eauto.
Qed.

Lemma discovery_remote_Ok w self org max keep prov cb items paths :
  path_exists w org && path_is_dir w org = false ->
  value_of (discover_repo_items w self org max keep prov cb) = Ok (items, paths) ->
  exists clones,
    value_of (_discover_and_clone_remote_repos w self org prov max cb) = Ok clones /\
    items = map ClonedItem clones.
Proof.
  intros Hloc. unfold discover_repo_items. rewrite Hloc.
  rewrite value_bind, value_notify, value_bind.
  destruct (value_of (_discover_and_clone_remote_repos _ _ _ _ _ _)) as [clones| |];
    try done.
  intros [= <- _]. eauto.
Qed.

(** C3 (as amended): cleanup is invoked only in a remote run with retention
    declined; when it is invoked the scheduler's join has returned, every
    engine run lies before it in the trace and none after, no task is in
    flight, and the aggregation has not yet been evaluated; it is given
    exactly the clone results the clone service reported as successful; and a
    remote run with retention declined that returns did invoke it, right
    before the aggregation. *)
Theorem C3_cleanup_after_join (w : World) (self : AnalysisService)
    (org_name to_version scope : string) (max_repos : Z) (keep_clones : bool)
    (provider : string) (progress_callback : bool) :
  let is_local := path_exists w org_name && path_is_dir w org_name in
  let run := _analyze_organization w self org_name to_version scope max_repos
               keep_clones provider progress_callback in
  (is_local = true \/ keep_clones = true ->
   forall ev, ev ∈ trace_of run -> is_cleanup ev = false) /\
  (forall items, EvCleanup items ∈ trace_of run ->
     is_local = false /\ keep_clones = false /\
     (exists pre post,
        trace_of run = pre ++ EvCleanup items :: post /\
        Forall (fun ev => is_cleanup ev = false /\ is_aggregate ev = false) pre /\
        Forall (fun ev => is_jar ev = false /\ is_cleanup ev = false) post) /\
     (exists rs,
        value_of (_parallel_repo_analysis w self items to_version scope
                    progress_callback is_local) = Ok rs) /\
     (forall C s rs,
        reachable (task_body w self to_version scope progress_callback is_local)
                  C items s ->
        joined s = Some rs -> in_flight s = 0 /\ waiting s = 0) /\
     (exists java_repos reported,
        clone_organization_repositories w java_repos org_name
          (max_concurrent_repos self) = Ok reported /\
        items = map ClonedItem (filter (fun c => success c = true) reported))) /\
  (is_local = false -> keep_clones = false ->
   forall r, value_of run = Ok r ->
     exists pre items,
       trace_of run
       = pre ++ [EvCleanup items; EvAggregate (org_total_issues r) (repos_analyzed r)]).
Proof.
  intros loc run.
  pose proof (analyze_organization_trace w self org_name to_version scope max_repos
                keep_clones provider progress_callback) as Ht.
  cbv zeta in Ht. fold loc in Ht. fold run in Ht.
  pose proof (discovery_only_discovery_events w self org_name max_repos keep_clones
                provider progress_callback) as Hdisc.
  set (discovery := discover_repo_items w self org_name max_repos keep_clones provider
                      progress_callback) in *.
  assert (forall items,
            Forall (fun ev => analysis_event ev = true)
              (trace_of (notify progress_callback
                           ("Starting parallel analysis of " +:+ pretty (length items)
                            +:+ " repositories")) ++
               trace_of (_parallel_repo_analysis w self items to_version scope
                           progress_callback loc))) as Hana.
  { intros items. apply Forall_app. split.
    - apply (only_notify analysis_event). reflexivity.
    - apply parallel_only_analysis_events. }
  split; [|split].
  - intros Hskip ev Hev. rewrite Ht in Hev.
    apply elem_of_app in Hev as [Hev|Hev].
    { apply (proj1 (Forall_forall _ _) Hdisc) in Hev. by destruct ev. }
    destruct (value_of discovery) as [[items paths]| |]; try by apply elem_of_nil in Hev.
    destruct (is_nil items); [by apply elem_of_nil in Hev|].
    rewrite app_assoc in Hev. apply elem_of_app in Hev as [Hev|Hev].
    { apply (proj1 (Forall_forall _ _) (Hana items)) in Hev. by destruct ev. }
    destruct (value_of (_parallel_repo_analysis _ _ _ _ _ _ _)) as [rs| |];
      try by apply elem_of_nil in Hev.
    assert (negb loc && negb keep_clones = false) as Hgate.
    { destruct Hskip as [Hs|Hs]; rewrite Hs; [done|by destruct loc]. }
    rewrite Hgate in Hev. apply list_elem_of_singleton in Hev as ->. done.
  - intros items Hev. rewrite Ht in Hev. rewrite Ht.
    apply elem_of_app in Hev as [Hev|Hev].
    { apply (proj1 (Forall_forall _ _) Hdisc) in Hev. done. }
    destruct (value_of discovery) as [[items0 paths]| |] eqn:Hd;
      try by apply elem_of_nil in Hev.
    destruct (is_nil items0); [by apply elem_of_nil in Hev|].
    rewrite app_assoc in Hev. apply elem_of_app in Hev as [Hev|Hev].
    { apply (proj1 (Forall_forall _ _) (Hana items0)) in Hev. done. }
    destruct (value_of (_parallel_repo_analysis w self items0 _ _ _ _)) as [rs| |] eqn:Hp;
      try by apply elem_of_nil in Hev.
    destruct (negb loc && negb keep_clones) eqn:Hgate;
      [|apply list_elem_of_singleton in Hev; discriminate].
    apply andb_true_iff in Hgate as [Hloc Hkeep].
    apply negb_true_iff in Hloc, Hkeep.
    assert (items = items0) as ->.
    { apply elem_of_cons in Hev as [[= ->]|Hev]; [done|].
      destruct (cleanup_cloned_repositories w items0);
        [apply list_elem_of_singleton in Hev; discriminate
        | by apply elem_of_nil in Hev..]. }
    split; [done|]. split; [done|]. split; [|split; [|split]].
    + match goal with
      | |- exists pre post, ?a ++ ?b ++ ?c ++ _ :: ?d = _ /\ _ =>
          exists (a ++ b ++ c), d
      end.
      split.
      * by rewrite <- !app_assoc.
      * split.
        -- apply Forall_app. split.
           ++ eapply Forall_impl; [exact Hdisc|]. intros ev Hx. by destruct ev.
           ++ eapply Forall_impl; [exact (Hana items0)|]. intros ev Hx. by destruct ev.
        -- destruct (cleanup_cloned_repositories w items0); repeat constructor.
    + by exists rs.
    + intros C s rs0 Hr Hj. eapply joined_Some_all_finished; eauto.
    + destruct (discovery_remote_Ok w self org_name max_repos keep_clones provider
                  progress_callback items0 paths Hloc Hd) as (clones & Hc & ->).
      apply remote_discovery_Ok in Hc as (java_repos & reported & Hrep & ->).
      by exists java_repos, reported.
  - intros Hloc Hkeep r Hr. rewrite Ht.
    pose proof (analyze_organization_Ok _ _ _ _ _ _ _ _ _ _ Hr) as Hok. cbv zeta in Hok.
    fold loc in Hok. fold discovery in Hok.
    destruct Hok as (items & paths & Hd & Hne & Hp & _ & Hn & Hsum & _).
    rewrite Hd. destruct items as [|it items]; [done|]. cbn [is_nil]. cbv zeta.
    rewrite Hp, Hloc, Hkeep. cbn [negb andb].
    destruct (cleanup_cloned_repositories w (it :: items)) as [[]| |] eqn:Hcl.
    + match goal with
      | |- exists pre items, ?a ++ ?b ++ ?c ++ _ = _ =>
          exists (a ++ b ++ c), (it :: items)
      end.
      by rewrite <- !app_assoc, Hsum, Hn.
    + exfalso. revert Hr. subst run. unfold _analyze_organization. fold loc.
      fold discovery. rewrite value_bind, Hd. cbn [is_nil].
      rewrite value_bind, value_notify, value_bind, Hp, value_bind, Hloc, Hkeep.
      cbn [negb andb]. destruct (cleanup_trace_value w (it :: items)) as [_ ->].
      by rewrite Hcl.
    + exfalso. revert Hr. subst run. unfold _analyze_organization. fold loc.
      fold discovery. rewrite value_bind, Hd. cbn [is_nil].
      rewrite value_bind, value_notify, value_bind, Hp, value_bind, Hloc, Hkeep.
      cbn [negb andb]. destruct (cleanup_trace_value w (it :: items)) as [_ ->].
      by rewrite Hcl.
Qed.

Lemma C3_cleanup_after_join_witness :
  EvCleanup (map ClonedItem (filter (fun c => success c = true) demo_clones)) ∈
    trace_of (_analyze_organization demo_world demo_service "acme" "21"
                "all-deprecations" 50 false "github" true) /\
  exists pre post,
    trace_of (_analyze_organization demo_world demo_service "acme" "21"
                "all-deprecations" 50 false "github" true)
    = pre ++ EvCleanup (map ClonedItem (filter (fun c => success c = true) demo_clones))
          :: post /\
    Forall (fun ev => is_cleanup ev = false /\ is_aggregate ev = false) pre /\
    Forall (fun ev => is_jar ev = false /\ is_cleanup ev = false) post.
Proof.
  assert (EvCleanup (map ClonedItem (filter (fun c => success c = true) demo_clones)) ∈
    trace_of (_analyze_organization demo_world demo_service "acme" "21"
                "all-deprecations" 50 false "github" true)) as Hin.
  { vm_compute. repeat (first [apply list_elem_of_here | apply list_elem_of_further]). }
  split; [exact Hin|].
  exact (proj1 (proj2 (proj2 (proj1 (proj2 (C3_cleanup_after_join demo_world
           demo_service "acme" "21" "all-deprecations" 50 false "github" true)) _ Hin)))).
Defined.

(** C3 as stated fails: in the remote run of [acme] with retention declined,
    cleanup is invoked while the aggregation is still to come. *)
Lemma C3_cleanup_precedes_aggregation :
  ~ cleanup_follows_aggregation
      (trace_of (_analyze_organization demo_world demo_service "acme" "21"
                   "all-deprecations" 50 false "github" true)).
Proof.
  intros H.
  set (t := trace_of (_analyze_organization demo_world demo_service "acme" "21"
                        "all-deprecations" 50 false "github" true)) in *.
  destruct (H (take 13 t)
              (map ClonedItem (filter (fun c => success c = true) demo_clones))
              (drop 14 t)) as (total & n & Hin).
  - vm_compute. reflexivity.
  - vm_compute in Hin.
    repeat (apply elem_of_cons in Hin as [Hin|Hin]; [discriminate|]).
    by apply elem_of_nil in Hin.
Qed.

(** * Further properties of the services *)

(** ** The adapter: [analyze_directory] *)

(** X1: [analyze_directory] never raises.  For a path that is not an
    existing directory it logs and returns [None] without starting the
    engine; a non-zero exit code gives [None] with the engine's stderr
    logged and the artifact left unread; and a result other than [None]
    comes only from an engine run that exited with 0 and whose artifact
    existed, parsed to that result and was deleted. *)
Theorem X1_analyze_directory_outcomes (w : World) (self : BaseAnalyzer)
    (directory_path target_jdk scope : string) :
  let cmd := jar_command self directory_path target_jdk scope in
  let run := analyze_directory w self directory_path target_jdk scope in
  (forall e, value_of run <> Raise e) /\
  (path_exists w directory_path = false \/ path_is_dir w directory_path = false ->
   run = ([EvLogError ("Directory does not exist: " +:+ directory_path)], Ok PNone)) /\
  (forall rc stderr,
     path_exists w directory_path = true -> path_is_dir w directory_path = true ->
     jar_run w cmd = Ok (rc, stderr) -> rc <> 0%Z ->
     run = ([EvJar cmd; EvLogError ("JAR analysis failed: " +:+ stderr)], Ok PNone)) /\
  (forall res,
     value_of run = Ok res -> res <> PNone ->
     path_exists w directory_path = true /\ path_is_dir w directory_path = true /\
     (exists stderr, jar_run w cmd = Ok (0%Z, stderr)) /\
     artifact_after w cmd (output_path target_jdk scope) = Some (Ok res) /\
     artifact_unlink w cmd (output_path target_jdk scope) = Ok tt).
Proof.
  intros cmd run. split; [|split; [|split]].
  - apply analyze_directory_never_raises.
  - intros Hd. subst run. unfold analyze_directory.
    assert (negb (path_exists w directory_path) || negb (path_is_dir w directory_path)
            = true) as ->; [|done].
    destruct Hd as [-> | ->]; [done|by destruct (path_exists w directory_path)].
  - intros rc stderr He Hd Hrun Hrc. subst run. unfold analyze_directory.
    rewrite He, Hd. fold cmd. cbn [negb orb].
    unfold mbind, M_bind, bind, lift, emit. rewrite Hrun.
    destruct (rc =? 0)%Z eqn:E; [apply Z.eqb_eq in E; done|]. done.
  - intros res. subst run. unfold analyze_directory. rewrite value_try_all.
    destruct (path_exists w directory_path), (path_is_dir w directory_path);
      cbn [negb orb]; try (intros [= <-]; done).
    fold cmd. rewrite value_bind. cbn [value_of emit snd].
    rewrite value_bind, value_lift.
    destruct (jar_run w cmd) as [[rc stderr]| |] eqn:Hrun;
      try (simpl; intros [= <-]; done).
    destruct (rc =? 0)%Z eqn:E; [|simpl; intros [= <-]; done].
    apply Z.eqb_eq in E as ->.
    unfold artifact_path_of_call.
    destruct (artifact_after w cmd (output_path target_jdk scope))
      as [[content| |]|] eqn:Ha; try (simpl; intros [= <-]; done).
    rewrite value_bind, value_lift, value_bind, value_lift.
    destruct (artifact_unlink w cmd _) as [[]| |] eqn:Hu;
      try (simpl; intros [= <-]; done).
    simpl. intros [= <-] _. repeat split; eauto.
Qed.

Lemma X1_analyze_directory_outcomes_witness :
  artifact_after demo_world
    (jar_command (base_analyzer demo_service) "/org/b" "21" "all-deprecations")
    (output_path "21" "all-deprecations")
  = Some (Ok (PList [PStr "Thread.stop"])).
Proof.
  destruct (X1_analyze_directory_outcomes demo_world (base_analyzer demo_service)
              "/org/b" "21" "all-deprecations") as (_ & _ & _ & H).
  destruct (H (PList [PStr "Thread.stop"])) as (_ & _ & _ & Ha & _);
    [vm_compute; reflexivity | discriminate | exact Ha].
Defined.

(** ** [_base_repo_analyzer]: what counts as a result *)

(** X2: given what the adapter returned, [_base_repo_analyzer] raises
    "JAR analysis failed" on every falsy answer, the empty list and the
    empty dictionary included; a non-empty list is taken as the findings; a
    dictionary gives its [findings] entry, or no findings when it has none;
    the issue count is the length of the findings, and findings without a
    length raise a [TypeError]. *)
Theorem X2_base_repo_analyzer_result_shapes (w : World) (self : AnalysisService)
    (local_path repo_name to_version scope : string) (progress_callback : bool)
    (raw : pyval) :
  value_of (analyze_directory w (base_analyzer self) local_path to_version scope)
  = Ok raw ->
  let run := _base_repo_analyzer w self local_path repo_name to_version scope
               progress_callback in
  (truthy raw = false ->
   value_of run = Raise (Exn ExcException ("JAR analysis failed for " +:+ repo_name))) /\
  (forall x l, raw = PList (x :: l) ->
   value_of run = Ok {| repository := repo_name; findings := raw;
                        total_issues := S (length l) |}) /\
  (forall kvs, raw = PDict kvs -> kvs <> [] -> assoc_get "findings" kvs = None ->
   value_of run = Ok {| repository := repo_name; findings := PList [];
                        total_issues := 0 |}) /\
  (forall kvs fs n, raw = PDict kvs -> assoc_get "findings" kvs = Some fs ->
   py_len fs = Some n ->
   value_of run = Ok {| repository := repo_name; findings := fs; total_issues := n |}) /\
  (forall kvs fs, raw = PDict kvs -> assoc_get "findings" kvs = Some fs ->
   py_len fs = None ->
   exists msg, value_of run = Raise (Exn ExcTypeError msg)) /\
  (truthy raw = true -> (forall l, raw <> PList l) -> (forall kvs, raw <> PDict kvs) ->
   exists msg, value_of run = Raise (Exn ExcAttributeError msg)).
Proof.
  intros Hraw run. subst run. unfold _base_repo_analyzer.
  rewrite value_bind, value_notify, value_bind, Hraw.
  repeat split.
  - intros ->. done.
  - intros x l ->. cbn [truthy negb]. rewrite value_bind, value_lift.
    rewrite value_bind, value_lift. unfold len. cbn [py_len length].
    by rewrite value_bind, value_notify.
  - intros kvs -> Hne Hf. destruct kvs as [|kv kvs]; [done|]. cbn [truthy negb].
    rewrite value_bind, value_lift. unfold dict_get. rewrite Hf.
    rewrite value_bind, value_lift. unfold len. cbn [py_len length].
    by rewrite value_bind, value_notify.
  - intros kvs fs n -> Hf Hn. destruct kvs as [|kv kvs]; [done|]. cbn [truthy negb].
    rewrite value_bind, value_lift. unfold dict_get. rewrite Hf.
    rewrite value_bind, value_lift. unfold len. rewrite Hn.
    by rewrite value_bind, value_notify.
  - intros kvs fs -> Hf Hn. destruct kvs as [|kv kvs]; [done|]. cbn [truthy negb].
    rewrite value_bind, value_lift. unfold dict_get. rewrite Hf.
    rewrite value_bind, value_lift. unfold len. rewrite Hn. eauto.
  - intros Ht Hl Hd. rewrite Ht. cbn [negb]. rewrite value_bind, value_lift.
    destruct raw; try (by eexists); [by destruct (Hl l) | by destruct (Hd kvs)].
Qed.

Lemma X2_base_repo_analyzer_result_shapes_witness :
  value_of (_base_repo_analyzer demo_world demo_service "/org/b" "b" "21"
              "all-deprecations" true)
  = Ok {| repository := "b"; findings := PList [PStr "Thread.stop"];
          total_issues := 1 |}.
Proof.
  refine (proj1 (proj2 (X2_base_repo_analyzer_result_shapes demo_world demo_service
            "/org/b" "b" "21" "all-deprecations" true (PList [PStr "Thread.stop"]) _))
          (PStr "Thread.stop") [] eq_refl).
  vm_compute. reflexivity.
Defined.

(** ** Memory settings *)

Lemma override_or_first ov k1 k2 d m :
  ov !! k1 = Some m -> str_truthy m = true -> override_or ov k1 k2 d = m.
Proof. intros H1 H2. unfold override_or. by rewrite H1, H2. Qed.

Lemma override_or_second ov k1 k2 d h :
  ov !! k1 = None \/ ov !! k1 = Some "" ->
  ov !! k2 = Some h -> str_truthy h = true -> override_or ov k1 k2 d = h.
Proof.
  intros [H1|H1] H2 H3; unfold override_or; rewrite H1; simpl; by rewrite H2, H3.
Qed.

Lemma override_or_default ov k1 k2 d :
  ov !! k1 = None \/ ov !! k1 = Some "" ->
  ov !! k2 = None \/ ov !! k2 = Some "" ->
  override_or ov k1 k2 d = d.
Proof.
  intros [H1|H1] [H2|H2]; unfold override_or; rewrite H1; simpl; by rewrite H2.
Qed.

(** X3: the heap size handed to the engine is the override [memory] when it
    is set and not empty, else the override [heap_size] when that is set and
    not empty, else the configured default; and [get_memory_info] displays
    exactly the two sizes the engine is started with. *)
Theorem X3_memory_precedence_and_display (self : BaseAnalyzer)
    (directory_path target_jdk scope : string) :
  let ov := memory_overrides self in
  let cmd := jar_command self directory_path target_jdk scope in
  (forall m, ov !! "memory" = Some m -> str_truthy m = true ->
     cmd !! 1 = Some ("-Xmx" +:+ m)) /\
  (forall h, ov !! "memory" = None \/ ov !! "memory" = Some "" ->
     ov !! "heap_size" = Some h -> str_truthy h = true ->
     cmd !! 1 = Some ("-Xmx" +:+ h)) /\
  (ov !! "memory" = None \/ ov !! "memory" = Some "" ->
   ov !! "heap_size" = None \/ ov !! "heap_size" = Some "" ->
   cmd !! 1 = Some ("-Xmx" +:+ default_memory self)) /\
  (forall m i, cmd !! 1 = Some ("-Xmx" +:+ m) -> cmd !! 2 = Some ("-Xms" +:+ i) ->
     get_memory_info self = m +:+ " memory, " +:+ i +:+ " initial").
Proof.
  intros ov cmd. subst cmd. unfold jar_command. cbn [lookup list_lookup].
  repeat split.
  - intros m H1 H2. by rewrite (override_or_first _ _ _ _ m).
  - intros h H1 H2 H3. by rewrite (override_or_second _ _ _ _ h).
  - intros H1 H2. by rewrite override_or_default.
  - intros m i [= Hm] [= Hi]. unfold String.append in Hm, Hi.
    unfold get_memory_info. by rewrite Hm, Hi.
Qed.

Lemma X3_memory_precedence_and_display_witness :
  let ba := {| jar_path := "gs-analyzer.jar";
               memory_overrides := <["memory" := ""]> (<["heap_size" := "4g"]> ∅);
               default_memory := "2g";
               default_initial_memory := "512m" |} in
  jar_command ba "/org/a" "21" "all-deprecations" !! 1 = Some "-Xmx4g".
Proof.
  intros ba.
  destruct (X3_memory_precedence_and_display ba "/org/a" "21" "all-deprecations")
    as (_ & H & _).
  apply (H "4g"); [right; reflexivity | reflexivity | reflexivity].
Defined.

(** ** [BaseAnalyzer.__init__] *)

Lemma BaseAnalyzer_init_dict kvs overrides :
  BaseAnalyzer_init (PDict kvs) overrides =
  match default (PDict []) (assoc_get "graphshift" kvs) with
  | PDict g =>
      match default (PDict []) (assoc_get "jar" g) with
      | PDict j =>
          match default (PStr "gs-analyzer.jar") (assoc_get "path" j) with
          | PStr p =>
              Ok {| jar_path := p;
                    memory_overrides := default ∅ overrides;
                    default_memory :=
                      str_or_default (default (PStr "2g") (assoc_get "memory" j)) "2g";
                    default_initial_memory :=
                      str_or_default
                        (default (PStr "512m") (assoc_get "initial_memory" j)) "512m" |}
          | _ => Raise (Exn ExcTypeError "expected str, bytes or os.PathLike object")
          end
      | jar_config => Raise (no_get jar_config)
      end
  | gs => Raise (no_get gs)
  end.
Proof.
  unfold BaseAnalyzer_init. simpl.
  destruct (assoc_get "graphshift" kvs) as [[| | | | |g]|]; simpl; try done.
  all: try (destruct (assoc_get "jar" _) as [[]|]; simpl; try done).
  all: try (destruct (assoc_get "path" _) as [[]|]; simpl; try done).
Qed.

(** X4: on a configuration dictionary the constructor succeeds exactly when
    [graphshift] and [jar], where present, are dictionaries and [path],
    where present, is a string; it then takes the jar path from the
    configuration or [gs-analyzer.jar], and each memory default from the
    configuration when it holds a string there and the built-in ["2g"] and
    ["512m"] in every other case; on a configuration that is not a
    dictionary it raises. *)
Theorem X4_base_analyzer_init (kvs : list (string * pyval))
    (overrides : option (gmap string string)) :
  let gs := default (PDict []) (assoc_get "graphshift" kvs) in
  ((exists ba, BaseAnalyzer_init (PDict kvs) overrides = Ok ba) <->
   exists g j p, gs = PDict g /\
                 default (PDict []) (assoc_get "jar" g) = PDict j /\
                 default (PStr "gs-analyzer.jar") (assoc_get "path" j) = PStr p) /\
  (forall ba g j,
     BaseAnalyzer_init (PDict kvs) overrides = Ok ba ->
     gs = PDict g -> default (PDict []) (assoc_get "jar" g) = PDict j ->
     default (PStr "gs-analyzer.jar") (assoc_get "path" j) = PStr (jar_path ba) /\
     default_memory ba
     = str_or_default (default (PStr "2g") (assoc_get "memory" j)) "2g" /\
     default_initial_memory ba
     = str_or_default (default (PStr "512m") (assoc_get "initial_memory" j)) "512m" /\
     memory_overrides ba = default ∅ overrides) /\
  BaseAnalyzer_init (PDict kvs) overrides <> Hang /\
  (forall v, (forall d, v <> PDict d) ->
     exists msg, BaseAnalyzer_init v overrides = Raise (Exn ExcAttributeError msg)).
Proof.
  intros gs. rewrite BaseAnalyzer_init_dict. fold gs. split; [|split; [|split]].
  - split.
    + intros [ba Hba]. destruct gs as [| | | | |g]; try done.
      destruct (default (PDict []) (assoc_get "jar" g)) as [| | | | |j] eqn:Hj;
        try done.
      destruct (default (PStr "gs-analyzer.jar") (assoc_get "path" j))
        as [| | |p| |] eqn:Hp; try done.
      by exists g, j, p.
    + intros (g & j & p & -> & -> & ->). by eexists.
  - intros ba g j Hba -> Hj. rewrite Hj in Hba.
    destruct (default (PStr "gs-analyzer.jar") (assoc_get "path" j)); try done.
    by injection Hba as <-.
  - destruct gs as [| | | | |g]; try done.
    destruct (default (PDict []) (assoc_get "jar" g)) as [| | | | |j]; try done.
    by destruct (default (PStr "gs-analyzer.jar") (assoc_get "path" j)).
  - intros v Hv. destruct v; try (by eexists). by destruct (Hv kvs0).
Qed.

Lemma X4_base_analyzer_init_witness :
  exists ba,
    BaseAnalyzer_init
      (PDict [("graphshift", PDict [("jar", PDict [("memory", PDict [])])])]) None
    = Ok ba.
Proof.
  apply (proj1 (X4_base_analyzer_init
                  [("graphshift", PDict [("jar", PDict [("memory", PDict [])])])] None)).
  exists [("jar", PDict [("memory", PDict [])])], [("memory", PDict [])],
    "gs-analyzer.jar".
  repeat split.
Defined.

(** ** Repository names from URLs *)

Lemma append_cons_str x (a b : string) : String x a +:+ b = String x (a +:+ b).
Proof. reflexivity. Qed.

Lemma append_nil_str (b : string) : "" +:+ b = b.
Proof. reflexivity. Qed.

Lemma append_nil_r_str (a : string) : a +:+ "" = a.
Proof. induction a as [|x a IH]; [done|]. by rewrite append_cons_str, IH. Qed.

Lemma append_assoc_str (a b c : string) : (a +:+ b) +:+ c = a +:+ (b +:+ c).
Proof.
  induction a as [|x a IH]; [done|]. by rewrite !append_cons_str, IH.
Qed.

Lemma prefix_append (a b c : string) :
  String.prefix a b = true -> String.prefix a (b +:+ c) = true.
Proof.
  revert b. induction a as [|x a IH]; intros b H.
  - destruct b; [by destruct c | by rewrite append_cons_str].
  - destruct b as [|y b]; [done|]. rewrite append_cons_str.
    cbn [String.prefix] in *. destruct (ascii_dec x y); [by apply IH|done].
Qed.

Lemma url_like_append (base rest : string) :
  url_like base = true -> url_like (base +:+ rest) = true.
Proof.
  unfold url_like. intros H.
  apply orb_true_iff in H as [H|H]; [apply orb_true_iff in H as [H|H]|].
  - by rewrite (prefix_append _ _ rest H).
  - rewrite (prefix_append _ _ rest H). by rewrite orb_true_r.
  - rewrite (prefix_append _ _ rest H). by rewrite orb_true_r.
Qed.

Lemma no_char_append c (a b : string) :
  no_char c (a +:+ b) = no_char c a && no_char c b.
Proof.
  induction a as [|x a IH]; [done|]. rewrite append_cons_str. cbn [no_char].
  rewrite IH. by rewrite andb_assoc.
Qed.

Lemma last_segment_append (s t acc : string) :
  last_segment (s +:+ t) acc = last_segment t (last_segment s acc).
Proof.
  revert acc. induction s as [|x s IH]; intros acc; [done|].
  rewrite append_cons_str. cbn [last_segment].
  destruct (Ascii.eqb x "/"); apply IH.
Qed.

Lemma last_segment_no_slash (t acc : string) :
  no_char "/" t = true -> last_segment t acc = acc +:+ t.
Proof.
  revert acc. induction t as [|x t IH]; intros acc H; cbn [last_segment no_char] in *.
  - by rewrite append_nil_r_str.
  - apply andb_true_iff in H as [Hx Ht]. apply negb_true_iff in Hx. rewrite Hx.
    rewrite IH by done. by rewrite append_assoc_str.
Qed.

Lemma prefix_dot_git_false c rest :
  Ascii.eqb c "." = false -> String.prefix ".git" (String c rest) = false.
Proof.
  intros H. cbn [String.prefix]. destruct (ascii_dec "." c) as [<-|]; [|done].
  by rewrite Ascii.eqb_refl in H.
Qed.

Lemma remove_dot_git_no_dot (b : string) :
  no_char "." b = true -> remove_dot_git b 0 = b.
Proof.
  induction b as [|x b IH]; intros H; [done|].
  cbn [no_char] in H. apply andb_true_iff in H as [Hx Hb]. apply negb_true_iff in Hx.
  cbn [remove_dot_git]. rewrite (prefix_dot_git_false x b Hx). by rewrite IH.
Qed.

Lemma remove_dot_git_here (s : string) :
  remove_dot_git (".git" +:+ s) 0 = remove_dot_git s 0.
Proof.
  destruct s as [|y s]; [reflexivity|].
  assert (String.prefix ".git" (".git" +:+ String y s) = true) as Hp
    by (vm_compute; reflexivity).
  rewrite !append_cons_str, append_nil_str in *.
  change (remove_dot_git (String "." (String "g" (String "i" (String "t" (String y s))))) 0)
    with (if String.prefix ".git"
               (String "." (String "g" (String "i" (String "t" (String y s)))))
          then remove_dot_git (String y s) 0
          else String "." (remove_dot_git
                             (String "g" (String "i" (String "t" (String y s)))) 0)).
  by rewrite Hp.
Qed.

Lemma remove_dot_git_inside (a b : string) :
  no_char "." a = true -> no_char "." b = true ->
  remove_dot_git (a +:+ ".git" +:+ b) 0 = a +:+ b.
Proof.
  intros Ha Hb. induction a as [|x a IH].
  - rewrite append_nil_str, remove_dot_git_here.
    by apply remove_dot_git_no_dot.
  - cbn [no_char] in Ha. apply andb_true_iff in Ha as [Hx Ha].
    apply negb_true_iff in Hx. rewrite (append_cons_str x a).
    cbn [remove_dot_git]. rewrite (prefix_dot_git_false x _ Hx).
    by rewrite IH, append_cons_str.
Qed.

(** X5: for a URL, the repository name is what follows the last slash with
    every occurrence of [.git] taken out, not only a trailing one: for name
    parts [a] and [b] free of slashes and dots, [<url>/a.git] gives [a] and
    [<url>/a.gitb] gives [ab]; a URL that ends in a slash gives the empty
    name. *)
Theorem X5_extract_repo_name_from_url (w : World) (base a b : string) :
  url_like base = true ->
  no_char "/" a = true -> no_char "." a = true ->
  no_char "/" b = true -> no_char "." b = true ->
  _extract_repo_name w (base +:+ "/" +:+ a +:+ ".git" +:+ b) = a +:+ b /\
  _extract_repo_name w (base +:+ "/" +:+ a +:+ ".git") = a /\
  _extract_repo_name w (base +:+ "/" +:+ a) = a /\
  _extract_repo_name w (base +:+ "/") = "".
Proof.
  intros Hu Has Had Hbs Hbd.
  assert (forall rest, no_char "/" rest = true ->
            _extract_repo_name w (base +:+ "/" +:+ rest) = remove_dot_git rest 0) as Hseg.
  { intros rest Hr. unfold _extract_repo_name. rewrite (url_like_append _ _ Hu).
    rewrite last_segment_append, append_cons_str, append_nil_str.
    cbn [last_segment]. change (Ascii.eqb "/" "/") with true. cbv iota.
    by rewrite last_segment_no_slash, append_nil_str. }
  repeat split.
  - rewrite Hseg; [by apply remove_dot_git_inside|].
    by rewrite !no_char_append, Has, Hbs.
  - rewrite Hseg; [|by rewrite !no_char_append, Has].
    pose proof (remove_dot_git_inside a "" Had eq_refl) as H.
    by rewrite !append_nil_r_str in H.
  - rewrite Hseg by done. by apply remove_dot_git_no_dot.
  - rewrite <- (append_nil_r_str "/"). by rewrite Hseg.
Qed.

Lemma X5_extract_repo_name_from_url_witness :
  _extract_repo_name demo_world "https://github.com/acme/my.github-pages" = "myhub-pages"
  /\ _extract_repo_name demo_world "https://github.com/acme/tool.git" = "tool".
Proof.
  split.
  - exact (proj1 (X5_extract_repo_name_from_url demo_world "https://github.com/acme"
                    "my" "hub-pages" eq_refl eq_refl eq_refl eq_refl eq_refl)).
  - exact (proj1 (proj2 (X5_extract_repo_name_from_url demo_world
                           "https://github.com/acme" "tool" "" eq_refl eq_refl eq_refl
                           eq_refl eq_refl))).
Defined.

(** ** Local or remote: [_is_local_path] *)

(** X6: a target that starts with [http://], [https://] or [git@] is never
    local, whatever the file system holds; for any other target an
    [OSError] or [ValueError] of the path resolution means "not local"
    instead of a failure, so the classification never raises either of the
    two; otherwise the answer is whether the resolved path exists. *)
Theorem X6_is_local_path_classification (w : World) (path_or_url : string) :
  (url_like path_or_url = true -> _is_local_path w path_or_url = Ok false) /\
  (forall e, url_like path_or_url = false ->
     path_resolve w path_or_url = Raise e ->
     exn_cls e = ExcOSError \/ exn_cls e = ExcValueError ->
     _is_local_path w path_or_url = Ok false) /\
  (forall e, _is_local_path w path_or_url = Raise e ->
     exn_cls e <> ExcOSError /\ exn_cls e <> ExcValueError /\
     path_resolve w path_or_url = Raise e) /\
  (forall p, url_like path_or_url = false -> path_resolve w path_or_url = Ok p ->
     _is_local_path w path_or_url = Ok (path_exists w p)).
Proof.
  unfold _is_local_path. split; [|split; [|split]].
  - by intros ->.
  - intros e -> -> [He|He]; unfold caught_by; rewrite He; done.
  - intros e. destruct (url_like path_or_url); [done|].
    destruct (path_resolve w path_or_url) as [p|e'|]; try done.
    destruct (caught_by _ e') eqn:Hc; [done|]. intros [= <-].
    unfold caught_by in Hc. by destruct (exn_cls e').
  - by intros p -> ->.
Qed.

Lemma X6_is_local_path_classification_witness :
  _is_local_path demo_world "git@github.com:acme/tool.git" = Ok false.
Proof.
  exact (proj1 (X6_is_local_path_classification demo_world
                  "git@github.com:acme/tool.git") eq_refl).
Defined.

(** ** The single-repository run *)

Lemma analyze_single_repo_value w self p v sc cb :
  value_of (_analyze_single_repo w self p v sc cb) =
  match _is_local_path w p with
  | Ok true =>
      match path_resolve w p with
      | Ok resolved =>
          match value_of (_base_repo_analyzer w self resolved (path_name w resolved)
                            v sc cb) with
          | Ok r => Ok {| single_result := r; single_type := "single_repo";
                          single_repos_analyzed := 1; cleanup_path := None |}
          | Raise e => Raise e
          | Hang => Hang
          end
      | Raise e => Raise e
      | Hang => Hang
      end
  | Ok false =>
      match clone_single_repository w p with
      | Ok (Some cloned) =>
          if str_truthy cloned then
            match value_of (_base_repo_analyzer w self cloned (_extract_repo_name w p)
                              v sc cb) with
            | Ok r => Ok {| single_result := r; single_type := "single_repo";
                            single_repos_analyzed := 1; cleanup_path := Some cloned |}
            | Raise e => Raise e
            | Hang => Hang
            end
          else Raise (Exn ExcException ("Failed to clone repository: " +:+ p))
      | Ok None => Raise (Exn ExcException ("Failed to clone repository: " +:+ p))
      | Raise e => Raise e
      | Hang => Hang
      end
  | Raise e => Raise e
  | Hang => Hang
  end.
Proof.
  unfold _analyze_single_repo. rewrite value_bind, value_lift.
  destruct (_is_local_path w p) as [[|]| |]; try done; rewrite value_bind.
  - rewrite value_bind, value_lift.
    destruct (path_resolve w p) as [resolved| |]; try done.
    rewrite value_bind, value_notify. cbn [value_of ret snd]. rewrite value_bind.
    by destruct (value_of (_base_repo_analyzer _ _ _ _ _ _ _)).
  - rewrite value_bind, value_notify, value_bind. cbn [value_of emit snd].
    rewrite value_bind, value_lift.
    destruct (clone_single_repository w p) as [[cloned|]| |]; try done.
    destruct (str_truthy cloned); [|done].
    rewrite value_bind, value_notify. cbn [value_of ret snd]. rewrite value_bind.
    by destruct (value_of (_base_repo_analyzer _ _ _ _ _ _ _)).
Qed.

(** X7: a single-repository run that returns is tagged [single_repo] with
    [repos_analyzed = 1] and an issue count equal to the length of its
    findings.  For a local target nothing is cloned, the repository is named
    after the resolved path and [cleanup_path] is [None]; for a remote
    target the clone service's path is the one analysed and is handed back
    as [cleanup_path], and the name comes from the URL. *)
Theorem X7_single_repo_result (w : World) (self : AnalysisService)
    (repo_path to_version scope : string) (progress_callback : bool)
    (r : SingleResult) :
  value_of (_analyze_single_repo w self repo_path to_version scope progress_callback)
  = Ok r ->
  single_type r = "single_repo" /\
  single_repos_analyzed r = 1 /\
  py_len (findings (single_result r)) = Some (total_issues (single_result r)) /\
  ((_is_local_path w repo_path = Ok true /\
    cleanup_path r = None /\
    exists resolved,
      path_resolve w repo_path = Ok resolved /\
      repository (single_result r) = path_name w resolved /\
      value_of (_base_repo_analyzer w self resolved (path_name w resolved) to_version
                  scope progress_callback) = Ok (single_result r) /\
      forall ev, ev ∈ trace_of (_analyze_single_repo w self repo_path to_version scope
                                  progress_callback) ->
                 ev <> EvCloneOne repo_path) \/
   (_is_local_path w repo_path = Ok false /\
    exists cloned,
      clone_single_repository w repo_path = Ok (Some cloned) /\
      cleanup_path r = Some cloned /\
      repository (single_result r) = _extract_repo_name w repo_path /\
      value_of (_base_repo_analyzer w self cloned (_extract_repo_name w repo_path)
                  to_version scope progress_callback) = Ok (single_result r))).
Proof.
  rewrite analyze_single_repo_value.
  destruct (_is_local_path w repo_path) as [[|]| |] eqn:Hloc; try done.
  - destruct (path_resolve w repo_path) as [resolved| |] eqn:Hres; try done.
    destruct (value_of (_base_repo_analyzer _ _ _ _ _ _ _)) as [r0| |] eqn:Hr; try done.
    intros [= <-]. cbn [single_type single_repos_analyzed single_result cleanup_path].
    pose proof (base_repo_analyzer_Ok _ _ _ _ _ _ _ _ Hr) as (Hname & Hlen & _).
    repeat split; try done. left. repeat split; try done.
    exists resolved. repeat split; try done.
    intros ev Hev. unfold _analyze_single_repo in Hev.
    rewrite trace_bind, trace_lift, value_lift, Hloc, app_nil_l in Hev.
    rewrite trace_bind, trace_bind, trace_lift, value_lift, Hres, app_nil_l in Hev.
    rewrite trace_bind, value_notify, value_bind, value_lift in Hev.
    rewrite value_bind, value_notify in Hev.
    cbn [trace_of ret fst value_of snd app] in Hev. rewrite app_nil_r in Hev.
    apply elem_of_app in Hev as [Hev|Hev].
    + apply notify_no_marker in Hev as [m ->]. done.
    + rewrite trace_bind, Hr in Hev. cbn [trace_of ret fst] in Hev.
      rewrite app_nil_r in Hev.
      assert (only analysis_event (_base_repo_analyzer w self resolved
                (path_name w resolved) to_version scope progress_callback)) as Ho.
      { unfold _base_repo_analyzer.
        repeat first [apply analyze_directory_only_analysis_events | only_step]. }
      apply (proj1 (Forall_forall _ _) Ho) in Hev. intros ->. done.
  - destruct (clone_single_repository w repo_path) as [[cloned|]| |] eqn:Hc; try done.
    destruct (str_truthy cloned); [|done].
    destruct (value_of (_base_repo_analyzer _ _ _ _ _ _ _)) as [r0| |] eqn:Hr; try done.
    intros [= <-]. cbn [single_type single_repos_analyzed single_result cleanup_path].
    pose proof (base_repo_analyzer_Ok _ _ _ _ _ _ _ _ Hr) as (Hname & Hlen & _).
    repeat split; try done. right. split; [done|]. by exists cloned.
Qed.

Lemma X7_single_repo_result_witness :
  exists r,
    value_of (_analyze_single_repo demo_world demo_service
                "https://github.com/acme/tool.git" "21" "all-deprecations" true) = Ok r /\
    single_repos_analyzed r = 1 /\ single_type r = "single_repo".
Proof.
  eexists. split; [vm_compute; reflexivity|].
  destruct (X7_single_repo_result demo_world demo_service
              "https://github.com/acme/tool.git" "21" "all-deprecations" true _
              ltac:(vm_compute; reflexivity)) as (Ht & Hn & _).
  split; [exact Hn | exact Ht].
Defined.

(** X8: when the clone service hands back nothing for a remote target, the
    single-repository analysis raises "Failed to clone repository" without
    starting the engine, and [run_analysis] reports [None]. *)
Theorem X8_single_repo_clone_failure (w : World) (self : AnalysisService)
    (repo_path to_version scope : string) (max_repos : Z) (keep_clones : bool)
    (provider : string) (progress_callback : bool) (org_name : option string) :
  _is_local_path w repo_path = Ok false ->
  clone_single_repository w repo_path = Ok None \/
  clone_single_repository w repo_path = Ok (Some "") ->
  let run := _analyze_single_repo w self repo_path to_version scope progress_callback in
  value_of run
  = Raise (Exn ExcException ("Failed to clone repository: " +:+ repo_path)) /\
  (forall ev, ev ∈ trace_of run -> is_jar ev = false) /\
  (str_truthy repo_path = true ->
   value_of (run_analysis w self (Some repo_path) org_name to_version scope max_repos
               keep_clones provider progress_callback) = Ok None).
Proof.
  intros Hloc Hclone run.
  assert (value_of run
          = Raise (Exn ExcException ("Failed to clone repository: " +:+ repo_path)))
    as Hv.
  { subst run. rewrite analyze_single_repo_value, Hloc.
    by destruct Hclone as [-> | ->]. }
  split; [done|]. split.
  - intros ev Hev. subst run. unfold _analyze_single_repo in Hev.
    rewrite trace_bind, trace_lift, value_lift, Hloc, app_nil_l in Hev.
    rewrite trace_bind in Hev.
    apply elem_of_app in Hev as [Hev|Hev].
    + rewrite trace_bind, value_notify, trace_bind in Hev.
      cbn [trace_of emit fst value_of snd] in Hev.
      rewrite trace_bind, trace_lift, value_lift, app_nil_l in Hev.
      apply elem_of_app in Hev as [Hev|Hev].
      { apply notify_no_marker in Hev as [m ->]. done. }
      apply elem_of_cons in Hev as [->|Hev]; [done|].
      destruct Hclone as [Hc|Hc]; rewrite Hc in Hev; by apply elem_of_nil in Hev.
    + rewrite value_bind, value_notify, value_bind in Hev.
      cbn [value_of emit snd] in Hev. rewrite value_bind, value_lift in Hev.
      destruct Hclone as [Hc|Hc]; rewrite Hc in Hev; by apply elem_of_nil in Hev.
  - intros Hp. rewrite run_analysis_value. cbn [opt_str_truthy]. rewrite Hp.
    change (default "" (Some repo_path)) with repo_path. fold run. by rewrite Hv.
Qed.

Lemma X8_single_repo_clone_failure_witness :
  value_of (run_analysis offline_world demo_service
              (Some "https://github.com/acme/tool.git") None "21" "all-deprecations"
              50 true "github" true) = Ok None.
Proof.
  apply (X8_single_repo_clone_failure offline_world demo_service
           "https://github.com/acme/tool.git" "21" "all-deprecations" 50 true "github"
           true None); [reflexivity | left; reflexivity | reflexivity].
Defined.

(** ** Retained clone paths *)

Lemma filter_success_all (clones : list CloneResult) :
  Forall (fun c => success c = true) clones ->
  filter (fun c => success c = true) clones = clones.
Proof.
  induction 1 as [|c clones Hc _ IH]; [done|].
  rewrite filter_cons. destruct (decide (success c = true)); [by rewrite IH|done].
Qed.

Lemma filter_success_Forall (reported : list CloneResult) :
  Forall (fun c => success c = true) (filter (fun c => success c = true) reported).
Proof. apply Forall_forall. by intros c [? _]%list_elem_of_filter. Qed.

Lemma discovery_local_Ok w self org max keep prov cb items paths :
  path_exists w org && path_is_dir w org = true ->
  value_of (discover_repo_items w self org max keep prov cb) = Ok (items, paths) ->
  paths = None /\
  exists dirs, _discover_local_repos w org max = Ok dirs /\ items = map LocalItem dirs.
Proof.
  intros Hloc. unfold discover_repo_items. rewrite Hloc.
  rewrite value_bind, value_notify, value_bind, value_lift.
  destruct (_discover_local_repos w org max) as [dirs| |]; try done.
  intros [= <- <-]. eauto.
Qed.

Lemma discovery_remote_paths w self org max keep prov cb items paths :
  path_exists w org && path_is_dir w org = false ->
  value_of (discover_repo_items w self org max keep prov cb) = Ok (items, paths) ->
  exists clones,
    value_of (_discover_and_clone_remote_repos w self org prov max cb) = Ok clones /\
    items = map ClonedItem clones /\
    paths = if negb keep then None
            else Some (map local_path (filter (fun c => success c = true) clones)).
Proof.
  intros Hloc. unfold discover_repo_items. rewrite Hloc.
  rewrite value_bind, value_notify, value_bind.
  destruct (value_of (_discover_and_clone_remote_repos _ _ _ _ _ _)) as [clones| |];
    try done.
  intros [= <- <-]. eauto.
Qed.

(** X9: an organization result carries clone paths only for a remote run
    with retention requested; they are then the local paths of the clone
    results that were analysed, one per submitted item and in the same
    order, all reported as successful.  Local runs and runs with retention
    declined carry [None]. *)
Theorem X9_cleanup_paths_of_result (w : World) (self : AnalysisService)
    (org_name to_version scope : string) (max_repos : Z) (keep_clones : bool)
    (provider : string) (progress_callback : bool) (r : OrgResult) :
  let is_local := path_exists w org_name && path_is_dir w org_name in
  value_of (_analyze_organization w self org_name to_version scope max_repos
              keep_clones provider progress_callback) = Ok r ->
  (is_local = true \/ keep_clones = false -> cleanup_paths r = None) /\
  (is_local = false -> keep_clones = true ->
   exists clones,
     value_of (discover_repo_items w self org_name max_repos keep_clones provider
                 progress_callback)
     = Ok (map ClonedItem clones, Some (map local_path clones)) /\
     Forall (fun c => success c = true) clones /\
     cleanup_paths r = Some (map local_path clones) /\
     repositories r
     = omap (success_of w self to_version scope progress_callback false)
            (map ClonedItem clones)).
Proof.
  intros loc Hr.
  apply analyze_organization_Ok in Hr
    as (items & paths & Hd & _ & _ & Hrs & _ & _ & Hp & _).
  fold loc in Hrs. split.
  - intros [Hloc|Hkeep].
    + rewrite Hp. by apply (discovery_local_Ok _ _ _ _ _ _ _ _ _ Hloc) in Hd as [-> _].
    + rewrite Hp. destruct loc eqn:Hloc.
      * by apply (discovery_local_Ok _ _ _ _ _ _ _ _ _ Hloc) in Hd as [-> _].
      * apply (discovery_remote_paths _ _ _ _ _ _ _ _ _ Hloc) in Hd
          as (clones & _ & _ & ->). by rewrite Hkeep.
  - intros Hloc Hkeep. rewrite Hloc in Hrs.
    pose proof (discovery_remote_paths _ _ _ _ _ _ _ _ _ Hloc Hd)
      as (clones & Hc & -> & Hpaths).
    rewrite Hkeep in Hpaths. cbn [negb] in Hpaths.
    assert (Forall (fun c => success c = true) clones) as Hall.
    { apply remote_discovery_Ok in Hc as (? & reported & _ & ->).
      apply filter_success_Forall. }
    rewrite (filter_success_all _ Hall) in Hpaths.
    rewrite Hpaths in Hd, Hp. by exists clones.
Qed.

Lemma X9_cleanup_paths_of_result_witness :
  exists r,
    value_of (_analyze_organization demo_world demo_service "acme" "21"
                "all-deprecations" 50 true "github" true) = Ok r /\
    cleanup_paths r = Some ["/tmp/acme/r1"; "/tmp/acme/r3"; "/tmp/acme/r5"].
Proof.
  eexists. split; [vm_compute; reflexivity|].
  destruct (proj2 (X9_cleanup_paths_of_result demo_world demo_service "acme" "21"
              "all-deprecations" 50 true "github" true _
              ltac:(vm_compute; reflexivity)) eq_refl eq_refl)
    as (clones & _ & _ & Hp & _).
  reflexivity.
Defined.

(** ** The concurrency setting at its edges *)

Lemma analyze_organization_value_after_discovery w self org v sc max keep prov cb
    items paths :
  value_of (discover_repo_items w self org max keep prov cb) = Ok (items, paths) ->
  items <> [] ->
  forall bad,
    (forall rs, value_of (_parallel_repo_analysis w self items v sc cb
                            (path_exists w org && path_is_dir w org)) <> Ok rs) ->
    value_of (_parallel_repo_analysis w self items v sc cb
                (path_exists w org && path_is_dir w org)) = bad ->
    value_of (_analyze_organization w self org v sc max keep prov cb)
    = match bad with Ok _ => Hang | Raise e => Raise e | Hang => Hang end /\
    trace_of (_analyze_organization w self org v sc max keep prov cb)
    = trace_of (discover_repo_items w self org max keep prov cb) ++
      trace_of (notify cb ("Starting parallel analysis of " +:+ pretty (length items)
                           +:+ " repositories")) ++
      trace_of (_parallel_repo_analysis w self items v sc cb
                  (path_exists w org && path_is_dir w org)).
Proof.
  intros Hd Hne bad Hnot Hbad. split.
  - unfold _analyze_organization. rewrite value_bind, Hd.
    destruct items as [|it items]; [done|]. cbn [is_nil].
    rewrite value_bind, value_notify, value_bind, Hbad.
    destruct bad as [rs| |]; [by destruct (Hnot rs)|done|done].
  - pose proof (analyze_organization_trace w self org v sc max keep prov cb) as Ht.
    cbv zeta in Ht. rewrite Ht, Hd. destruct items as [|it items]; [done|].
    cbn [is_nil]. rewrite Hbad.
    destruct bad as [rs| |]; [by destruct (Hnot rs)|by rewrite app_nil_r..].
Qed.

(** X10: with the concurrency setting 0 and at least one item, no task can
    ever take a permit: the pool cannot move from its initial state, the
    join never returns, no engine is started, and neither the scheduler nor
    the organization run nor [run_analysis] ever returns, not even with
    [None]. *)
Theorem X10_zero_permits_never_return (w : World) (self : AnalysisService)
    (org_name to_version scope : string) (max_repos : Z) (keep_clones : bool)
    (provider : string) (progress_callback : bool)
    (items : list RepoItem) (paths : option (list string)) :
  let is_local := path_exists w org_name && path_is_dir w org_name in
  max_concurrent_repos self = PInt 0 ->
  items <> [] ->
  _parallel_repo_analysis w self items to_version scope progress_callback is_local
  = ([], Hang) /\
  (forall s, reachable (task_body w self to_version scope progress_callback is_local)
               0 items s ->
             s = pool_init 0 items /\ joined s = None /\ in_flight s = 0) /\
  (value_of (discover_repo_items w self org_name max_repos keep_clones provider
               progress_callback) = Ok (items, paths) ->
   value_of (_analyze_organization w self org_name to_version scope max_repos
               keep_clones provider progress_callback) = Hang /\
   (str_truthy org_name = true ->
    value_of (run_analysis w self None (Some org_name) to_version scope max_repos
                keep_clones provider progress_callback) = Hang)).
Proof.
  intros loc Hcfg Hne.
  assert (_parallel_repo_analysis w self items to_version scope progress_callback loc
          = ([], Hang)) as Hpar.
  { unfold _parallel_repo_analysis. rewrite Hcfg.
    destruct items as [|it items]; [done|]. reflexivity. }
  split; [done|]. split.
  - intros s Hs. apply pool_no_permit_stuck in Hs as ->.
    split; [done|]. destruct items as [|it items]; [done|]. split; [done|].
    unfold in_flight, pool_init. cbn [tasks].
    clear. induction (length (it :: items)) as [|n IH]; [done|]. exact IH.
  - intros Hd.
    destruct (analyze_organization_value_after_discovery w self org_name to_version
                scope max_repos keep_clones provider progress_callback items paths
                Hd Hne Hang) as [Hv _].
    + intros rs. fold loc. by rewrite Hpar.
    + fold loc. by rewrite Hpar.
    + split; [done|]. intros Horg. rewrite run_analysis_value. cbn [opt_str_truthy].
      rewrite Horg. change (default "" (Some org_name)) with org_name. by rewrite Hv.
Qed.

Lemma X10_zero_permits_never_return_witness :
  value_of (run_analysis demo_world (demo_service_with (PInt 0)) None (Some "/org") "21"
              "all-deprecations" 2 true "github" true) = Hang.
Proof.
  refine (proj2 (proj2 (proj2 (X10_zero_permits_never_return demo_world
            (demo_service_with (PInt 0)) "/org" "21" "all-deprecations" 2 true "github"
            true [LocalItem "/org/a"; LocalItem "/org/b"] None _ _)) _) _).
  - reflexivity.
  - discriminate.
  - vm_compute. reflexivity.
  - reflexivity.
Defined.

(** X11: when the semaphore cannot be created (a negative setting raises a
    [ValueError], a setting that is not a number a [TypeError]), the
    organization run fails after discovery: the error is raised before any
    engine is started, [run_analysis] reports [None], and cleanup is not
    invoked, so the clones of a remote run with retention declined are left
    in place. *)
Theorem X11_bad_concurrency_setting (w : World) (self : AnalysisService)
    (org_name to_version scope : string) (max_repos : Z) (keep_clones : bool)
    (provider : string) (progress_callback : bool)
    (items : list RepoItem) (paths : option (list string)) (e : exn) :
  let run := _analyze_organization w self org_name to_version scope max_repos
               keep_clones provider progress_callback in
  Semaphore (max_concurrent_repos self) = Raise e ->
  value_of (discover_repo_items w self org_name max_repos keep_clones provider
              progress_callback) = Ok (items, paths) ->
  items <> [] ->
  value_of run = Raise e /\
  (forall ev, ev ∈ trace_of run -> is_jar ev = false /\ is_cleanup ev = false) /\
  (str_truthy org_name = true ->
   value_of (run_analysis w self None (Some org_name) to_version scope max_repos
               keep_clones provider progress_callback) = Ok None) /\
  (forall n, (n < 0)%Z -> exists msg, Semaphore (PInt n) = Raise (Exn ExcValueError msg)) /\
  (forall s, exists msg, Semaphore (PStr s) = Raise (Exn ExcTypeError msg)).
Proof.
  intros run Hsem Hd Hne.
  assert (_parallel_repo_analysis w self items to_version scope progress_callback
            (path_exists w org_name && path_is_dir w org_name) = ([], Raise e)) as Hpar.
  { unfold _parallel_repo_analysis. by rewrite Hsem. }
  destruct (analyze_organization_value_after_discovery w self org_name to_version
              scope max_repos keep_clones provider progress_callback items paths
              Hd Hne (Raise e)) as [Hv Ht].
  { intros rs. by rewrite Hpar. }
  { by rewrite Hpar. }
  fold run in Hv, Ht. split; [done|]. split; [|split; [|split]].
  - intros ev Hev. rewrite Ht, Hpar in Hev. cbn [trace_of fst] in Hev.
    rewrite app_nil_r in Hev. apply elem_of_app in Hev as [Hev|Hev].
    + pose proof (discovery_only_discovery_events w self org_name max_repos keep_clones
                    provider progress_callback) as Ho.
      apply (proj1 (Forall_forall _ _) Ho) in Hev. by destruct ev.
    + apply notify_no_marker in Hev as [m ->]. done.
  - intros Horg. rewrite run_analysis_value. cbn [opt_str_truthy]. rewrite Horg.
    change (default "" (Some org_name)) with org_name. fold run. by rewrite Hv.
  - intros n Hn. unfold Semaphore.
    destruct (n <? 0)%Z eqn:E; [by eexists|]. apply Z.ltb_ge in E. lia.
  - intros s. by eexists.
Qed.

Lemma X11_bad_concurrency_setting_witness :
  value_of (run_analysis demo_world (demo_service_with (PInt (-1))) None (Some "acme")
              "21" "all-deprecations" 50 false "github" true) = Ok None.
Proof.
  refine (proj1 (proj2 (proj2 (X11_bad_concurrency_setting demo_world
            (demo_service_with (PInt (-1))) "acme" "21" "all-deprecations" 50 false
            "github" true
            (map ClonedItem (filter (fun c => success c = true) demo_clones)) None
            (Exn ExcValueError "Semaphore initial value must be >= 0") _ _ _))) _).
  - reflexivity.
  - vm_compute. reflexivity.
  - discriminate.
  - reflexivity.
Defined.

(** X12: every permit is given back: whenever the join has its list, however
    many items failed, the pool again holds all of its [C] permits. *)
Theorem X12_all_permits_returned (w : World) (self : AnalysisService)
    (to_version scope : string) (progress_callback is_local : bool)
    (items : list RepoItem) (C : nat)
    (s : pool (result (option RepoResult))) (rs : list (result (option RepoResult))) :
  reachable (task_body w self to_version scope progress_callback is_local) C items s ->
  joined s = Some rs ->
  permits s = C.
Proof.
  intros Hs Hj. apply reachable_inv in Hs as (Hp & _).
  apply joined_Some_all_finished in Hj as [Hf _]. lia.
Qed.

Lemma X12_all_permits_returned_witness :
  permits ({| permits := 1; tasks := [Finished (Ok None)] |}
           : pool (result (option RepoResult))) = 1.
Proof.
  apply (X12_all_permits_returned demo_world demo_service "21" "all-deprecations" true
           true [LocalItem "/org/c"] 1 _ [Ok None]).
  - apply (rtc_l _ _ {| permits := 0; tasks := [InFlight] |}).
    + exact (step_acquire _ [LocalItem "/org/c"]
               (pool_init 1 [LocalItem "/org/c"]) 0 eq_refl (le_n 1)).
    + apply rtc_once.
      exact (step_release
               (task_body demo_world demo_service "21" "all-deprecations" true true)
               [LocalItem "/org/c"] {| permits := 0; tasks := [InFlight] |} 0
               (LocalItem "/org/c") (Ok None) eq_refl eq_refl eq_refl).
  - reflexivity.
Defined.

(** ** Discovery in full *)

Lemma discover_loop_exact w max items acc :
  Forall (scan_returns w) items ->
  (Z.of_nat (length acc) < Z.max 1 max)%Z ->
  discover_loop w max items acc
  = Ok (acc ++ take (Z.to_nat (Z.max 1 max) - length acc)
                    (List.filter (qualifies w) items)).
Proof.
  intros Hall. revert acc. induction Hall as [|item rest Hscan _ IH]; intros acc Hacc.
  - cbn [discover_loop List.filter]. by rewrite take_nil, app_nil_r.
  - cbn [discover_loop List.filter]. unfold qualifies at 1.
    destruct (path_is_dir w item && negb (String.prefix "." (path_name w item)))
      eqn:Hq; cbn [andb]; [|by apply IH].
    destruct (Hscan Hq) as [files Hf]. unfold scan_returns in Hscan. rewrite Hf.
    cbn [mbind result_mbind result_bind].
    destruct files as [|f fs]; [by apply IH|].
    assert (Z.to_nat (Z.max 1 max) - length acc
            = S (Z.to_nat (Z.max 1 max) - length (acc ++ [item]))) as ->.
    { rewrite length_app. simpl. lia. }
    cbn [take]. rewrite length_app in *. cbn [length] in *.
    destruct (Z.of_nat (length acc + 1) >=? max)%Z eqn:Hge; rewrite Z.geb_leb in Hge.
    + apply Z.leb_le in Hge.
      assert (Z.to_nat (Z.max 1 max) - (length acc + 1) = 0) as -> by lia.
      by rewrite take_0.
    + apply Z.leb_gt in Hge. rewrite IH; [|rewrite length_app; simpl; lia].
      rewrite length_app. cbn [length]. by rewrite <- app_assoc.
Qed.

(** X13: when the directory listing and the scans come back, local
    discovery returns exactly the first [max(1, max_repos)] qualifying
    children in listing order: nothing that qualifies is skipped before the
    cap, and a cap of zero or below still yields the first qualifying child
    rather than nothing. *)
Theorem X13_local_discovery_exact (w : World) (org_path : string) (max_repos : Z)
    (children : list string) :
  path_iterdir w org_path = Ok children ->
  Forall (scan_returns w) children ->
  _discover_local_repos w org_path max_repos
  = Ok (take (Z.to_nat (Z.max 1 max_repos)) (List.filter (qualifies w) children)).
Proof.
  intros Hc Hall. unfold _discover_local_repos. rewrite Hc.
  cbn [mbind result_mbind result_bind].
  rewrite (discover_loop_exact w max_repos children [] Hall); [|simpl; lia].
  cbn [length app]. by rewrite Nat.sub_0_r.
Qed.

Lemma X13_local_discovery_exact_witness :
  _discover_local_repos demo_world "/org" 0 = Ok ["/org/a"] /\
  _discover_local_repos demo_world "/org" 3 = Ok ["/org/a"; "/org/b"; "/org/c"].
Proof.
  assert (Forall (scan_returns demo_world)
            ["/org/a"; "/org/b"; "/org/.cache"; "/org/c"; "/org/d"; "/org/e"]) as Hall.
  { repeat constructor; intros _; eexists; vm_compute; reflexivity. }
  split.
  - exact (X13_local_discovery_exact demo_world "/org" 0 _ eq_refl Hall).
  - exact (X13_local_discovery_exact demo_world "/org" 3 _ eq_refl Hall).
Defined.

Lemma remote_discovery_steps w self org prov max cb :
  _discover_and_clone_remote_repos w self org prov max cb =
  match create_scm_service w (config self) with
  | Ok _ =>
      match list_org_repos w org prov max with
      | Ok (all_repos, error) =>
          if error_truthy error || is_nil all_repos
          then ([], Raise (Exn ExcException
                             ("Failed to discover repositories: " +:+ error_str error)))
          else
            match filter_java_repos w all_repos with
            | Ok filtered =>
                if is_nil (slice_to filtered max)
                then ([], Raise (Exn ExcException
                                   ("No Java repositories found in " +:+ org)))
                else
                  (trace_of (notify cb ("Cloning "
                                        +:+ pretty (length (slice_to filtered max))
                                        +:+ " repositories"))
                   ++ [EvCloneMany (slice_to filtered max)],
                   match clone_organization_repositories w (slice_to filtered max) org
                           (max_concurrent_repos self) with
                   | Ok reported => Ok (filter (fun c => success c = true) reported)
                   | Raise e => Raise e
                   | Hang => Hang
                   end)
            | Raise e => ([], Raise e)
            | Hang => ([], Hang)
            end
      | Raise e => ([], Raise e)
      | Hang => ([], Hang)
      end
  | Raise e => ([], Raise e)
  | Hang => ([], Hang)
  end.
Proof.
  unfold _discover_and_clone_remote_repos.
  destruct (create_scm_service w (config self)) as [[]| |]; try done.
  destruct (list_org_repos w org prov max) as [[all_repos error]| |]; try done.
  unfold mbind, M_bind, bind, lift. cbn [app].
  destruct (error_truthy error || is_nil all_repos); [done|].
  destruct (filter_java_repos w all_repos) as [filtered| |]; try done.
  destruct (is_nil (slice_to filtered max)); [done|].
  destruct cb; cbn [notify emit ret trace_of fst app];
    by destruct (clone_organization_repositories w _ _ _).
Qed.

(** X14: remote discovery fails before anything is cloned when the SCM
    service cannot be created, when the listing raises, reports an error or
    is empty, and when no listed repository passes the Java filter or the
    cap leaves none; otherwise the clone service is called exactly once,
    with the filtered listing cut to the cap, and what is returned are the
    clone results it reported as successful for that list, an empty list
    when none succeeded; and when the call raises after cloning started, it
    is that one call, on that same list, that raised. *)
Theorem X14_remote_discovery_outcomes (w : World) (self : AnalysisService)
    (org_name provider : string) (max_repos : Z) (progress_callback : bool) :
  let run := _discover_and_clone_remote_repos w self org_name provider max_repos
               progress_callback in
  (forall all_repos error,
     create_scm_service w (config self) = Ok tt ->
     list_org_repos w org_name provider max_repos = Ok (all_repos, error) ->
     error_truthy error = true \/ all_repos = [] ->
     run = ([], Raise (Exn ExcException
                         ("Failed to discover repositories: " +:+ error_str error)))) /\
  (forall all_repos error filtered,
     create_scm_service w (config self) = Ok tt ->
     list_org_repos w org_name provider max_repos = Ok (all_repos, error) ->
     error_truthy error = false -> all_repos <> [] ->
     filter_java_repos w all_repos = Ok filtered ->
     slice_to filtered max_repos = [] ->
     run = ([], Raise (Exn ExcException ("No Java repositories found in " +:+ org_name)))) /\
  (forall clones, value_of run = Ok clones ->
     exists all_repos error filtered reported,
       list_org_repos w org_name provider max_repos = Ok (all_repos, error) /\
       filter_java_repos w all_repos = Ok filtered /\
       slice_to filtered max_repos <> [] /\
       List.filter (fun ev => match ev with EvCloneMany _ => true | _ => false end)
                   (trace_of run) = [EvCloneMany (slice_to filtered max_repos)] /\
       clone_organization_repositories w (slice_to filtered max_repos) org_name
         (max_concurrent_repos self) = Ok reported /\
       clones = filter (fun c => success c = true) reported) /\
  (forall e, value_of run = Raise e ->
     (forall ev, ev ∈ trace_of run -> exists m, ev = EvProgress m \/ exists l, ev = EvCloneMany l) /\
     ((forall ev, ev ∈ trace_of run -> forall l, ev <> EvCloneMany l) \/
      exists all_repos error filtered,
        list_org_repos w org_name provider max_repos = Ok (all_repos, error) /\
        filter_java_repos w all_repos = Ok filtered /\
        List.filter (fun ev => match ev with EvCloneMany _ => true | _ => false end)
                    (trace_of run) = [EvCloneMany (slice_to filtered max_repos)] /\
        clone_organization_repositories w (slice_to filtered max_repos) org_name
          (max_concurrent_repos self) = Raise e)).
Proof.
  intros run. subst run. rewrite remote_discovery_steps.
  split; [|split; [|split]].
  - intros all_repos error -> -> Herr.
    assert (error_truthy error || is_nil all_repos = true) as ->; [|done].
    destruct Herr as [-> | ->]; [done|apply orb_true_r].
  - intros all_repos error filtered -> -> Herr Hne -> ->.
    rewrite Herr. by destruct all_repos.
  - intros clones.
    destruct (create_scm_service w (config self)) as [[]| |]; try done.
    destruct (list_org_repos w org_name provider max_repos) as [[all_repos error]| |]
      eqn:Hlist; try done.
    destruct (error_truthy error || is_nil all_repos); [done|].
    destruct (filter_java_repos w all_repos) as [filtered| |] eqn:Hfilter; try done.
    destruct (is_nil (slice_to filtered max_repos)) eqn:Hs; [done|].
    cbn [value_of snd trace_of fst].
    destruct (clone_organization_repositories w _ _ _) as [reported| |] eqn:Hc; try done.
    intros [= <-]. exists all_repos, error, filtered, reported.
    split; [done|]. split; [done|]. split; [by intros Hnil; rewrite Hnil in Hs|].
    split; [|done]. by destruct progress_callback.
  - intros e.
    destruct (create_scm_service w (config self)) as [[]| |]; cbn [value_of snd];
      try (intros _; split; [by intros ? ?%elem_of_nil | left; by intros ? ?%elem_of_nil]);
      try done.
    destruct (list_org_repos w org_name provider max_repos) as [[all_repos error]| |]
      eqn:Hlist; cbn [value_of snd];
      try (intros _; split; [by intros ? ?%elem_of_nil | left; by intros ? ?%elem_of_nil]);
      try done.
    destruct (error_truthy error || is_nil all_repos);
      [intros _; split; [by intros ? ?%elem_of_nil | left; by intros ? ?%elem_of_nil]|].
    destruct (filter_java_repos w all_repos) as [filtered| |] eqn:Hfilter;
      cbn [value_of snd];
      try (intros _; split; [by intros ? ?%elem_of_nil | left; by intros ? ?%elem_of_nil]);
      try done.
    destruct (is_nil (slice_to filtered max_repos));
      [intros _; split; [by intros ? ?%elem_of_nil | left; by intros ? ?%elem_of_nil]|].
    cbn [value_of snd trace_of fst].
    destruct (clone_organization_repositories w _ _ _) as [reported| |] eqn:Hc; try done.
    intros [= <-]. split.
    + intros ev [Hev|Hev]%elem_of_app.
      * apply notify_no_marker in Hev as [m ->]. exists m. by left.
      * apply list_elem_of_singleton in Hev as ->. exists "". right. by eexists.
    + right. exists all_repos, error, filtered. split; [done|]. split; [done|].
      split; [|done]. by destruct progress_callback.
Qed.

Lemma X14_remote_discovery_outcomes_witness :
  _discover_and_clone_remote_repos offline_world demo_service "acme" "github" 50 true
  = ([], Raise (Exn ExcException
                  "Failed to discover repositories: connection refused")) /\
  List.filter (fun ev => match ev with EvCloneMany _ => true | _ => false end)
    (trace_of (_discover_and_clone_remote_repos demo_world demo_service "acme" "github"
                 3 true))
  = [EvCloneMany [PStr "r1"; PStr "r2"; PStr "r3"]].
Proof.
  split.
  - apply (proj1 (X14_remote_discovery_outcomes offline_world demo_service "acme"
                    "github" 50 true) [] (Some "connection refused"));
      [reflexivity | reflexivity | left; reflexivity].
  - destruct (X14_remote_discovery_outcomes demo_world demo_service "acme" "github"
                3 true) as (_ & _ & Hok & _).
    destruct (Hok (filter (fun c => success c = true) demo_clones))
      as (all_repos & error & filtered & reported & Hlist & Hfilter & _ & Htrace & _);
      [vm_compute; reflexivity|].
    injection Hlist as <- <-. injection Hfilter as <-. exact Htrace.
Defined.

(** X15: with a cap of zero remote discovery always stops with "No Java
    repositories found" before cloning, however many repositories pass the
    filter; with a negative cap [-k] the slice drops only the last [k]
    filtered repositories, so the clone service is handed all the others. *)
Theorem X15_remote_cap_not_positive (w : World) (self : AnalysisService)
    (org_name provider : string) (progress_callback : bool)
    (max_repos : Z) (all_repos filtered : list pyval) (error : option string) :
  create_scm_service w (config self) = Ok tt ->
  list_org_repos w org_name provider max_repos = Ok (all_repos, error) ->
  error_truthy error = false -> all_repos <> [] ->
  filter_java_repos w all_repos = Ok filtered ->
  let run := _discover_and_clone_remote_repos w self org_name provider max_repos
               progress_callback in
  (max_repos = 0%Z ->
   run = ([], Raise (Exn ExcException ("No Java repositories found in " +:+ org_name)))) /\
  (forall k, max_repos = (- Z.of_nat k)%Z -> 0 < k < length filtered ->
     EvCloneMany (take (length filtered - k) filtered) ∈ trace_of run /\
     length (take (length filtered - k) filtered) = length filtered - k).
Proof.
  intros Hscm Hlist Herr Hne Hfilter run. subst run.
  rewrite remote_discovery_steps, Hscm, Hlist, Herr, Hfilter.
  assert (is_nil all_repos = false) as -> by (by destruct all_repos).
  cbn [orb]. split.
  - intros ->. done.
  - intros k -> Hk. unfold slice_to.
    assert ((0 <=? - Z.of_nat k)%Z = false) as -> by (apply Z.leb_gt; lia).
    rewrite Z.opp_involutive, Nat2Z.id.
    assert (length (take (length filtered - k) filtered) = length filtered - k) as Hlen
      by (rewrite length_take; lia).
    split; [|done].
    destruct (take (length filtered - k) filtered) as [|x l] eqn:Ht;
      [simpl in Hlen; lia|].
    cbn [is_nil trace_of fst]. apply elem_of_app. right. apply list_elem_of_here.
Qed.

Lemma X15_remote_cap_not_positive_witness :
  EvCloneMany [PStr "r1"; PStr "r2"; PStr "r3"; PStr "r4"] ∈
    trace_of (_discover_and_clone_remote_repos demo_world demo_service "acme" "github"
                (-1) true).
Proof.
  apply (proj2 (X15_remote_cap_not_positive demo_world demo_service "acme" "github" true
                  (-1) [PStr "r1"; PStr "r2"; PStr "r3"; PStr "r4"; PStr "r5"]
                  [PStr "r1"; PStr "r2"; PStr "r3"; PStr "r4"; PStr "r5"] None
                  eq_refl eq_refl eq_refl ltac:(discriminate) eq_refl) 1 eq_refl).
  simpl. lia.
Defined.

(** * Properties of the command line orchestrator *)

Lemma elem_of_map_iff {A B} (f : A -> B) (l : list A) (y : B) :
  y ∈ map f l <-> exists x, y = f x /\ x ∈ l.
Proof.
  induction l as [|a l IH]; simpl.
  - split; [by intros ?%elem_of_nil | by intros (? & _ & ?%elem_of_nil)].
  - rewrite elem_of_cons, IH. split.
    + intros [->|(x & -> & Hx)]; [exists a | exists x]; split; try done;
        [apply list_elem_of_here | by apply list_elem_of_further].
    + intros (x & -> & [->|Hx]%elem_of_cons); [by left | right; eauto].
Qed.

Lemma cli_of_event_service ev ev' :
  cli_of_event ev = CliService ev' -> ev = ev'.
Proof. destruct ev; simpl; congruence. Qed.

Lemma cli_of_event_not_save ev r b : cli_of_event ev <> CliSave r b.
Proof. by destruct ev. Qed.

(** The shape of an orchestration once the services are constructed. *)
Lemma orchestrate_analysis_started w fmt config repo_path org_name v sc max keep prov
    service :
  AnalysisService_init w config = Ok service ->
  create_output_formatter fmt = Ok tt ->
  let analysis := run_analysis w service repo_path org_name v sc max keep prov true in
  exists starting,
    orchestrate_analysis w fmt config repo_path org_name v sc max keep prov =
    let printed := CliPrint starting :: map cli_of_event (trace_of analysis) in
    match value_of analysis with
    | Raise e => (printed ++ orchestration_failed e, Ok false)
    | Hang => (printed, Hang)
    | Ok None => (printed ++ [CliPrint "Operation failed: Analysis failed"], Ok false)
    | Ok (Some analysis_result) =>
        let saving :=
          printed ++ [ CliPrint (_print_analysis_complete analysis_result);
                       CliSave analysis_result (opt_str_truthy org_name) ] in
        match format_and_save fmt analysis_result (opt_str_truthy org_name) with
        | Raise e => (saving ++ orchestration_failed e, Ok false)
        | Hang => (saving, Hang)
        | Ok output_result =>
            (saving ++ map CliPrint (_print_files_saved output_result)
                    ++ [CliPrint "Operation completed successfully"], Ok true)
        end
    end.
Proof.
  intros Hinit Hfmt analysis. unfold orchestrate_analysis. rewrite Hinit, Hfmt.
  eexists. reflexivity.
Qed.

Lemma orchestration_failed_no_save e r b : CliSave r b ∉ orchestration_failed e.
Proof.
  unfold orchestration_failed. intros [?|Hin]%elem_of_cons; [done|].
  by apply list_elem_of_singleton in Hin.
Qed.

Lemma printed_no_save starting l r b :
  CliSave r b ∉ CliPrint starting :: map cli_of_event l.
Proof.
  intros [?|Hin]%elem_of_cons; [done|].
  apply elem_of_map_iff in Hin as (ev & Hev & _). by destruct ev.
Qed.

Lemma lines_no_save lines r b : CliSave r b ∉ map CliPrint lines.
Proof. by intros (? & ? & _)%elem_of_map_iff. Qed.

(** Where the call of the formatter sits among the events around it. *)
Lemma save_position (printed tail : list cli_event) result flag r b :
  (forall r b, CliSave r b ∉ printed) ->
  (forall r b, CliSave r b ∉ tail) ->
  CliSave r b ∈ (printed ++ [CliPrint (_print_analysis_complete result);
                             CliSave result flag]) ++ tail ->
  r = result /\ b = flag.
Proof.
  intros Hp Ht [[Hin|Hin]%elem_of_app|Hin]%elem_of_app.
  - by destruct (Hp _ _ Hin).
  - apply elem_of_cons in Hin as [?|Hin]; [done|].
    apply list_elem_of_singleton in Hin. by injection Hin as -> ->.
  - by destruct (Ht _ _ Hin).
Qed.

(** X16: the orchestrator reports success exactly when the services could
    be constructed, [run_analysis] returned a result and the formatter
    saved it, and a successful run ends with "Operation completed
    successfully"; when the formatter raises, the run ends with the two
    lines of the failure handler and reports failure; the formatter is
    called at most once, only with a result of [run_analysis], flagged as an
    organization exactly when an organization name was given, and the
    summary line of that result is the line printed immediately before the
    call. *)
Theorem X16_orchestrate_success (w : World) (fmt : Formatter) (config : pyval)
    (repo_path org_name : option string) (to_version scope : string)
    (max_repos : Z) (keep_clones : bool) (provider : string) :
  let run := orchestrate_analysis w fmt config repo_path org_name to_version scope
               max_repos keep_clones provider in
  (snd run = Ok true <->
   exists service analysis_result output_result,
     AnalysisService_init w config = Ok service /\
     create_output_formatter fmt = Ok tt /\
     value_of (run_analysis w service repo_path org_name to_version scope max_repos
                 keep_clones provider true) = Ok (Some analysis_result) /\
     format_and_save fmt analysis_result (opt_str_truthy org_name) = Ok output_result) /\
  (snd run = Ok true ->
   exists printed, fst run = printed ++ [CliPrint "Operation completed successfully"]) /\
  (forall service analysis_result e,
     AnalysisService_init w config = Ok service ->
     create_output_formatter fmt = Ok tt ->
     value_of (run_analysis w service repo_path org_name to_version scope max_repos
                 keep_clones provider true) = Ok (Some analysis_result) ->
     format_and_save fmt analysis_result (opt_str_truthy org_name) = Raise e ->
     snd run = Ok false /\
     exists printed,
       fst run = printed ++ [ CliPrint ("Operation failed: " +:+ exn_msg e);
                              CliLogError ("Orchestration failed: " +:+ exn_msg e) ]) /\
  (forall analysis_result is_organization,
     CliSave analysis_result is_organization ∈ fst run ->
     is_organization = opt_str_truthy org_name /\
     (exists service,
        AnalysisService_init w config = Ok service /\
        value_of (run_analysis w service repo_path org_name to_version scope max_repos
                    keep_clones provider true) = Ok (Some analysis_result)) /\
     exists pre post,
       fst run = pre ++ [ CliPrint (_print_analysis_complete analysis_result);
                          CliSave analysis_result is_organization ] ++ post /\
       (forall r b, CliSave r b ∉ pre) /\
       (forall r b, CliSave r b ∉ post)).
Proof.
  intros run.
  destruct (AnalysisService_init w config) as [service|e0|] eqn:Hinit.
  2: { subst run. unfold orchestrate_analysis. rewrite Hinit. cbn [fst snd].
       split; [split; [done|by intros (? & ? & ? & ? & _)]|].
       split; [done|]. split; [done|].
       intros r b Hin. by destruct (orchestration_failed_no_save _ _ _ Hin). }
  2: { subst run. unfold orchestrate_analysis. rewrite Hinit. cbn [fst snd].
       split; [split; [done|by intros (? & ? & ? & ? & _)]|].
       split; [done|]. split; [done|]. by intros r b Hin%elem_of_nil. }
  destruct (create_output_formatter fmt) as [[]|e0|] eqn:Hfmt.
  2: { subst run. unfold orchestrate_analysis. rewrite Hinit, Hfmt. cbn [fst snd].
       split; [split; [done|by intros (? & ? & ? & ? & ? & _)]|].
       split; [done|]. split; [done|].
       intros r b Hin. by destruct (orchestration_failed_no_save _ _ _ Hin). }
  2: { subst run. unfold orchestrate_analysis. rewrite Hinit, Hfmt. cbn [fst snd].
       split; [split; [done|by intros (? & ? & ? & ? & ? & _)]|].
       split; [done|]. split; [done|]. by intros r b Hin%elem_of_nil. }
  destruct (orchestrate_analysis_started w fmt config repo_path org_name to_version
              scope max_repos keep_clones provider service Hinit Hfmt)
    as [starting Hrun].
  fold run in Hrun. cbv zeta in Hrun.
  set (analysis := run_analysis w service repo_path org_name to_version scope max_repos
                     keep_clones provider true) in *.
  pose proof (fun r b => printed_no_save starting (trace_of analysis) r b) as Hnosave.
  destruct (value_of analysis) as [[result|]|e1|] eqn:Hv.
  - assert (forall tail, (forall r b, CliSave r b ∉ tail) ->
              forall r b,
                CliSave r b ∈ ((CliPrint starting :: map cli_of_event (trace_of analysis))
                               ++ [CliPrint (_print_analysis_complete result);
                                   CliSave result (opt_str_truthy org_name)]) ++ tail ->
                b = opt_str_truthy org_name /\
                (exists service0,
                   Ok service = Ok service0 /\
                   value_of (run_analysis w service0 repo_path org_name to_version scope
                               max_repos keep_clones provider true) = Ok (Some r)) /\
                exists pre post,
                  ((CliPrint starting :: map cli_of_event (trace_of analysis))
                   ++ [CliPrint (_print_analysis_complete result);
                       CliSave result (opt_str_truthy org_name)]) ++ tail
                  = pre ++ [CliPrint (_print_analysis_complete r); CliSave r b] ++ post /\
                  (forall r b, CliSave r b ∉ pre) /\
                  (forall r b, CliSave r b ∉ post)) as Hsave.
    { intros tail Htail r b Hin.
      apply save_position in Hin as [-> ->]; [|done|done].
      split; [done|]. split; [by exists service|].
      exists (CliPrint starting :: map cli_of_event (trace_of analysis)), tail.
      split; [by rewrite <- app_assoc|done]. }
    destruct (format_and_save fmt result (opt_str_truthy org_name))
      as [out|e2|] eqn:Hsaved; rewrite Hrun; cbn [fst snd].
    + split; [split; [intros _; by exists service, result, out|done]|].
      split; [intros _; eexists; by rewrite !app_assoc|].
      split.
      { intros s' r' e' [= <-] _ Hr. fold analysis in Hr. rewrite Hv in Hr.
        injection Hr as <-. congruence. }
      apply Hsave. intros r b [Hin|Hin]%elem_of_app.
      * by destruct (lines_no_save _ _ _ Hin).
      * by apply list_elem_of_singleton in Hin.
    + split.
      { split; [done|]. intros (s' & r' & o' & [= <-] & _ & Hr & Hs). fold analysis in Hr.
        rewrite Hv in Hr. injection Hr as <-. congruence. }
      split; [done|]. split.
      { intros s' r' e' [= <-] _ Hr Hraise. fold analysis in Hr. rewrite Hv in Hr.
        injection Hr as <-. rewrite Hsaved in Hraise. injection Hraise as <-.
        split; [done|]. by eexists. }
      apply Hsave. intros r b Hin. by destruct (orchestration_failed_no_save _ _ _ Hin).
    + split.
      { split; [done|]. intros (s' & r' & o' & [= <-] & _ & Hr & Hs). fold analysis in Hr.
        rewrite Hv in Hr. injection Hr as <-. congruence. }
      split; [done|]. split.
      { intros s' r' e' [= <-] _ Hr Hraise. fold analysis in Hr. rewrite Hv in Hr.
        injection Hr as <-. congruence. }
      rewrite <- (app_nil_r ((CliPrint starting :: _) ++ [_; _])).
      apply Hsave. by intros ? ? ?%elem_of_nil.
  - rewrite Hrun. cbn [fst snd]. split.
    { split; [done|]. intros (s' & r' & o' & [= <-] & _ & Hr & _). fold analysis in Hr.
      by rewrite Hv in Hr. }
    split; [done|]. split.
    { intros s' r' e' [= <-] _ Hr. fold analysis in Hr. by rewrite Hv in Hr. }
    intros r b Hin. exfalso.
    apply elem_of_app in Hin as [Hin|Hin]; [by destruct (Hnosave _ _ Hin)|].
    apply list_elem_of_singleton in Hin. done.
  - rewrite Hrun. cbn [fst snd]. split.
    { split; [done|]. intros (s' & r' & o' & [= <-] & _ & Hr & _). fold analysis in Hr.
      by rewrite Hv in Hr. }
    split; [done|]. split.
    { intros s' r' e' [= <-] _ Hr. fold analysis in Hr. by rewrite Hv in Hr. }
    intros r b Hin. exfalso.
    apply elem_of_app in Hin as [Hin|Hin]; [by destruct (Hnosave _ _ Hin)|].
    by destruct (orchestration_failed_no_save _ _ _ Hin).
  - rewrite Hrun. cbn [fst snd]. split.
    { split; [done|]. intros (s' & r' & o' & [= <-] & _ & Hr & _). fold analysis in Hr.
      by rewrite Hv in Hr. }
    split; [done|]. split.
    { intros s' r' e' [= <-] _ Hr. fold analysis in Hr. by rewrite Hv in Hr. }
    intros r b Hin. by destruct (Hnosave _ _ Hin).
Qed.

Lemma X16_orchestrate_success_witness :
  snd (orchestrate_analysis demo_world demo_formatter demo_config None (Some "/org")
         "21" "all-deprecations" 4 true "github") = Ok true.
Proof.
  apply (proj1 (X16_orchestrate_success demo_world demo_formatter demo_config
                  None (Some "/org") "21" "all-deprecations" 4 true "github")).
  eexists demo_service, _, _. split; [reflexivity|]. split; [reflexivity|].
  split; [vm_compute; reflexivity | reflexivity].
Defined.

(** X17: when the configuration's [graphshift] entry is not a dictionary
    the orchestrator fails before anything is started: it prints "Operation
    failed: " followed by the attribute error of that entry, which names
    the entry's type, logs it, and returns [False]; and when [run_analysis] comes back with [None] it prints "Operation
    failed: Analysis failed" as its last line, never calls the formatter,
    and the exit status is 1. *)
Theorem X17_orchestrate_failure (w : World) (fmt : Formatter) (config : pyval)
    (repo_path org_name : option string) (to_version scope : string)
    (max_repos : Z) (keep_clones : bool) (provider : string) :
  let run := orchestrate_analysis w fmt config repo_path org_name to_version scope
               max_repos keep_clones provider in
  (forall kvs v, config = PDict kvs -> assoc_get "graphshift" kvs = Some v ->
     (forall d, v <> PDict d) ->
     run = ([ CliPrint ("Operation failed: '" +:+ py_type_name v
                        +:+ "' object has no attribute 'get'");
              CliLogError ("Orchestration failed: '" +:+ py_type_name v
                           +:+ "' object has no attribute 'get'") ],
            Ok false)) /\
  (forall service,
     AnalysisService_init w config = Ok service ->
     create_output_formatter fmt = Ok tt ->
     value_of (run_analysis w service repo_path org_name to_version scope max_repos
                 keep_clones provider true) = Ok None ->
     snd run = Ok false /\
     exit_status false = 1%Z /\
     last (fst run) = Some (CliPrint "Operation failed: Analysis failed") /\
     forall ev, ev ∈ fst run -> forall r b, ev <> CliSave r b).
Proof.
  intros run. split.
  - intros kvs v -> Hgs Hv. subst run. unfold orchestrate_analysis.
    assert (AnalysisService_init w (PDict kvs) = Raise (no_get v)) as ->.
    { unfold AnalysisService_init. rewrite BaseAnalyzer_init_dict, Hgs.
      cbn [default from_option id].
      destruct v as [| | | | |d]; try done. by destruct (Hv d). }
    by destruct v.
  - intros service Hinit Hfmt Hnone.
    destruct (orchestrate_analysis_started w fmt config repo_path org_name to_version
                scope max_repos keep_clones provider service Hinit Hfmt)
      as [starting Hrun].
    fold run in Hrun. cbv zeta in Hrun. rewrite Hnone in Hrun. rewrite Hrun.
    cbn [fst snd]. split; [done|]. split; [done|]. split; [by rewrite last_snoc|].
    intros ev Hin r b ->.
    apply elem_of_app in Hin as [Hin|Hin].
    + apply elem_of_cons in Hin as [?|Hin]; [done|].
      apply elem_of_map_iff in Hin as (ev & Hev & _). by destruct ev.
    + by apply list_elem_of_singleton in Hin.
Qed.

Lemma X17_orchestrate_failure_witness :
  orchestrate_analysis demo_world demo_formatter (PDict [("graphshift", PStr "off")])
    None (Some "/org") "21" "all-deprecations" 50 true "github"
  = ([ CliPrint "Operation failed: 'str' object has no attribute 'get'";
       CliLogError "Orchestration failed: 'str' object has no attribute 'get'" ],
     Ok false) /\
  snd (orchestrate_analysis demo_world demo_formatter demo_config None (Some "/empty")
         "21" "all-deprecations" 50 true "github") = Ok false /\
  last (fst (orchestrate_analysis demo_world demo_formatter demo_config None
               (Some "/empty") "21" "all-deprecations" 50 true "github"))
  = Some (CliPrint "Operation failed: Analysis failed").
Proof.
  split.
  - apply (proj1 (X17_orchestrate_failure demo_world demo_formatter
                    (PDict [("graphshift", PStr "off")]) None (Some "/org") "21"
                    "all-deprecations" 50 true "github")
             [("graphshift", PStr "off")] (PStr "off"));
      [reflexivity | reflexivity | discriminate].
  - destruct (proj2 (X17_orchestrate_failure demo_world demo_formatter demo_config None
                (Some "/empty") "21" "all-deprecations" 50 true "github") demo_service)
      as (Hv & _ & Hl & _); [reflexivity | reflexivity | vm_compute; reflexivity |].
    by split.
Defined.

(** ** Retention by default *)

Lemma analysis_event_not_cleanup ev : analysis_event ev = true -> not_cleanup ev = true.
Proof. by destruct ev. Qed.

Lemma discovery_event_not_cleanup ev : discovery_event ev = true -> not_cleanup ev = true.
Proof. by destruct ev. Qed.

Lemma base_repo_analyzer_only_analysis_events w self lp name v sc cb :
  only analysis_event (_base_repo_analyzer w self lp name v sc cb).
Proof.
  unfold _base_repo_analyzer.
  repeat first [apply analyze_directory_only_analysis_events | only_step].
Qed.

Lemma single_repo_never_cleans w self p v sc cb :
  only not_cleanup (_analyze_single_repo w self p v sc cb).
Proof.
  unfold _analyze_single_repo.
  repeat first
    [ apply (only_weaken analysis_event not_cleanup _ analysis_event_not_cleanup),
        base_repo_analyzer_only_analysis_events
    | only_step ].
Qed.

Lemma organization_retained_never_cleans w self org v sc max prov cb :
  only not_cleanup (_analyze_organization w self org v sc max true prov cb).
Proof.
  unfold _analyze_organization.
  apply only_bind.
  { apply (only_weaken discovery_event not_cleanup _ discovery_event_not_cleanup),
      discovery_only_discovery_events. }
  intros [items paths]. destruct (is_nil items); [apply only_raise|].
  apply only_bind; [by apply only_notify|]. intros _.
  apply only_bind.
  { apply (only_weaken analysis_event not_cleanup _ analysis_event_not_cleanup),
      parallel_only_analysis_events. }
  intros rs. rewrite andb_false_r.
  repeat only_step.
Qed.

Lemma run_analysis_retained_never_cleans w self repo_path org_name v sc max prov cb :
  only not_cleanup (run_analysis w self repo_path org_name v sc max true prov cb).
Proof.
  unfold run_analysis. apply only_try; [|intros e; repeat only_step].
  destruct (opt_str_truthy repo_path); [|destruct (opt_str_truthy org_name)].
  - apply only_bind; [apply single_repo_never_cleans|intros; apply only_ret].
  - apply only_bind; [apply organization_retained_never_cleans|intros; apply only_ret].
  - apply only_raise.
Qed.

Lemma orchestrate_service_events w fmt config repo_path org_name v sc max keep prov ev :
  CliService ev ∈ fst (orchestrate_analysis w fmt config repo_path org_name v sc max
                         keep prov) ->
  exists service,
    AnalysisService_init w config = Ok service /\
    ev ∈ trace_of (run_analysis w service repo_path org_name v sc max keep prov true).
Proof.
  unfold orchestrate_analysis.
  assert (forall e, CliService ev ∈ orchestration_failed e -> False) as Hfail.
  { intros e [?|Hin]%elem_of_cons; [done|]. by apply list_elem_of_singleton in Hin. }
  destruct (AnalysisService_init w config) as [service|e0|]; cbn [fst];
    [|by intros ?%Hfail|by intros ?%elem_of_nil].
  destruct (create_output_formatter fmt) as [[]|e0|]; cbn [fst];
    [|by intros ?%Hfail|by intros ?%elem_of_nil].
  intros Hin. exists service. split; [done|].
  set (analysis := run_analysis w service repo_path org_name v sc max keep prov true)
    in *.
  assert (forall starting,
            CliService ev ∈ CliPrint starting :: map cli_of_event (trace_of analysis) ->
            ev ∈ trace_of analysis) as Hpre.
  { intros starting [?|Hx]%elem_of_cons; [done|].
    apply elem_of_map_iff in Hx as (ev' & Heq & Hin').
    symmetry in Heq. by apply cli_of_event_service in Heq as ->. }
  destruct (value_of analysis) as [[result|]|e1|]; cbn [fst] in Hin.
  - destruct (format_and_save fmt result (opt_str_truthy org_name)) as [out|e2|];
      cbn [fst] in Hin.
    + rewrite <- !app_assoc in Hin. apply elem_of_app in Hin as [Hin|Hin]; [eauto|].
      exfalso. apply elem_of_cons in Hin as [?|Hin]; [done|].
      apply elem_of_cons in Hin as [?|Hin]; [done|].
      apply elem_of_app in Hin as [Hin|Hin].
      * apply elem_of_map_iff in Hin as (? & ? & _). done.
      * by apply list_elem_of_singleton in Hin.
    + rewrite <- !app_assoc in Hin. apply elem_of_app in Hin as [Hin|Hin]; [eauto|].
      exfalso. apply elem_of_cons in Hin as [?|Hin]; [done|].
      apply elem_of_cons in Hin as [?|Hin]; [done|]. eauto.
    + apply elem_of_app in Hin as [Hin|Hin]; [eauto|].
      exfalso. apply elem_of_cons in Hin as [?|Hin]; [done|].
      by apply list_elem_of_singleton in Hin.
  - apply elem_of_app in Hin as [Hin|Hin]; [eauto|].
    by apply list_elem_of_singleton in Hin.
  - apply elem_of_app in Hin as [Hin|Hin]; [eauto|]. by destruct (Hfail e1).
  - eauto.
Qed.

(** X18: unless [--no-keep-clones] is given, the [analyze] command never
    invokes cleanup, whatever target is analysed: clones are retained by
    default. *)
Theorem X18_clones_retained_by_default (w : World) (fmt : Formatter) (config : pyval)
    (args : AnalyzeArgs) :
  arg_no_keep_clones args = false ->
  forall ev, ev ∈ fst (main_analyze w fmt config args) ->
             forall items, ev <> CliService (EvCleanup items).
Proof.
  intros Hkeep ev Hin items ->. unfold main_analyze in Hin. rewrite Hkeep in Hin.
  cbn [negb] in Hin.
  apply orchestrate_service_events in Hin as (service & _ & Hin).
  pose proof (run_analysis_retained_never_cleans w service
                (opt_or (arg_repo args) (arg_local_path args))
                (opt_or (arg_org args) (arg_local_org args))
                (arg_to_version args) (arg_scope args) (arg_max_repos args)
                (arg_provider args) true) as Ho.
  by apply (proj1 (Forall_forall _ _) Ho) in Hin.
Qed.

Lemma X18_clones_retained_by_default_witness :
  ~ CliService (EvCleanup []) ∈
      fst (main_analyze demo_world demo_formatter demo_config demo_args).
Proof.
  intros Hin.
  exact (X18_clones_retained_by_default demo_world demo_formatter demo_config demo_args
           eq_refl _ Hin [] eq_refl).
Defined.

(** * Logs and labels of a batch *)

Lemma analyze_directory_truthy_trace w ba d v sc raw :
  value_of (analyze_directory w ba d v sc) = Ok raw -> truthy raw = true ->
  trace_of (analyze_directory w ba d v sc) = [EvJar (jar_command ba d v sc)].
Proof.
  unfold analyze_directory. rewrite value_try_all, trace_try_all.
  destruct (negb (path_exists w d) || negb (path_is_dir w d)).
  { simpl. by intros [= <-]. }
  rewrite value_bind, trace_bind. cbn [value_of emit snd trace_of fst].
  rewrite value_bind, trace_bind, value_lift, trace_lift.
  destruct (jar_run w _) as [[rc stderr]| |];
    try (simpl; by intros [= <-]); try done.
  destruct (rc =? 0)%Z; [|simpl; by intros [= <-]].
  destruct (artifact_after w _ _) as [[content| |]|];
    try (simpl; by intros [= <-]); try done.
  rewrite value_bind, trace_bind, value_lift, trace_lift.
  rewrite value_bind, trace_bind, value_lift, trace_lift.
  destruct (artifact_unlink w _ _) as [[]| |];
    try (simpl; by intros [= <-]); try done.
Qed.

Lemma base_repo_analyzer_Ok_trace w self lp name v sc cb r :
  value_of (_base_repo_analyzer w self lp name v sc cb) = Ok r ->
  Forall (fun ev => is_error_log ev = false)
         (trace_of (_base_repo_analyzer w self lp name v sc cb)).
Proof.
  intros Hr. pose proof (base_repo_analyzer_Ok _ _ _ _ _ _ _ _ Hr)
    as (_ & _ & raw & Hraw & Ht).
  revert Hr. unfold _base_repo_analyzer.
  rewrite value_bind, trace_bind, value_notify, value_bind, trace_bind, Hraw, Ht.
  rewrite (analyze_directory_truthy_trace _ _ _ _ _ _ Hraw Ht). cbn [negb].
  rewrite value_bind, trace_bind, value_lift, trace_lift.
  destruct (match raw with PList _ => Ok raw | _ => dict_get raw "findings" (PList []) end)
    as [fs| |]; try done.
  rewrite value_bind, trace_bind, value_lift, trace_lift.
  destruct (len fs) as [n| |]; try done.
  rewrite value_bind, trace_bind, value_notify. intros _.
  cbn [trace_of ret fst]. rewrite !app_nil_l, app_nil_r.
  apply Forall_app. split; [by destruct cb; repeat constructor|].
  constructor; [done|]. by destruct cb; repeat constructor.
Qed.

(** X19: the error log tells the failed items from the others: a task whose
    outcome is a failure ends its events with "Analysis failed for <name>:
    <reason>" under the item's own name, a task that succeeds logs no error
    at all and labels its result with that name; and the filter behind the
    join adds no event, its "Analysis task failed" branch is never taken. *)
Theorem X19_error_logs_identify_failures (w : World) (self : AnalysisService)
    (to_version scope : string) (progress_callback is_local : bool)
    (items : list RepoItem) :
  let task := analyze_single_item w self to_version scope progress_callback is_local in
  (forall item, well_shaped is_local item = true ->
     value_of (task item) = Ok None ->
     exists events reason,
       trace_of (task item)
       = events ++ [EvLogError ("Analysis failed for " +:+ item_name w item +:+ ": "
                                +:+ reason)]) /\
  (forall item r, value_of (task item) = Ok (Some r) ->
     Forall (fun ev => is_error_log ev = false) (trace_of (task item)) /\
     repository r = item_name w item) /\
  (forall rs,
     value_of (_parallel_repo_analysis w self items to_version scope progress_callback
                 is_local) = Ok rs ->
     trace_of (_parallel_repo_analysis w self items to_version scope progress_callback
                 is_local)
     = concat (map (fun item => trace_of (task item)) items)).
Proof.
  intros task. subst task. split; [|split].
  - intros item Hshape. unfold analyze_single_item.
    rewrite value_try_all, trace_try_all.
    destruct is_local, item as [p|c]; try done; cbn [item_name];
      rewrite value_bind;
      destruct (value_of (_base_repo_analyzer _ _ _ _ _ _ _)) as [r| |]; try done;
      intros _; eexists _, _; cbn [trace_of log_error emit mbind M_bind bind ret fst];
      reflexivity.
  - intros item r. unfold analyze_single_item.
    rewrite value_try_all, trace_try_all.
    destruct is_local, item as [p|c]; try done; cbn [item_name];
      rewrite value_bind, trace_bind;
      destruct (value_of (_base_repo_analyzer _ _ _ _ _ _ _)) as [r0| |] eqn:Hr;
      try done; intros [= <-]; cbn [trace_of ret fst]; rewrite !app_nil_r;
      (split; [by eapply base_repo_analyzer_Ok_trace
              | by apply base_repo_analyzer_Ok in Hr as (? & _)]).
  - intros rs Hrs. pose proof (parallel_Ok _ _ _ _ _ _ _ _ Hrs) as (_ & Hall & _).
    revert Hrs. unfold _parallel_repo_analysis.
    rewrite value_bind, trace_bind, value_lift, trace_lift, app_nil_l.
    destruct (Semaphore _) as [C| |]; try done.
    rewrite value_bind, trace_bind.
    destruct (gather_under_cases C
                (map (analyze_single_item w self to_version scope progress_callback
                        is_local) items)) as [(_ & _ & ->)|(_ & ->)]; [done|].
    rewrite gather_value.
    rewrite (proj2 (existsb_is_hang_false _ _ _ _ _ _ _) Hall). intros _.
    rewrite collect_successful_trace, app_nil_r.
    + unfold gather, trace_of at 1. cbn [fst]. by rewrite map_map.
    + apply Forall_forall. intros x Hx e ->.
      apply elem_of_map_iff in Hx as (item & Hx & _).
      symmetry in Hx. by apply (outcome_never_raises w self to_version scope
                                  progress_callback is_local item e).
Qed.

Lemma X19_error_logs_identify_failures_witness :
  exists events reason,
    trace_of (analyze_single_item demo_world demo_service "21" "all-deprecations" true
                true (LocalItem "/org/c"))
    = events ++ [EvLogError ("Analysis failed for c: " +:+ reason)].
Proof.
  apply (proj1 (X19_error_logs_identify_failures demo_world demo_service "21"
                  "all-deprecations" true true []) (LocalItem "/org/c"));
    [reflexivity | vm_compute; reflexivity].
Defined.

(** * A progress callback that returns *)

Lemma sbp_bind {A B} (m1 m2 : M A) (f1 f2 : A -> M B) :
  same_but_progress m1 m2 -> (forall a, same_but_progress (f1 a) (f2 a)) ->
  same_but_progress (m1 ≫= f1) (m2 ≫= f2).
Proof.
  intros [Hv Ht] Hf. split.
  - rewrite !value_bind, Hv. destruct (value_of m2); [apply Hf|done|done].
  - rewrite !trace_bind, Ht, List.filter_app, Hv. f_equal.
    destruct (value_of m2); [apply Hf|done|done].
Qed.

Lemma sbp_notify msg : same_but_progress (notify true msg) (notify false msg).
Proof. by split. Qed.

Lemma sbp_quiet {A} (m : M A) : only not_progress m -> same_but_progress m m.
Proof.
  intros H. split; [done|]. unfold only in H.
  induction H as [|ev t Hev _ IH]; [done|]. simpl. by rewrite Hev, <- IH.
Qed.

Lemma sbp_try {A} (b1 b2 : M A) classes (h1 h2 : exn -> M A) :
  same_but_progress b1 b2 -> (forall e, same_but_progress (h1 e) (h2 e)) ->
  same_but_progress (try_except b1 classes h1) (try_except b2 classes h2).
Proof.
  intros [Hv Ht] Hh. unfold same_but_progress, try_except, value_of, trace_of in *.
  destruct b1 as [t1 r1], b2 as [t2 r2]. simpl in *. subst.
  destruct r2 as [a|e|]; try done.
  destruct (caught_by classes e); [|done].
  destruct (Hh e) as [Hv' Ht']. destruct (h1 e), (h2 e). simpl in *. subst.
  by rewrite List.filter_app.
Qed.

Lemma analyze_directory_quiet w ba d v sc :
  only not_progress (analyze_directory w ba d v sc).
Proof. unfold analyze_directory. repeat only_step. Qed.

Ltac sbp_step :=
  first
    [ apply sbp_notify
    | apply sbp_quiet, analyze_directory_quiet
    | apply sbp_quiet; repeat only_step; fail
    | apply sbp_bind; [|intros ?]
    | apply sbp_try; [|intros ?]
    | match goal with
      | |- same_but_progress (if ?x then _ else _) _ => destruct x
      | |- same_but_progress (let '(_, _) := ?x in _) _ => destruct x
      | |- same_but_progress (match ?x with _ => _ end) _ => destruct x
      end ].

Lemma sbp_base_repo_analyzer w self lp name v sc :
  same_but_progress (_base_repo_analyzer w self lp name v sc true)
                    (_base_repo_analyzer w self lp name v sc false).
Proof. unfold _base_repo_analyzer. repeat sbp_step. Qed.

Lemma sbp_analyze_single_item w self v sc loc item :
  same_but_progress (analyze_single_item w self v sc true loc item)
                    (analyze_single_item w self v sc false loc item).
Proof.
  unfold analyze_single_item.
  apply sbp_try; [|intros e; apply sbp_quiet; repeat only_step].
  destruct loc, item; repeat first [apply sbp_base_repo_analyzer | sbp_step].
Qed.

Lemma sbp_gather_under {A} C (t1 t2 : RepoItem -> M A) items :
  (forall it, same_but_progress (t1 it) (t2 it)) ->
  same_but_progress (gather_under C (map t1 items)) (gather_under C (map t2 items)).
Proof.
  intros H.
  assert (map value_of (map t1 items) = map value_of (map t2 items)) as Hv.
  { induction items as [|it items IH]; [done|]. simpl. rewrite IH.
    by rewrite (proj1 (H it)). }
  assert (concat (map trace_of (map t2 items))
          = List.filter not_progress (concat (map trace_of (map t1 items)))) as Ht.
  { clear Hv. induction items as [|it items IH]; [done|]. simpl.
    rewrite List.filter_app, <- IH. by rewrite (proj2 (H it)). }
  assert (same_but_progress (gather (map t1 items)) (gather (map t2 items))) as Hg.
  { split.
    - change (value_of (gather (map t1 items)))
        with (if existsb is_hang (map value_of (map t1 items))
              then @Hang (list (result A)) else Ok (map value_of (map t1 items))).
      by rewrite Hv.
    - change (trace_of (gather (map t2 items)))
        with (concat (map trace_of (map t2 items))).
      by rewrite Ht. }
  destruct C as [|C], items as [|it items]; try exact Hg. by split.
Qed.

Lemma sbp_parallel w self items v sc loc :
  same_but_progress (_parallel_repo_analysis w self items v sc true loc)
                    (_parallel_repo_analysis w self items v sc false loc).
Proof.
  unfold _parallel_repo_analysis.
  apply sbp_bind; [apply sbp_quiet, only_lift|]. intros C.
  apply sbp_bind; [apply sbp_gather_under; intros; apply sbp_analyze_single_item|].
  intros results. apply sbp_quiet.
  induction results as [|r rest IH]; [constructor|].
  destruct r as [[x|]|e|]; cbn [collect_successful]; repeat first [exact IH | only_step].
Qed.

Lemma sbp_discover w self org max keep prov :
  same_but_progress (discover_repo_items w self org max keep prov true)
                    (discover_repo_items w self org max keep prov false).
Proof.
  unfold discover_repo_items, _discover_and_clone_remote_repos. repeat sbp_step.
Qed.

Lemma sbp_organization w self org v sc max keep prov :
  same_but_progress (_analyze_organization w self org v sc max keep prov true)
                    (_analyze_organization w self org v sc max keep prov false).
Proof.
  unfold _analyze_organization, _cleanup_cloned_repos.
  apply sbp_bind; [apply sbp_discover|]. intros [items paths].
  destruct (is_nil items); [apply sbp_quiet, only_raise|].
  apply sbp_bind; [apply sbp_notify|]. intros _.
  apply sbp_bind; [apply sbp_parallel|]. intros rs.
  repeat sbp_step.
Qed.

Lemma sbp_single_repo w self p v sc :
  same_but_progress (_analyze_single_repo w self p v sc true)
                    (_analyze_single_repo w self p v sc false).
Proof.
  unfold _analyze_single_repo.
  repeat first [apply sbp_base_repo_analyzer | sbp_step].
Qed.

(** X20: the services use the callback for nothing but the notes they hand
    it.  Given a callback that returns from every call, as the command
    line's [_print_progress] does, [run_analysis] returns the value it
    returns without a callback, and what happens without one is what
    happens with one minus the notes, in the same order.  (A callback that
    raises is not covered.) *)
Theorem X20_returning_callback_only_adds_notes (w : World) (self : AnalysisService)
    (repo_path org_name : option string) (to_version scope : string)
    (max_repos : Z) (keep_clones : bool) (provider : string) :
  let noted := run_analysis w self repo_path org_name to_version scope max_repos
                 keep_clones provider true in
  let silent := run_analysis w self repo_path org_name to_version scope max_repos
                  keep_clones provider false in
  value_of noted = value_of silent /\
  trace_of silent = List.filter not_progress (trace_of noted) /\
  (forall ev, ev ∈ trace_of silent -> not_progress ev = true).
Proof.
  intros noted silent.
  assert (same_but_progress noted silent) as [Hv Ht].
  { subst noted silent. unfold run_analysis.
    apply sbp_try; [|intros e; apply sbp_quiet; repeat only_step].
    destruct (opt_str_truthy repo_path); [|destruct (opt_str_truthy org_name)].
    - apply sbp_bind; [apply sbp_single_repo|intros; apply sbp_quiet, only_ret].
    - apply sbp_bind; [apply sbp_organization|intros; apply sbp_quiet, only_ret].
    - apply sbp_quiet, only_raise. }
  split; [done|]. split; [done|].
  intros ev. rewrite Ht, list_elem_of_In, List.filter_In. by intros [_ ?].
Qed.

Lemma X20_returning_callback_only_adds_notes_witness :
  value_of (run_analysis demo_world demo_service None (Some "/org") "21"
              "all-deprecations" 4 true "github" true)
  = value_of (run_analysis demo_world demo_service None (Some "/org") "21"
                "all-deprecations" 4 true "github" false).
Proof.
  exact (proj1 (X20_returning_callback_only_adds_notes demo_world demo_service None
                  (Some "/org") "21" "all-deprecations" 4 true "github")).
Defined.
